(** * COBANKER back office: the financial ledger and lifecycle engine

    A shallow embedding of the balance, deposit, share and dividend code of
    the repository, and the properties its specification states about it.

    - [Ledger], [LedgerDouble] : [POST /api/v1/transactions] of
                       [backend/stable-server.js]
    - [FixedDeposit], [FixedDepositDouble] :
                       [FixedDeposit.calculateMaturityAmount], [mature] and
                       [prematureClose] of [models/FixedDeposit.js]
    - [Store]        : the tables of the hosted store the models query
    - [Share]        : [Share.transfer] and [Share.createTransaction] of
                       [models/Share.js], and the transfer route with its
                       request validator
    - [Dividend]     : [Dividend.create], [update], [approve], [distribute]
                       and [cancel] of [models/Dividend.js]

    JavaScript numbers are IEEE 754 doubles.  [LedgerDouble] and
    [FixedDepositDouble] compute with them: the kernel's binary64 floats,
    [+], [-], [*], [/], [<] and [<=] being the IEEE operations, NaN and the
    infinities included, and [Math.pow] an input.  Every statement about
    the result of an addition, a subtraction or a rounding is made there.

    [Ledger] and [FixedDeposit] are the same code over exact numbers
    (rationals, reals).  They carry the statements in which no arithmetic
    result appears (which entries are written, which answers are given,
    which status follows which) and the order relations between amounts. *)

From Stdlib Require Import List String Bool Arith ZArith QArith Lia Lqa.
From Stdlib Require Import DecimalString Qround.
From Stdlib Require Import Reals Lra.
From Stdlib Require Floats.
Import ListNotations.

Set Warnings "-inexact-float".

(** What an [async] method of a model delivers: the value it returns, or
    the message of the [Error] it throws.  A validation failure is thrown
    as "Validation error: " followed by Joi's sentence for the first
    failing field; the message kept here is the prefix, "Validation
    error", without that sentence. *)
Inductive result (A : Type) : Type :=
| Ok (value : A)
| Throw (message : string).
Arguments Ok {A} value.
Arguments Throw {A} message.

(* ================================================================== *)
(** * Account ledger: [POST /api/v1/transactions], exact amounts *)
(* ================================================================== *)

(** The handler with amounts and balances as exact rationals.  It is the
    control flow of the handler (which answer, which entry, which counter)
    that is read off this module; what the handler computes with its
    doubles is [LedgerDouble]. *)
Module Ledger.

Local Open Scope string_scope.
Local Open Scope list_scope.
Local Open Scope Q_scope.

(** The in-memory account object pushed by [POST /api/v1/accounts].  The
    handler below reads [id] and [balance] and writes [balance] and
    [updated_at]; [account_number], [bank_id], [branch_id] and
    [created_at], which it never touches, are left out. *)
Record account := mkAccount {
  acc_id : string;
  customer_id : string;
  account_type : string;
  balance : Q;
  acc_status : string;
  updated_at : nat
}.

(** [newTransaction] of the handler. *)
Record transaction := mkTransaction {
  txn_id : nat;                 (* the n of `transaction_${n}` *)
  txn_account_id : string;
  txn_type : string;
  amount : Q;
  description : string;
  balance_before : Q;
  balance_after : Q;
  txn_status : string;
  created_at : nat
}.

(** The module-level arrays and the id counter of stable-server.js. *)
Record state := mkState {
  accounts : list account;
  transactions : list transaction;
  transactionIdCounter : nat
}.

(** [req.body] after destructuring; [req_amount] is the JSON number. *)
Record request := mkRequest {
  req_account_id : string;
  req_type : string;
  req_amount : Q;
  req_description : string
}.

(** [res.status(201).json(..)] and [res.status(400).json(..)]. *)
Inductive response :=
| Created (data : transaction) (account_balance : Q)
| BadRequest (error : string).

Definition Qlt_bool (x y : Q) : bool := negb (Qle_bool y x).

(** JavaScript truthiness of a string: only the empty string is falsy. *)
Definition falsy_string (s : string) : bool :=
  match s with EmptyString => true | _ => false end.

(** [['deposit', 'withdrawal', 'transfer'].includes(type)] *)
Definition valid_types : list string := ["deposit"; "withdrawal"; "transfer"].

Definition includes (l : list string) (s : string) : bool :=
  existsb (String.eqb s) l.

(** [accounts.find(a => a.id === account_id)] *)
Definition find_account (l : list account) (id : string) : option account :=
  find (fun a => String.eqb (acc_id a) id) l.

(** [account.balance = newBalance; account.updated_at = ...] on the object
    that [find] returned: the first element of the array with that id is
    the one mutated. *)
Fixpoint mutate_account (l : list account) (id : string) (b : Q) (now : nat)
  : list account :=
  match l with
  | [] => []
  | a :: r =>
      if String.eqb (acc_id a) id
      then mkAccount (acc_id a) (customer_id a) (account_type a) b
                     (acc_status a) now :: r
      else a :: mutate_account r id b now
  end.

(** The "Calculate new balance" block: [None] is the early
    [return res.status(400)] of the withdrawal branch. *)
Definition calc_new_balance (ty : string) (bal amt : Q) : option Q :=
  if String.eqb ty "deposit" then Some (bal + amt)
  else if String.eqb ty "withdrawal" then
    if Qlt_bool bal amt then None else Some (bal - amt)
  else Some bal.

(** The handler of [POST /api/v1/transactions]; [now] is the clock. *)
Definition post_transaction (now : nat) (st : state) (req : request)
  : state * response :=
  if falsy_string (req_account_id req) || falsy_string (req_type req)
     || Qeq_bool (req_amount req) 0
  then (st, BadRequest "Account ID, type, and amount are required")
  else if negb (includes valid_types (req_type req))
  then (st, BadRequest "Transaction type must be deposit, withdrawal, or transfer")
  else
    let transactionAmount := req_amount req in
    if Qle_bool transactionAmount 0
    then (st, BadRequest "Amount must be greater than 0")
    else
      match find_account (accounts st) (req_account_id req) with
      | None => (st, BadRequest "Account not found")
      | Some account =>
          match calc_new_balance (req_type req) (balance account)
                                 transactionAmount with
          | None => (st, BadRequest "Insufficient funds")
          | Some newBalance =>
              let newTransaction :=
                mkTransaction (transactionIdCounter st) (req_account_id req)
                  (req_type req) transactionAmount (req_description req)
                  (balance account) newBalance "completed" now in
              (mkState
                 (mutate_account (accounts st) (req_account_id req)
                                 newBalance now)
                 (transactions st ++ [newTransaction])
                 (S (transactionIdCounter st)),
               Created newTransaction newBalance)
          end
      end.

(** The balance a later request would read for [id]. *)
Definition balance_of (st : state) (id : string) : option Q :=
  option_map balance (find_account (accounts st) id).

(** The transfer property of the specification: a committed transfer takes
    the amount off the balance of the account it names. *)
Definition transfer_debits_source : Prop :=
  forall now st req st' t b bal,
    req_type req = "transfer" ->
    post_transaction now st req = (st', Created t b) ->
    balance_of st (req_account_id req) = Some bal ->
    exists bal', balance_of st' (req_account_id req) = Some bal' /\
                 bal' == bal - req_amount req.

Definition st0 : state :=
  mkState [mkAccount "account_1" "customer_1" "savings" 1000 "active" 0;
           mkAccount "account_2" "customer_2" "savings" 50 "active" 0] [] 1.

End Ledger.

(* ================================================================== *)
(** * Fixed deposits: [models/FixedDeposit.js], exact amounts *)
(* ================================================================== *)

(** The deposit computations over the reals: the status transitions and
    the order between amounts are read off this module; the amounts the
    code returns, computed with doubles, are [FixedDepositDouble]. *)
Module FixedDeposit.

Local Open Scope string_scope.
Local Open Scope R_scope.

(** [FD_STATUS] *)
Definition ACTIVE := "active".
Definition MATURED := "matured".
Definition PREMATURE_CLOSED := "premature_closed".
Definition RENEWED := "renewed".
Definition PENDING := "pending".

(** The fields of a [FixedDeposit] instance that the computations read or
    write. *)
Record fixed_deposit := mkFD {
  principal_amount : R;
  interest_rate : R;
  tenure_months : R;
  maturity_amount : R;
  status : string
}.

(** [!x] for a number: true exactly for 0 (the model has no NaN). *)
Definition falsy (x : R) : bool := if Req_dec_T x 0 then true else false.

(** [Math.pow] on a positive base, where it is the real power function.
    Every base below is [1 + rate / 400]. *)
Definition Math_pow (x y : R) : R := Rpower x y.

(** [Math.round]: the nearest integer, halves rounded up. *)
Definition Math_round (x : R) : R := IZR (Zfloor (x + / 2)).

(** [calculateMaturityAmount()], on the three fields it reads. *)
Definition calculateMaturityAmount (principal_amount interest_rate
                                    tenure_months : R) : R :=
  if falsy principal_amount || falsy interest_rate || falsy tenure_months
  then 0
  else
    let principal := principal_amount in
    let rate := interest_rate / 100 in
    let time := tenure_months / 12 in
    let compoundingFrequency := 4 in
    let maturityAmount :=
      principal * Math_pow (1 + rate / compoundingFrequency)
                           (compoundingFrequency * time) in
    Math_round (maturityAmount * 100) / 100.

(** The part of the constructor that sets the amounts and the status:
    [data.maturity_amount || this.calculateMaturityAmount()] and
    [data.status || FD_STATUS.PENDING]. *)
Definition new_FixedDeposit (data_principal data_rate data_tenure : R)
    (data_maturity_amount : option R) (data_status : option string)
  : fixed_deposit :=
  mkFD data_principal data_rate data_tenure
    (match data_maturity_amount with
     | Some m =>
         if falsy m
         then calculateMaturityAmount data_principal data_rate data_tenure
         else m
     | None => calculateMaturityAmount data_principal data_rate data_tenure
     end)
    (match data_status with
     | Some s => if String.eqb s "" then PENDING else s
     | None => PENDING
     end).

(** [mature()]; [store_ok] is whether the update of the row succeeds. *)
Definition mature (store_ok : bool) (this : fixed_deposit)
  : result fixed_deposit :=
  if negb (String.eqb (status this) ACTIVE)
  then Throw "Only active FDs can be matured"
  else if negb store_ok then Throw "Failed to mature fixed deposit"
  else Ok (mkFD (principal_amount this) (interest_rate this)
                (tenure_months this) (maturity_amount this) MATURED).

(** The amount [prematureClose] computes from the elapsed months. *)
Definition prematureAmount (this : fixed_deposit) (monthsCompleted : Z)
    (penaltyRate : R) : R :=
  let reducedRate := Rmax 0 (interest_rate this - penaltyRate) in
  principal_amount this *
  Math_pow (1 + reducedRate / 100 / 4) (4 * (IZR monthsCompleted / 12)).

(** [prematureClose(penaltyRate = 1)].  [monthsCompleted] is what
    [moment().diff(moment(this.start_date), 'months')] reads off the clock:
    the whole months elapsed since the start date. *)
Definition prematureClose (store_ok : bool) (monthsCompleted : Z)
    (penaltyRate : option R) (this : fixed_deposit) : result fixed_deposit :=
  let penaltyRate := match penaltyRate with Some p => p | None => 1 end in
  if negb (String.eqb (status this) ACTIVE)
  then Throw "Only active FDs can be closed prematurely"
  else
    let prematureAmount := prematureAmount this monthsCompleted penaltyRate in
    if negb store_ok then Throw "Failed to close fixed deposit prematurely"
    else Ok (mkFD (principal_amount this) (interest_rate this)
                  (tenure_months this)
                  (Math_round (prematureAmount * 100) / 100)
                  PREMATURE_CLOSED).

End FixedDeposit.

(* ================================================================== *)
(** * The hosted store *)
(* ================================================================== *)

Module Store.

Local Open Scope string_scope.
Local Open Scope list_scope.

(** Rows of the tables, with the columns the models read or write. *)
Record member_row := mkMember {
  member_id : string;
  member_status : string
}.

Record bank_row := mkBank {
  bank_id : string;
  bank_status : string
}.

Record share_row := mkShare {
  share_member_id : string;
  number_of_shares : Z;
  share_value : Q;
  share_status : string;
  share_created_at : nat
}.

Record share_transaction_row := mkShareTransaction {
  st_id : nat;
  st_member_id : string;
  transaction_type : string;
  st_number_of_shares : Z;
  st_amount : Q;
  st_description : string;
  transaction_date : nat
}.

(** A row of [dividends]; a [Dividend] instance carries the same fields. *)
Record dividend_row := mkDividend {
  dividend_id : nat;
  dividend_year : Z;
  dividend_type : string;
  dividend_rate : Q;
  total_dividend_amount : Q;
  dividend_bank_id : string;
  dividend_status : string;
  record_date : nat;
  payment_date : nat;
  dividend_description : string;
  dividend_updated_at : nat
}.

Record distribution_row := mkDistribution {
  dd_id : nat;
  dd_dividend_id : nat;
  dd_member_id : string;
  dd_number_of_shares : Z;
  dividend_amount : Q;
  payment_status : string;
  dd_created_at : nat
}.

Record store := mkStore {
  members : list member_row;
  banks : list bank_row;
  shares : list share_row;
  share_transactions : list share_transaction_row;
  dividends : list dividend_row;
  dividend_distributions : list distribution_row
}.

(** What a model call takes from outside the program: the clock, the
    tokens [uuidv4()] hands out ([uuidv4 k] for the k-th call made during
    one operation) and Joi's [string().uuid()] test. *)
Record host := mkHost {
  now : nat;
  uuidv4 : nat -> nat;
  is_uuid : string -> bool
}.

(** A model method: it reads and writes the store and returns or throws.
    What was written before a throw stays written. *)
Definition M (A : Type) : Type := store -> store * result A.

Definition ret {A} (a : A) : M A := fun db => (db, Ok a).

Definition throw {A} (message : string) : M A := fun db => (db, Throw message).

Definition bind {A B} (c : M A) (k : A -> M B) : M B :=
  fun db =>
    match c db with
    | (db', Ok a) => k a db'
    | (db', Throw e) => (db', Throw e)
    end.

(** [s.length] of a JavaScript string, which is what Joi's [min] and [max]
    compare: the number of UTF-16 code units.  A [string] here is the
    UTF-8 text of the request; a character of one to three bytes is one
    code unit, one of four bytes is two. *)
Definition code_units (c : Ascii.ascii) : nat :=
  let n := Ascii.nat_of_ascii c in
  if (n <? 128)%nat then 1%nat
  else if (n <? 192)%nat then 0%nat
  else if (n <? 240)%nat then 1%nat
  else 2%nat.

Fixpoint js_length (s : string) : nat :=
  match s with
  | EmptyString => 0%nat
  | String c rest => (code_units c + js_length rest)%nat
  end.

(** [.single()]: the one row of the result, an error for none or several. *)
Definition single {A} (rows : list A) : option A :=
  match rows with
  | [r] => Some r
  | _ => None
  end.

(** [.maybeSingle()]: [data] is the row when there is exactly one, and
    null both for no row and, with an error, for several. *)
Definition maybeSingle {A} (rows : list A) : option A :=
  match rows with
  | [r] => Some r
  | _ => None
  end.

(** [supabase.from('members').select(..).eq('member_id', id).single()] *)
Definition select_member (db : store) (id : string) : option member_row :=
  single (filter (fun m => String.eqb (member_id m) id) (members db)).

(** [supabase.from('banks').select(..).eq('id', id).single()] *)
Definition select_bank (db : store) (id : string) : option bank_row :=
  single (filter (fun b => String.eqb (bank_id b) id) (banks db)).

End Store.

Declare Scope store_scope.
Delimit Scope store_scope with store.
Notation "x <- c ;; k" := (Store.bind c (fun x => k))
  (at level 61, c at next level, right associativity) : store_scope.

(* ================================================================== *)
(** * Share registry: [models/Share.js] and the transfer route *)
(* ================================================================== *)

Module Share.
Import Store.

Local Open Scope string_scope.
Local Open Scope list_scope.
Local Open Scope Z_scope.
Local Open Scope store_scope.

(** [SHARE_STATUS.ACTIVE], [SHARE_TRANSACTION_TYPES.TRANSFER] *)
Definition ACTIVE := "active".
Definition TRANSFER := "transfer".

(** The body of a transfer request. [number_of_shares] is a whole number
    ([Joi.number().integer()] refuses anything else). *)
Record transferData := mkTransferData {
  from_member_id : string;
  to_member_id : string;
  td_number_of_shares : Z;
  transfer_price : Q;
  transfer_reason : string
}.

(** Which store calls of one [Share.transfer] come back with an error. *)
Record outage := mkOutage {
  from_member_error : bool;
  to_member_error : bool;
  shares_error : bool;
  debit_insert_error : bool;
  credit_insert_error : bool
}.

Definition healthy : outage := mkOutage false false false false false.

(** [shareTransferSchema] of models/Share.js. *)
Definition shareTransferSchema (h : host) (td : transferData) : bool :=
  is_uuid h (from_member_id td) && is_uuid h (to_member_id td)
  && (1 <=? td_number_of_shares td)
  && Qle_bool 0 (transfer_price td)
  && negb (String.eqb (transfer_reason td) "")
  && (js_length (transfer_reason td) <=? 500)%nat.

(** [shareTransferSchema] of validators/shareValidator.js, the one the
    route runs, with its [.custom] rule on the two members. *)
Definition route_shareTransferSchema (h : host) (td : transferData) : bool :=
  is_uuid h (from_member_id td) && is_uuid h (to_member_id td)
  && (1 <=? td_number_of_shares td) && (td_number_of_shares td <=? 10000)
  && Qle_bool 0 (transfer_price td) && Qle_bool (transfer_price td) 10000000
  && (10 <=? js_length (transfer_reason td))%nat
  && (js_length (transfer_reason td) <=? 500)%nat
  && negb (String.eqb (from_member_id td) (to_member_id td)).

(** [Share.createTransaction(transactionData)] *)
Definition createTransaction (insert_error : bool) (id when : nat)
    (member : string) (ty : string) (n : Z) (amount : Q) (descr : string)
  : M share_transaction_row :=
  fun db =>
    if insert_error then (db, Throw "Failed to create share transaction")
    else
      let row := mkShareTransaction id member ty n amount descr when in
      (mkStore (members db) (banks db) (shares db)
               (share_transactions db ++ [row])
               (dividends db) (dividend_distributions db),
       Ok row).

(** The rows of [.from('shares').select('number_of_shares')
    .eq('member_id', id).eq('status', SHARE_STATUS.ACTIVE)]. *)
Definition active_shares_of (db : store) (id : string) : list share_row :=
  filter (fun s => String.eqb (share_member_id s) id
                   && String.eqb (share_status s) ACTIVE) (shares db).

(** [fromMemberShares.reduce((sum, share) => sum + share.number_of_shares, 0)] *)
Definition totalShares (rows : list share_row) : Z :=
  fold_left (fun sum share => sum + number_of_shares share) rows 0.

(** [Share.transfer(transferData)] *)
Definition transfer (h : host) (o : outage) (td : transferData) : M bool :=
  if negb (shareTransferSchema h td) then throw "Validation error"
  else fun db =>
    let fromMember :=
      if from_member_error o then None
      else select_member db (from_member_id td) in
    let toMember :=
      if to_member_error o then None
      else select_member db (to_member_id td) in
    match fromMember, toMember with
    | Some fromMember, Some toMember =>
        if negb (String.eqb (member_status fromMember) "active")
           || negb (String.eqb (member_status toMember) "active")
        then (db, Throw "Both members must be active for share transfer")
        else if shares_error o
        then (db, Throw "Error checking member shares")
        else
          let fromMemberShares := active_shares_of db (from_member_id td) in
          if totalShares fromMemberShares <? td_number_of_shares td
          then (db, Throw "Insufficient shares for transfer")
          else
            (_ <- createTransaction (debit_insert_error o) (uuidv4 h 0)
                    (now h) (from_member_id td) TRANSFER
                    (- td_number_of_shares td) (- transfer_price td)
                    ("Share transfer to member " ++ to_member_id td ++ ": "
                       ++ transfer_reason td) ;;
             _ <- createTransaction (credit_insert_error o) (uuidv4 h 1)
                    (now h) (to_member_id td) TRANSFER
                    (td_number_of_shares td) (transfer_price td)
                    ("Share transfer from member " ++ from_member_id td
                       ++ ": " ++ transfer_reason td) ;;
             ret true) db
    | _, _ => (db, Throw "One or both members not found")
    end.

(** What the route answers. *)
Inductive response :=
| Status200 (message : string)
| Status400 (error : string).

(** [POST /api/v1/shares/transfer]:
    [validateRequest(shareTransferSchema)] and then [transferShares]. *)
Definition transferShares (h : host) (o : outage) (body : transferData)
    (db : store) : store * response :=
  if negb (route_shareTransferSchema h body)
  then (db, Status400 "Validation failed")
  else
    match transfer h o body db with
    | (db', Ok _) => (db', Status200 "Share transfer completed successfully")
    | (db', Throw message) => (db', Status400 message)
    end.

(** Shares held according to the [shares] table, over all members. *)
Definition total_holdings (db : store) : Z :=
  fold_left (fun sum share => sum + number_of_shares share) (shares db) 0.

(** Signed sum of the share movements recorded for one member, and over
    all members. *)
Definition recorded_for (id : string) (rows : list share_transaction_row)
  : Z :=
  fold_right (fun r sum =>
                if String.eqb (st_member_id r) id
                then st_number_of_shares r + sum else sum) 0 rows.

Definition recorded_total (rows : list share_transaction_row) : Z :=
  fold_right (fun r sum => st_number_of_shares r + sum) 0 rows.

(** The two rows a transfer records. *)
Definition debit_row (h : host) (td : transferData) : share_transaction_row :=
  mkShareTransaction (uuidv4 h 0) (from_member_id td) TRANSFER
    (- td_number_of_shares td) (- transfer_price td)
    ("Share transfer to member " ++ to_member_id td ++ ": "
       ++ transfer_reason td) (now h).

Definition credit_row (h : host) (td : transferData) : share_transaction_row :=
  mkShareTransaction (uuidv4 h 1) (to_member_id td) TRANSFER
    (td_number_of_shares td) (transfer_price td)
    ("Share transfer from member " ++ from_member_id td ++ ": "
       ++ transfer_reason td) (now h).

(** The checks of [Share.transfer] that come before its first write. *)
Definition transfer_checks (h : host) (o : outage) (td : transferData)
    (db : store) : option string :=
  if negb (shareTransferSchema h td) then Some "Validation error"
  else
    match (if from_member_error o then None
           else select_member db (from_member_id td)),
          (if to_member_error o then None
           else select_member db (to_member_id td)) with
    | Some fromMember, Some toMember =>
        if negb (String.eqb (member_status fromMember) "active")
           || negb (String.eqb (member_status toMember) "active")
        then Some "Both members must be active for share transfer"
        else if shares_error o then Some "Error checking member shares"
        else if totalShares (active_shares_of db (from_member_id td))
                <? td_number_of_shares td
        then Some "Insufficient shares for transfer"
        else None
    | _, _ => Some "One or both members not found"
    end.

Definition with_share_transactions (db : store)
    (rows : list share_transaction_row) : store :=
  mkStore (members db) (banks db) (shares db) rows (dividends db)
          (dividend_distributions db).

(** A store with two active members, one of them holding 100 shares. *)
(** The rule of the specification on identical members, for
    [Share.transfer]: a transfer from a member to the same member fails
    and writes nothing. *)
Definition identical_members_are_refused : Prop :=
  forall h o td db,
    from_member_id td = to_member_id td ->
    exists e, transfer h o td db = (db, Throw e).

Definition member_A := "11111111-1111-4111-8111-111111111111".
Definition member_B := "22222222-2222-4222-8222-222222222222".

Definition host0 : host :=
  mkHost 7 (fun k => (100 + k)%nat)
         (fun s => (String.length s =? 36)%nat).

Definition db0 : store :=
  mkStore [mkMember member_A "active"; mkMember member_B "active"]
          []
          [mkShare member_A 100 10%Q "active" 1]
          [mkShareTransaction 1 member_A "purchase" 100 1000%Q
             "Initial share purchase" 1]
          [] [].

(** [k] transfers of the same request, one after the other, on a store
    that answers every call; [None] as soon as one throws. *)
Fixpoint transfer_times (k : nat) (h : host) (td : transferData)
    (db : store) : option store :=
  match k with
  | O => Some db
  | S k' =>
      match transfer h healthy td db with
      | (db', Ok _) => transfer_times k' h td db'
      | (_, Throw _) => None
      end
  end.

End Share.

(* ================================================================== *)
(** * Dividends: [models/Dividend.js] *)
(* ================================================================== *)

Module Dividend.
Import Store.

Local Open Scope string_scope.
Local Open Scope list_scope.
Local Open Scope Q_scope.
Local Open Scope store_scope.

(** [DIVIDEND_TYPES] and [DIVIDEND_STATUS] *)
Definition DIVIDEND_TYPES : list string :=
  ["annual"; "interim"; "bonus"; "special"].

Definition DECLARED := "declared".
Definition APPROVED := "approved".
Definition PAID := "paid".
Definition CANCELLED := "cancelled".
Definition PENDING := "pending".

Definition DIVIDEND_STATUSES : list string :=
  [DECLARED; APPROVED; PAID; CANCELLED; PENDING].

Definition includes (l : list string) (s : string) : bool :=
  existsb (String.eqb s) l.

(** [dividendData] as handed to [Dividend.create]; [None] is a field that
    is absent. The year is a whole number. *)
Record dividendData := mkDividendData {
  data_id : option nat;
  data_year : Z;
  data_type : string;
  data_rate : Q;
  data_total_dividend_amount : option Q;
  data_bank_id : string;
  data_status : option string;
  data_record_date : option nat;
  data_payment_date : option nat;
  data_description : option string
}.

(** Joi's [.precision(2)] on a number it may convert:
    [Math.round(value * 100) / 100]. *)
Definition precision2 (q : Q) : Q :=
  inject_Z (Qfloor (q * 100 + (1 # 2))) / 100.

(** [new Dividend(dividendData)] followed by [dividend.validate()]:
    the row to insert, or [None] when [dividendValidationSchema] refuses. *)
Definition validate (h : host) (d : dividendData) : option dividend_row :=
  match data_total_dividend_amount d, data_record_date d,
        data_payment_date d with
  | Some total, Some record, Some payment =>
      if (2000 <=? data_year d)%Z && (data_year d <=? 2100)%Z
         && includes DIVIDEND_TYPES (data_type d)
         && Qle_bool 0 (data_rate d) && Qle_bool (data_rate d) 100
         && Qle_bool 0 total
         && is_uuid h (data_bank_id d)
         && match data_description d with
            | None => true
            | Some s => negb (String.eqb s "")
                        && (js_length s <=? 500)%nat
            end
      then Some (mkDividend
                   (match data_id d with Some i => i | None => uuidv4 h 0 end)
                   (data_year d) (data_type d) (precision2 (data_rate d))
                   total (data_bank_id d)
                   (match data_status d with
                    | Some s => if String.eqb s "" then PENDING else s
                    | None => PENDING
                    end)
                   record payment
                   (match data_description d with Some s => s | None => "" end)
                   (now h))
      else None
  | _, _, _ => None
  end.

(** The filters of the lookup in [create]:
    [.eq('dividend_year', ..).eq('dividend_type', ..).eq('bank_id', ..)]. *)
Definition same_key (d r : dividend_row) : bool :=
  (dividend_year r =? dividend_year d)%Z
  && String.eqb (dividend_type r) (dividend_type d)
  && String.eqb (dividend_bank_id r) (dividend_bank_id d).

Definition string_of_Z (z : Z) : string :=
  NilZero.string_of_int (Z.to_int z).

Definition already_declared (d : dividend_row) : string :=
  dividend_type d ++ " dividend already declared for year "
    ++ string_of_Z (dividend_year d).

Definition with_dividends (db : store) (rows : list dividend_row) : store :=
  mkStore (members db) (banks db) (shares db) (share_transactions db) rows
          (dividend_distributions db).

Definition with_distributions (db : store) (rows : list distribution_row)
  : store :=
  mkStore (members db) (banks db) (shares db) (share_transactions db)
          (dividends db) rows.

(** Which store calls of one [Dividend.create] come back with an error. *)
Record create_outage := mkCreateOutage {
  bank_error : bool;
  lookup_error : bool;
  insert_error : bool
}.

Definition create_healthy : create_outage := mkCreateOutage false false false.

(** [Dividend.create(dividendData)] *)
Definition create (h : host) (o : create_outage) (data : dividendData)
  : M dividend_row :=
  match validate h data with
  | None => throw "Validation error"
  | Some validatedData => fun db =>
      match (if bank_error o then None
             else select_bank db (dividend_bank_id validatedData)) with
      | None => (db, Throw "Bank not found")
      | Some bank =>
          if negb (String.eqb (bank_status bank) "active")
          then (db, Throw "Bank is not active")
          else
            let existingDividend :=
              if lookup_error o then None
              else maybeSingle (filter (same_key validatedData)
                                       (dividends db)) in
            match existingDividend with
            | Some _ => (db, Throw (already_declared validatedData))
            | None =>
                if insert_error o
                then (db, Throw "Failed to create dividend declaration")
                else (with_dividends db (dividends db ++ [validatedData]),
                      Ok validatedData)
            end
      end
  end.

(** [updateData] of [update], with the fields [distribute] passes. *)
Record updateData := mkUpdateData {
  upd_dividend_rate : option Q;
  upd_total_dividend_amount : option Q;
  upd_status : option string
}.

(** [dividendUpdateSchema] of models/Dividend.js. *)
Definition dividendUpdateSchema (u : updateData) : bool :=
  match upd_dividend_rate u with
  | Some r => Qle_bool 0 r && Qle_bool r 100
  | None => true
  end
  && match upd_total_dividend_amount u with
     | Some t => Qle_bool 0 t
     | None => true
     end
  && match upd_status u with
     | Some s => includes DIVIDEND_STATUSES s
     | None => true
     end.

(** [{...updateData, updated_at}] written over a row.  [update] keeps only
    the error of [dividendUpdateSchema.validate] and sends the caller's
    [updateData], so a rate is stored as given, not rounded to two
    decimals. *)
Definition apply_update (u : updateData) (when : nat) (r : dividend_row)
  : dividend_row :=
  mkDividend (dividend_id r) (dividend_year r) (dividend_type r)
    (match upd_dividend_rate u with
     | Some q => q | None => dividend_rate r end)
    (match upd_total_dividend_amount u with
     | Some t => t | None => total_dividend_amount r end)
    (dividend_bank_id r)
    (match upd_status u with Some s => s | None => dividend_status r end)
    (record_date r) (payment_date r) (dividend_description r) when.

(** [.update(..).eq('id', id)]: every row with that id is rewritten. *)
Definition update_rows (id : nat) (f : dividend_row -> dividend_row)
    (rows : list dividend_row) : list dividend_row :=
  map (fun r => if Nat.eqb (dividend_id r) id then f r else r) rows.

(** [this.update(updateData)]: the write ends in [.select().single()], so
    it goes through only when exactly one row has the id; [this] then
    takes every field of the row that comes back. *)
Definition update (update_error : bool) (h : host) (this : dividend_row)
    (u : updateData) : M dividend_row :=
  if negb (dividendUpdateSchema u) then throw "Validation error"
  else fun db =>
    if update_error then (db, Throw "Failed to update dividend")
    else
      match single (filter (fun r => Nat.eqb (dividend_id r)
                                             (dividend_id this))
                           (dividends db)) with
      | None => (db, Throw "Failed to update dividend")
      | Some row =>
          (with_dividends db
             (update_rows (dividend_id this) (apply_update u (now h))
                          (dividends db)),
           Ok (apply_update u (now h) row))
      end.

Definition set_status (s : string) (r : dividend_row) : dividend_row :=
  mkDividend (dividend_id r) (dividend_year r) (dividend_type r)
    (dividend_rate r) (total_dividend_amount r) (dividend_bank_id r) s
    (record_date r) (payment_date r) (dividend_description r)
    (dividend_updated_at r).

(** [approve()] *)
Definition approve (store_error : bool) (h : host) (this : dividend_row)
  : M dividend_row :=
  if negb (String.eqb (dividend_status this) DECLARED)
  then throw "Only declared dividends can be approved"
  else fun db =>
    if store_error then (db, Throw "Failed to approve dividend")
    else
      (with_dividends db
         (update_rows (dividend_id this)
            (fun r => mkDividend (dividend_id r) (dividend_year r)
                        (dividend_type r) (dividend_rate r)
                        (total_dividend_amount r) (dividend_bank_id r)
                        APPROVED (record_date r) (payment_date r)
                        (dividend_description r) (now h))
            (dividends db)),
       Ok (set_status APPROVED this)).

(** [cancel(reason)] *)
Definition cancel (store_error : bool) (h : host) (this : dividend_row)
    (reason : string) : M dividend_row :=
  if String.eqb (dividend_status this) PAID
  then throw "Cannot cancel paid dividends"
  else fun db =>
    if store_error then (db, Throw "Failed to cancel dividend")
    else
      (with_dividends db
         (update_rows (dividend_id this)
            (fun r => mkDividend (dividend_id r) (dividend_year r)
                        (dividend_type r) (dividend_rate r)
                        (total_dividend_amount r) (dividend_bank_id r)
                        CANCELLED (record_date r) (payment_date r)
                        (dividend_description this ++ " | Cancelled: "
                           ++ reason)
                        (now h))
            (dividends db)),
       Ok (set_status CANCELLED this)).

(** The rows [distribute] reads: active shares created on or before the
    record date, each with the member it points to ([None] when the join
    finds none). *)
Definition eligibleMembers (this : dividend_row) (db : store)
  : list (share_row * option member_row) :=
  map (fun s =>
         (s, find (fun m => String.eqb (member_id m) (share_member_id s))
                  (members db)))
      (filter (fun s => String.eqb (share_status s) "active"
                        && (share_created_at s <=? record_date this)%nat)
              (shares db)).

(** The [for] loop of [distribute], with its two accumulators. Reading
    [share.members.status] off a missing member throws.  The amounts are
    exact rationals here, where the code multiplies and adds doubles: what
    is read off this definition is which rows are written and which total
    is passed on, not the value of an amount. *)
Fixpoint distribute_loop (h : host) (this : dividend_row)
    (eligible : list (share_row * option member_row))
    (dividendDistributions : list distribution_row) (totalDistributed : Q)
  : result (list distribution_row * Q) :=
  match eligible with
  | [] => Ok (dividendDistributions, totalDistributed)
  | (share, None) :: _ =>
      Throw "Cannot read properties of null (reading 'status')"
  | (share, Some member) :: rest =>
      if String.eqb (member_status member) "active"
      then
        let memberDividend :=
          inject_Z (number_of_shares share) * share_value share
          * dividend_rate this / 100 in
        distribute_loop h this rest
          (dividendDistributions ++
           [mkDistribution
              (uuidv4 h (List.length dividendDistributions))
              (dividend_id this) (share_member_id share)
              (number_of_shares share) memberDividend "pending" (now h)])
          (totalDistributed + memberDividend)
      else distribute_loop h this rest dividendDistributions totalDistributed
  end.

(** What [distribute] returns. *)
Record summary := mkSummary {
  total_members : nat;
  total_amount : Q;
  distributions : list distribution_row
}.

Record distribute_outage := mkDistributeOutage {
  members_error : bool;
  distribution_error : bool;
  update_error : bool
}.

Definition distribute_healthy : distribute_outage :=
  mkDistributeOutage false false false.

(** [distribute()]: the result is the instance as [update] leaves it,
    with what the method returns. *)
Definition distribute (h : host) (o : distribute_outage)
    (this : dividend_row) : M (dividend_row * summary) :=
  if negb (String.eqb (dividend_status this) APPROVED)
  then throw "Only approved dividends can be distributed"
  else fun db =>
    if members_error o then (db, Throw "Failed to fetch eligible members")
    else
      match distribute_loop h this (eligibleMembers this db) [] 0 with
      | Throw e => (db, Throw e)
      | Ok (dividendDistributions, totalDistributed) =>
          if distribution_error o
          then (db, Throw "Failed to create dividend distributions")
          else
            (this' <- update (update_error o) h this
                        (mkUpdateData None (Some totalDistributed)
                                      (Some PAID)) ;;
             ret (this',
                  mkSummary (List.length dividendDistributions)
                            totalDistributed dividendDistributions))
              (with_distributions db
                 (dividend_distributions db ++ dividendDistributions))
      end.

(** The duplicate rule of the specification: a declaration with valid
    data for an active bank, on a store that answers, fails as a
    duplicate exactly when a dividend of the same year, type and bank that
    is not cancelled is stored. *)
Definition duplicate_iff_not_cancelled : Prop :=
  forall h data db row bank,
    validate h data = Some row ->
    select_bank db (dividend_bank_id row) = Some bank ->
    bank_status bank = "active" ->
    (snd (create h create_healthy data db) = Throw (already_declared row)
     <-> exists d, In d (dividends db) /\ same_key row d = true /\
                   dividend_status d <> CANCELLED).

(** A store with one bank, one approved dividend and one cancelled one,
    and two shareholders. *)
Definition bank_1 := "33333333-3333-4333-8333-333333333333".
Definition member_A := "11111111-1111-4111-8111-111111111111".
Definition member_B := "22222222-2222-4222-8222-222222222222".

Definition host0 : host :=
  mkHost 7 (fun k => (100 + k)%nat)
         (fun s => (String.length s =? 36)%nat).

Definition approved_2023 : dividend_row :=
  mkDividend 1 2023 "annual" 5 0 bank_1 APPROVED 5 9 "" 3.

Definition cancelled_2024 : dividend_row :=
  mkDividend 2 2024 "annual" 5 0 bank_1 CANCELLED 5 9
             " | Cancelled: board vote" 4.

Definition db0 : store :=
  mkStore [mkMember member_A "active"; mkMember member_B "active"]
          [mkBank bank_1 "active"]
          [mkShare member_A 100 10 "active" 1;
           mkShare member_B 40 10 "active" 2;
           mkShare member_B 7 10 "active" 6]
          []
          [approved_2023; cancelled_2024] [].

Definition declare_2024 : dividendData :=
  mkDividendData None 2024 "annual" 6 (Some 0) bank_1 None (Some 20%nat)
                 (Some 30%nat) None.

End Dividend.

(* ================================================================== *)
(** * Account ledger: reading the history *)
(* ================================================================== *)

Module LedgerHistory.
Import Ledger.

Local Open Scope string_scope.
Local Open Scope list_scope.
Local Open Scope Q_scope.

(** [GET /api/v1/accounts/:id/transactions]:
    [transactions.filter(t => t.account_id === id)]. *)
Definition get_transactions (st : state) (id : string) : list transaction :=
  filter (fun t => String.eqb (txn_account_id t) id) (transactions st).

(** The server answering a list of requests one after the other, whatever
    it answers to each. *)
Fixpoint serve (now : nat) (st : state) (reqs : list request) : state :=
  match reqs with
  | [] => st
  | r :: rest => serve (S now) (fst (post_transaction now st r)) rest
  end.

(** Ledger ids are pairwise distinct and below the counter. *)
Definition ids_fresh (st : state) : Prop :=
  NoDup (map txn_id (transactions st)) /\
  Forall (fun t => (txn_id t < transactionIdCounter st)%nat)
         (transactions st).

(** Each entry starts from the balance the entry before it left. *)
Fixpoint chained (prev : option Q) (l : list transaction) : Prop :=
  match l with
  | [] => True
  | t :: rest =>
      match prev with
      | None => True
      | Some b => balance_before t = b
      end /\ chained (Some (balance_after t)) rest
  end.

(** The balance the last entry left, [prev] when there is no entry. *)
Fixpoint closing (prev : option Q) (l : list transaction) : option Q :=
  match l with
  | [] => prev
  | t :: rest => closing (Some (balance_after t)) rest
  end.

(** The history of every account is a chain that ends at the balance the
    account holds. *)
Definition history_consistent (st : state) : Prop :=
  forall id,
    chained None (get_transactions st id) /\
    (forall b, closing None (get_transactions st id) = Some b ->
               balance_of st id = Some b).

End LedgerHistory.

(* ================================================================== *)
(** * Share registry: [Share.create] *)
(* ================================================================== *)

Module ShareCreate.
Import Store Share.

Local Open Scope string_scope.
Local Open Scope list_scope.
Local Open Scope Q_scope.
Local Open Scope store_scope.

(** [SHARE_TYPES], [SHARE_STATUS.PENDING],
    [SHARE_TRANSACTION_TYPES.PURCHASE] *)
Definition SHARE_TYPES : list string :=
  ["ordinary"; "preference"; "bonus"; "rights"].
Definition PENDING := "pending".
Definition PURCHASE := "purchase".

(** [shareData] as handed to [Share.create]; [None] is an absent field. *)
Record shareData := mkShareData {
  sd_member_id : string;
  sd_share_type : string;
  sd_number_of_shares : Z;
  sd_share_value : Q;
  sd_total_amount : option Q;
  sd_status : option string;
  sd_branch_id : string;
  sd_bank_id : string;
  sd_certificate_number : option string;
  sd_description : option string
}.

(** [data.total_amount || (data.number_of_shares * data.share_value)] *)
Definition total_amount_of (d : shareData) : Q :=
  match sd_total_amount d with
  | Some t => if Qeq_bool t 0
              then inject_Z (sd_number_of_shares d) * sd_share_value d
              else t
  | None => inject_Z (sd_number_of_shares d) * sd_share_value d
  end.

(** [data.status || SHARE_STATUS.PENDING] *)
Definition status_of (d : shareData) : string :=
  match sd_status d with
  | Some s => if String.eqb s "" then PENDING else s
  | None => PENDING
  end.

Definition optional_text (limit : nat) (s : option string) : bool :=
  match s with
  | None => true
  | Some t => negb (String.eqb t "") && (js_length t <=? limit)%nat
  end.

(** [shareValidationSchema], run on the instance the constructor built. *)
Definition shareValidationSchema (h : host) (d : shareData) : bool :=
  is_uuid h (sd_member_id d)
  && existsb (String.eqb (sd_share_type d)) SHARE_TYPES
  && (1 <=? sd_number_of_shares d)%Z
  && Qle_bool 1 (sd_share_value d)
  && Qle_bool 1 (total_amount_of d)
  && is_uuid h (sd_branch_id d) && is_uuid h (sd_bank_id d)
  && optional_text 50 (sd_certificate_number d)
  && optional_text 500 (sd_description d).

(** Which store calls of one [Share.create] come back with an error. *)
Record create_outage := mkCreateOutage {
  member_error : bool;
  share_insert_error : bool;
  transaction_insert_error : bool
}.

Definition create_healthy : create_outage := mkCreateOutage false false false.

Definition with_shares (db : store) (rows : list share_row) : store :=
  mkStore (members db) (banks db) rows (share_transactions db)
          (dividends db) (dividend_distributions db).

(** The row [Share.create] inserts, on the columns of [share_row]. *)
Definition new_share_row (h : host) (d : shareData) : share_row :=
  mkShare (sd_member_id d) (sd_number_of_shares d) (sd_share_value d)
          (status_of d) (now h).

(** [Share.create(shareData)].  The constructor takes the first token of
    [uuidv4], [createTransaction] the second. *)
Definition create (h : host) (o : create_outage) (d : shareData)
  : M share_row :=
  if negb (shareValidationSchema h d) then throw "Validation error"
  else fun db =>
    match (if member_error o then None
           else select_member db (sd_member_id d)) with
    | None => (db, Throw "Member not found")
    | Some member =>
        if negb (String.eqb (member_status member) "active")
        then (db, Throw "Member account is not active")
        else if share_insert_error o
        then (db, Throw "Failed to create share allocation")
        else
          (_ <- createTransaction (transaction_insert_error o) (uuidv4 h 1)
                  (now h) (sd_member_id d) PURCHASE
                  (sd_number_of_shares d) (total_amount_of d)
                  "Initial share purchase" ;;
           ret (new_share_row h d))
            (with_shares db (shares db ++ [new_share_row h d]))
    end.

(** [POST /api/v1/shares]: the body the route's schema let through, as the
    controller [createShare] hands it to [Share.create]. *)
Definition createShare_data (member type : string) (n : Z) (value : Q)
    (branch bank : string) (certificate description : option string)
  : shareData :=
  mkShareData member type n value (Some (inject_Z n * value)) None
              branch bank certificate description.

End ShareCreate.

(* ================================================================== *)
(** * Dividends: uniqueness of declarations and the declaration route *)
(* ================================================================== *)

Module DividendRoute.
Import Store Dividend.

Local Open Scope string_scope.
Local Open Scope list_scope.
Local Open Scope Q_scope.

(** At most one stored dividend for each (year, type, bank). *)
Definition unique_keys (rows : list dividend_row) : Prop :=
  forall d, (List.length (filter (same_key d) rows) <= 1)%nat.



(** The body of [POST /api/v1/dividends]. *)
Record dividendBody := mkDividendBody {
  body_year : Z;
  body_type : string;
  body_rate : Q;
  body_record_date : option nat;
  body_payment_date : option nat;
  body_description : option string
}.

(** [dividendCreateSchema] of validators/dividendValidator.js; the payment
    date may not lie in the past. *)
Definition dividendCreateSchema (h : host) (b : dividendBody) : bool :=
  (2000 <=? body_year b)%Z && (body_year b <=? 2100)%Z
  && includes DIVIDEND_TYPES (body_type b)
  && Qle_bool 0 (body_rate b) && Qle_bool (body_rate b) 100
  && match body_record_date b with Some _ => true | None => false end
  && match body_payment_date b with
     | Some p => (now h <=? p)%nat
     | None => false
     end
  && match body_description b with
     | None => true
     | Some s => negb (String.eqb s "") && (js_length s <=? 500)%nat
     end.

(** What the route answers: the status code and the message or error. *)
Inductive response :=
| Http (code : nat) (text : string).

(** [validateRequest(dividendCreateSchema)] and then [declareDividend]:
    the controller copies the fields of the body, adds the caller's
    [bank_id] and calls [Dividend.create]. *)
Definition declareDividend (h : host) (o : create_outage)
    (role user_bank_id : string) (body : dividendBody) (db : store)
  : store * response :=
  if negb (dividendCreateSchema h body)
  then (db, Http 400 "Validation failed")
  else if negb (includes ["admin"; "board_member"] role)
  then (db, Http 403 "Only admin or board members can declare dividends")
  else
    match create h o
            (mkDividendData None (body_year body) (body_type body)
               (precision2 (body_rate body)) None user_bank_id None
               (body_record_date body) (body_payment_date body)
               (body_description body)) db with
    | (db', Ok _) => (db', Http 201 "Dividend declared successfully")
    | (db', Throw message) => (db', Http 400 message)
    end.

End DividendRoute.

(* ================================================================== *)
(** * JavaScript numbers: IEEE 754 doubles *)
(* ================================================================== *)

Module Double.
Import PrimFloat SpecFloat FloatOps.

Local Open Scope float_scope.

(** A JavaScript number is a [float] of the kernel: binary64, rounded to
    nearest with ties to even, with both zeros, both infinities and NaN.
    [+], [-], [*], [/], [<], [<=] and [==] on numbers are [PrimFloat]'s
    operations of the same name. *)

(** [Number.isNaN(x)] *)
Definition isNaN (x : float) : bool := negb (x =? x).

(** [!x] for a number: true for 0, -0 and NaN. *)
Definition falsy (x : float) : bool := (x =? 0) || isNaN x.

(** [Number.isFinite(x)] *)
Definition isFinite (x : float) : bool :=
  match Prim2SF x with
  | S754_zero _ | S754_finite _ _ _ => true
  | _ => false
  end.

(** The rational a sign, a mantissa and an exponent stand for. *)
Definition Q_of_finite (s : bool) (m : positive) (e : Z) : Q :=
  let v := match e with
           | Z0 => Zpos m # 1
           | Zpos p => (Zpos m * 2 ^ Zpos p) # 1
           | Zneg p => Zpos m # (2 ^ p)
           end in
  if s then Qopp v else v.

(** The exact value of a finite number. *)
Definition exact (x : float) : option Q :=
  match Prim2SF x with
  | S754_zero _ => Some 0%Q
  | S754_finite s m e => Some (Q_of_finite s m e)
  | _ => None
  end.

(** The double nearest to an integer. *)
Definition of_Z (z : Z) : float :=
  SF2Prim (binary_normalize prec emax z 0 false).

(** [Math.round(x)]: the integer nearest to the exact value of [x], halves
    rounded up; [x] itself when it is an integer already, an infinity or
    NaN; -0 for a negative [x] that rounds to zero. *)
Definition Math_round (x : float) : float :=
  match Prim2SF x with
  | S754_finite s m e =>
      if (0 <=? e)%Z then x
      else
        let z := Qfloor (Q_of_finite s m e + (1 # 2)) in
        if (z =? 0)%Z then (if s then neg_zero else zero) else of_Z z
  | _ => x
  end.

(** [Math.max(x, y)]: NaN when either is NaN; 0 for the two zeros. *)
Definition Math_max (x y : float) : float :=
  if isNaN x || isNaN y then nan
  else if x <? y then y
  else if y <? x then x
  else if x =? 0 then x + y
  else x.

(** A number that is not negative and not NaN, read off its
    representation. *)
Definition nonneg_SF (f : spec_float) : Prop :=
  match f with
  | S754_zero _ => True
  | S754_infinity s | S754_finite s _ _ => s = false
  | S754_nan => False
  end.

End Double.

(* ================================================================== *)
(** * Account ledger on doubles: [POST /api/v1/transactions] *)
(* ================================================================== *)

Module LedgerDouble.
Import PrimFloat.

Local Open Scope string_scope.
Local Open Scope list_scope.
Local Open Scope float_scope.

(** The account object, as in [Ledger], with the balance a double:
    [balance: parseFloat(initial_deposit)]. *)
Record account := mkAccount {
  acc_id : string;
  customer_id : string;
  account_type : string;
  balance : float;
  acc_status : string;
  updated_at : nat
}.

(** [newTransaction] of the handler. *)
Record transaction := mkTransaction {
  txn_id : nat;                 (* the n of `transaction_${n}` *)
  txn_account_id : string;
  txn_type : string;
  amount : float;
  description : string;
  balance_before : float;
  balance_after : float;
  txn_status : string;
  created_at : nat
}.

(** The module-level arrays and the id counter of stable-server.js. *)
Record state := mkState {
  accounts : list account;
  transactions : list transaction;
  transactionIdCounter : nat
}.

(** The [amount] of [req.body] as [express.json()] delivers it: a JSON
    number (the double nearest to the decimal text, [Infinity] for a text
    such as 1e999) or a JSON string.  [true], arrays and objects behave as
    a string that does not start with a number; [null], [false] and a
    missing field as the empty string. *)
Inductive json :=
| JNumber (x : float)
| JString (s : string).

(** [req.body] after destructuring. *)
Record request := mkRequest {
  req_account_id : string;
  req_type : string;
  req_amount : json;
  req_description : string
}.

(** [res.status(201).json(..)] and [res.status(400).json(..)]. *)
Inductive response :=
| Created (data : transaction) (account_balance : float)
| BadRequest (error : string).

(** [!amount] *)
Definition falsy_json (v : json) : bool :=
  match v with
  | JNumber x => Double.falsy x
  | JString s => Ledger.falsy_string s
  end.

(** [parseFloat(amount)].  A number is turned into its decimal text and
    read back, which returns it (and 0 for -0); on a string the result is
    what the built-in, [parseFloat_string], reads from it: NaN when it does
    not start with a number. *)
Definition parseFloat (parseFloat_string : string -> float) (v : json)
  : float :=
  match v with
  | JNumber x => if x =? 0 then 0 else x
  | JString s => parseFloat_string s
  end.

(** [accounts.find(a => a.id === account_id)] *)
Definition find_account (l : list account) (id : string) : option account :=
  find (fun a => String.eqb (acc_id a) id) l.

(** [account.balance = newBalance; account.updated_at = ...] on the object
    that [find] returned. *)
Fixpoint mutate_account (l : list account) (id : string) (b : float)
    (now : nat) : list account :=
  match l with
  | [] => []
  | a :: r =>
      if String.eqb (acc_id a) id
      then mkAccount (acc_id a) (customer_id a) (account_type a) b
                     (acc_status a) now :: r
      else a :: mutate_account r id b now
  end.

(** The "Calculate new balance" block on doubles: [+=], [<] and [-=] are
    the IEEE operations; [None] is the early [return res.status(400)]. *)
Definition calc_new_balance (ty : string) (bal amt : float) : option float :=
  if String.eqb ty "deposit" then Some (bal + amt)
  else if String.eqb ty "withdrawal" then
    if bal <? amt then None else Some (bal - amt)
  else Some bal.

(** The handler of [POST /api/v1/transactions]; [now] is the clock. *)
Definition post_transaction (parseFloat_string : string -> float)
    (now : nat) (st : state) (req : request) : state * response :=
  if Ledger.falsy_string (req_account_id req)
     || Ledger.falsy_string (req_type req)
     || falsy_json (req_amount req)
  then (st, BadRequest "Account ID, type, and amount are required")
  else if negb (Ledger.includes Ledger.valid_types (req_type req))
  then (st, BadRequest "Transaction type must be deposit, withdrawal, or transfer")
  else
    let transactionAmount := parseFloat parseFloat_string (req_amount req) in
    if transactionAmount <=? 0
    then (st, BadRequest "Amount must be greater than 0")
    else
      match find_account (accounts st) (req_account_id req) with
      | None => (st, BadRequest "Account not found")
      | Some account =>
          match calc_new_balance (req_type req) (balance account)
                                 transactionAmount with
          | None => (st, BadRequest "Insufficient funds")
          | Some newBalance =>
              let newTransaction :=
                mkTransaction (transactionIdCounter st) (req_account_id req)
                  (req_type req) transactionAmount (req_description req)
                  (balance account) newBalance "completed" now in
              (mkState
                 (mutate_account (accounts st) (req_account_id req)
                                 newBalance now)
                 (transactions st ++ [newTransaction])
                 (S (transactionIdCounter st)),
               Created newTransaction newBalance)
          end
      end.

(** The balance a later request would read for [id]. *)
Definition balance_of (st : state) (id : string) : option float :=
  option_map balance (find_account (accounts st) id).

(** A run of requests that must all be answered 201; [None] as soon as one
    is rejected. *)
Fixpoint run_all (parseFloat_string : string -> float) (now : nat)
    (st : state) (reqs : list request) : option state :=
  match reqs with
  | [] => Some st
  | r :: rest =>
      match post_transaction parseFloat_string now st r with
      | (st', Created _ _) => run_all parseFloat_string (S now) st' rest
      | (_, BadRequest _) => None
      end
  end.

(** What one committed request does to the balance of account [id]. *)
Definition apply_request (parseFloat_string : string -> float) (id : string)
    (b : float) (r : request) : float :=
  if String.eqb (req_account_id r) id then
    if String.eqb (req_type r) "deposit"
    then b + parseFloat parseFloat_string (req_amount r)
    else if String.eqb (req_type r) "withdrawal"
    then b - parseFloat parseFloat_string (req_amount r)
    else b
  else b.

(** What a ledger entry satisfies, per type, in double arithmetic. *)
Definition entry_consistent (t : transaction) : Prop :=
  (txn_type t = "deposit" -> balance_after t = balance_before t + amount t) /\
  (txn_type t = "withdrawal" ->
   balance_after t = balance_before t - amount t).

(** The exact value of an amount that is a finite number. *)
Definition value (x : float) : Q :=
  match Double.exact x with Some q => q | None => 0%Q end.

(** Exact sum of the amounts of the requests of type [ty] aimed at account
    [id]. *)
Fixpoint sum_of (parseFloat_string : string -> float) (ty id : string)
    (reqs : list request) : Q :=
  match reqs with
  | [] => 0%Q
  | r :: rest =>
      if String.eqb (req_type r) ty && String.eqb (req_account_id r) id
      then (value (parseFloat parseFloat_string (req_amount r))
            + sum_of parseFloat_string ty id rest)%Q
      else sum_of parseFloat_string ty id rest
  end.

(** Balance conservation as the specification states it, in exact
    arithmetic on the stored numbers, for finite amounts and balances. *)
Definition conserves_exactly : Prop :=
  forall parseFloat_string now st st' id reqs b0 b,
    run_all parseFloat_string now st reqs = Some st' ->
    Forall (fun r => Double.isFinite
                       (parseFloat parseFloat_string (req_amount r)) = true)
           reqs ->
    balance_of st id = Some b0 -> Double.isFinite b0 = true ->
    balance_of st' id = Some b -> Double.isFinite b = true ->
    (value b == value b0 + sum_of parseFloat_string "deposit" id reqs
                - sum_of parseFloat_string "withdrawal" id reqs)%Q.

(** The debit rule as the specification states it, for a finite amount and
    balance: a committed withdrawal leaves exactly balance_before -
    amount. *)
Definition debit_is_exact : Prop :=
  forall parseFloat_string now st req st' t b,
    req_type req = "withdrawal" ->
    post_transaction parseFloat_string now st req = (st', Created t b) ->
    Double.isFinite (balance_before t) = true ->
    Double.isFinite (amount t) = true ->
    (value b == value (balance_before t) - value (amount t))%Q.

(** The floor property of the specification, for a floor [m]: a committed
    transaction never takes an account from at or above [m] to below
    [m]. *)
Definition respects_floor (m : float) : Prop :=
  forall parseFloat_string now st req st' t b id bal,
    post_transaction parseFloat_string now st req = (st', Created t b) ->
    balance_of st id = Some bal -> (m <=? bal) = true ->
    exists bal', balance_of st' id = Some bal' /\ (m <=? bal') = true.

(** A [parseFloat] on strings for the examples: every string used there is
    non-numeric. *)
Definition not_a_number (s : string) : float := nan.

Definition st0 : state :=
  mkState [mkAccount "account_1" "customer_1" "savings" 1000 "active" 0;
           mkAccount "account_2" "customer_2" "savings" 50 "active" 0] [] 1.

(** Two small accounts. *)
Definition st_small : state :=
  mkState [mkAccount "account_1" "customer_1" "savings" 0.1 "active" 0;
           mkAccount "account_2" "customer_2" "savings" 50 "active" 0] [] 1.

(** An account holding 0.3. *)
Definition st_tenths : state :=
  mkState [mkAccount "account_1" "customer_1" "savings" 0.3 "active" 0]
          [] 1.

(** An account holding 10^16. *)
Definition st_large : state :=
  mkState [mkAccount "account_1" "customer_1" "savings" 1e16 "active" 0]
          [] 1.

End LedgerDouble.

(* ================================================================== *)
(** * Fixed deposits on doubles: [models/FixedDeposit.js] *)
(* ================================================================== *)

Module FixedDepositDouble.
Import PrimFloat.

Local Open Scope string_scope.
Local Open Scope list_scope.
Local Open Scope float_scope.

(** The fields of a [FixedDeposit] instance that the computations read or
    write, the numbers as doubles. *)
Record fixed_deposit := mkFD {
  principal_amount : float;
  interest_rate : float;
  tenure_months : float;
  maturity_amount : float;
  status : string
}.

Section Platform.

(** [Math.pow] is the platform's: ECMAScript leaves its result
    implementation-approximated, so the model takes it as given. *)
Variable Math_pow : float -> float -> float.

(** [calculateMaturityAmount()], on the three fields it reads; every
    operation is the IEEE one. *)
Definition calculateMaturityAmount (principal_amount interest_rate
                                    tenure_months : float) : float :=
  if Double.falsy principal_amount || Double.falsy interest_rate
     || Double.falsy tenure_months
  then 0
  else
    let principal := principal_amount in
    let rate := interest_rate / 100 in
    let time := tenure_months / 12 in
    let compoundingFrequency := 4 in
    let maturityAmount :=
      principal * Math_pow (1 + rate / compoundingFrequency)
                           (compoundingFrequency * time) in
    Double.Math_round (maturityAmount * 100) / 100.

(** The part of the constructor that sets the amounts and the status:
    [data.maturity_amount || this.calculateMaturityAmount()] and
    [data.status || FD_STATUS.PENDING]. *)
Definition new_FixedDeposit (data_principal data_rate data_tenure : float)
    (data_maturity_amount : option float) (data_status : option string)
  : fixed_deposit :=
  mkFD data_principal data_rate data_tenure
    (match data_maturity_amount with
     | Some m =>
         if Double.falsy m
         then calculateMaturityAmount data_principal data_rate data_tenure
         else m
     | None => calculateMaturityAmount data_principal data_rate data_tenure
     end)
    (match data_status with
     | Some s => if String.eqb s "" then FixedDeposit.PENDING else s
     | None => FixedDeposit.PENDING
     end).

(** The amount [prematureClose] computes from the elapsed months. *)
Definition prematureAmount (this : fixed_deposit) (monthsCompleted : Z)
    (penaltyRate : float) : float :=
  let reducedRate := Double.Math_max 0 (interest_rate this - penaltyRate) in
  principal_amount this *
  Math_pow (1 + reducedRate / 100 / 4)
           (4 * (Double.of_Z monthsCompleted / 12)).

(** [prematureClose(penaltyRate = 1)].  [monthsCompleted] is what
    [moment().diff(moment(this.start_date), 'months')] reads off the clock:
    the whole months elapsed since the start date; [store_ok] is whether
    the update of the row succeeds. *)
Definition prematureClose (store_ok : bool) (monthsCompleted : Z)
    (penaltyRate : option float) (this : fixed_deposit)
  : result fixed_deposit :=
  let penaltyRate := match penaltyRate with Some p => p | None => 1 end in
  if negb (String.eqb (status this) FixedDeposit.ACTIVE)
  then Throw "Only active FDs can be closed prematurely"
  else
    let prematureAmount := prematureAmount this monthsCompleted penaltyRate in
    if negb store_ok then Throw "Failed to close fixed deposit prematurely"
    else Ok (mkFD (principal_amount this) (interest_rate this)
                  (tenure_months this)
                  (Double.Math_round (prematureAmount * 100) / 100)
                  FixedDeposit.PREMATURE_CLOSED).

End Platform.

(** The doubles within [n] units in the last place of [c]. *)
Fixpoint below (n : nat) (c : float) : list float :=
  match n with
  | O => []
  | S k => next_down c :: below k (next_down c)
  end.

Fixpoint above (n : nat) (c : float) : list float :=
  match n with
  | O => []
  | S k => next_up c :: above k (next_up c)
  end.

Definition within_ulps (n : nat) (c : float) : list float :=
  c :: below n c ++ above n c.

(** A [Math.pow] known at the arguments of a table only (NaN elsewhere),
    to state what the code computes from the values the platform returns
    at the arguments of one computation. *)
Definition tabulated (table : list (float * float * float))
  : float -> float -> float :=
  fun x y =>
    match find (fun e => (fst (fst e) =? x) && (snd (fst e) =? y)) table with
    | Some e => snd e
    | None => nan
    end.

(** [Math.pow] at the arguments of the examples: the doubles nearest to
    1.005^2, 1.02^4 and 1.0175^8. *)
Definition pow_of_example : float -> float -> float :=
  tabulated [(1 + 2 / 100 / 4, 4 * (6 / 12), 1.0100249999999997);
             (1 + 8 / 100 / 4, 4 * (12 / 12), 1.08243216);
             (1 + 7 / 100 / 4, 4 * (24 / 12), 1.1488817829559281)].



(** The formula of the specification in exact arithmetic for a whole number
    of quarters, in cents, halves rounded up as [Math.round] does. *)
Definition formula_cents (principal rate : Q) (quarters : nat) : Z :=
  Qfloor (principal * (1 + rate / 400) ^ Z.of_nat quarters * 100 + (1 # 2))%Q.

(** An amount of [z] cents as a double: the double nearest to z / 100. *)
Definition of_cents (z : Z) : float := Double.of_Z z / 100.

(** The maturity amount as the specification states it: the formula,
    rounded to two decimals, here for a principal in whole units, a rate in
    hundredths of a percent and a tenure in whole quarters. *)
Definition maturity_is_rounded_formula
    (Math_pow : float -> float -> float) : Prop :=
  forall (principal hundredths : Z) (quarters : nat),
    (0 < principal)%Z -> (0 < hundredths)%Z -> (0 < quarters)%nat ->
    calculateMaturityAmount Math_pow (Double.of_Z principal)
      (Double.of_Z hundredths / 100) (Double.of_Z (3 * Z.of_nat quarters))
    = of_cents (formula_cents (inject_Z principal) (hundredths # 100)
                              quarters).

End FixedDepositDouble.

(* ================================================================== *)
(** * Recurring deposits: [RecurringDeposit.calculatePenalty] *)
(* ================================================================== *)

Module RecurringDeposit.
Import PrimFloat.

Local Open Scope string_scope.
Local Open Scope list_scope.
Local Open Scope float_scope.

(** A row of [recurring_deposit_payments], on the columns read here;
    [payment_amount] is [Number(payment.amount)]. *)
Record payment := mkPayment {
  rd_id : string;
  payment_status : string;
  payment_amount : float
}.

Definition PENALTY_RATE : float := 0.01.

(** [RecurringDepositPayment.listByRD(rd_id)]: [data] is null when the
    select comes back with an error. *)
Definition listByRD (select_error : bool) (table : list payment)
    (id : string) : option (list payment) :=
  if select_error then None
  else Some (filter (fun p => String.eqb (rd_id p) id) table).

(** [RecurringDeposit.calculatePenalty(rd_id)] *)
Definition calculatePenalty (select_error : bool) (table : list payment)
    (id : string) : float :=
  match listByRD select_error table id with
  | None => 0
  | Some payments =>
      fold_left
        (fun penalty payment =>
           if String.eqb (payment_status payment) "missed"
           then penalty + payment_amount payment * PENALTY_RATE
           else penalty)
        payments 0
  end.

(** The missed payments of one deposit, in table order. *)
Definition missed (table : list payment) (id : string) : list payment :=
  filter (fun p => String.eqb (rd_id p) id
                   && String.eqb (payment_status p) "missed") table.

End RecurringDeposit.

(* ================================================================== *)
(** * Properties of doubles *)
(* ================================================================== *)

Module DoubleFacts.
Import PrimFloat SpecFloat FloatOps FloatAxioms.
Import Double.

Local Open Scope Z_scope.

(** ** Rounding a non-negative integer mantissa never gives a negative
    number or NaN *)

Lemma shr_1_nonneg mrs : 0 <= shr_m mrs -> 0 <= shr_m (shr_1 mrs).
Proof.
  destruct mrs as [m r s]. simpl.
  destruct m as [|[p|p|]|[p|p|]]; simpl; lia.
Qed.

Lemma iter_shr_1_nonneg p : forall mrs,
  0 <= shr_m mrs -> 0 <= shr_m (iter_pos shr_1 p mrs).
Proof.
  induction p as [p IH|p IH|]; intros mrs H; simpl.
  - apply IH, IH, shr_1_nonneg, H.
  - apply IH, IH, H.
  - apply shr_1_nonneg, H.
Qed.

Lemma shr_fexp_nonneg m e l :
  0 <= m -> 0 <= shr_m (fst (shr_fexp prec emax m e l)).
Proof.
  intros H. unfold shr_fexp, shr.
  assert (H0 : 0 <= shr_m (shr_record_of_loc m l)).
  { destruct l as [|[| |]]; exact H. }
  destruct (fexp prec emax (Zdigits2 m + e) - e); simpl; auto.
  apply iter_shr_1_nonneg, H0.
Qed.

Lemma round_nearest_even_nonneg m l : 0 <= m -> 0 <= round_nearest_even m l.
Proof.
  intros H. destruct l as [|[| |]]; simpl; try lia.
  destruct (Z.even m); lia.
Qed.

Lemma binary_round_aux_nonneg m e l :
  0 <= m -> nonneg_SF (binary_round_aux prec emax false m e l).
Proof.
  intros H. unfold binary_round_aux.
  pose proof (shr_fexp_nonneg m e l H) as H1.
  destruct (shr_fexp prec emax m e l) as [mrs' e']. simpl in H1.
  pose proof (shr_fexp_nonneg _ e' loc_Exact
                (round_nearest_even_nonneg _ (loc_of_shr_record mrs') H1)) as H2.
  destruct (shr_fexp prec emax
              (round_nearest_even (shr_m mrs') (loc_of_shr_record mrs')) e'
              loc_Exact) as [mrs'' e'']. simpl in H2.
  destruct (shr_m mrs'') as [|p|p]; simpl; [exact I| |lia].
  match goal with |- context [if ?c then _ else _] => destruct c end;
    reflexivity.
Qed.

Lemma binary_normalize_nonneg m e :
  0 <= m -> nonneg_SF (binary_normalize prec emax m e false).
Proof.
  intros H. destruct m as [|p|p]; simpl; auto; [|lia].
  unfold binary_round.
  destruct (shl_align p e (fexp prec emax (Z.pos (digits2_pos p) + e)))
    as [mz ez].
  apply binary_round_aux_nonneg. lia.
Qed.

(** ** Aligned mantissas *)

Lemma iter_xO m d : Z.pos (Pos.iter xO m d) = Z.pos m * 2 ^ Z.pos d.
Proof.
  revert m. induction d as [|d IH] using Pos.peano_ind; intros m.
  - simpl. lia.
  - rewrite Pos.iter_succ, Pos2Z.inj_succ, Z.pow_succ_r by lia.
    rewrite Pos2Z.inj_xO, IH. lia.
Qed.

Lemma shl_align_value m e e' :
  e' <= e -> Z.pos (fst (shl_align m e e')) = Z.pos m * 2 ^ (e - e').
Proof.
  intros H. unfold shl_align.
  destruct (e' - e) as [|d|d] eqn:E.
  - assert (e - e' = 0) as -> by lia. simpl. lia.
  - lia.
  - assert (e - e' = Z.pos d) as -> by lia. simpl fst. apply iter_xO.
Qed.

Lemma digits2_pos_size m : digits2_pos m = Pos.size m.
Proof. induction m; simpl; congruence. Qed.

Lemma digits2_bounds m :
  2 ^ (Z.pos (digits2_pos m) - 1) <= Z.pos m < 2 ^ Z.pos (digits2_pos m).
Proof.
  rewrite digits2_pos_size. split.
  - pose proof (Pos.size_le m) as H.
    assert (Hs : Z.pos (2 ^ Pos.size m) <= Z.pos m~0) by exact H.
    rewrite Pos2Z.inj_pow in Hs.
    replace (Z.pos (Pos.size m)) with (Z.succ (Z.pos (Pos.size m) - 1)) in Hs
      by lia.
    rewrite Z.pow_succ_r in Hs by lia. lia.
  - pose proof (Pos.size_gt m) as H.
    assert (Hs : Z.pos m < Z.pos (2 ^ Pos.size m)) by exact H.
    rewrite Pos2Z.inj_pow in Hs. exact Hs.
Qed.

Lemma bounded_mantissa m e :
  bounded prec emax m e = true ->
  emin <= e /\ Z.pos m < 2 ^ 53 /\ (emin < e -> 2 ^ 52 <= Z.pos m).
Proof.
  unfold bounded, canonical_mantissa, fexp. intros H.
  apply andb_prop in H. destruct H as [H _]. apply Z.eqb_eq in H.
  pose proof (digits2_bounds m) as [Hlo Hhi].
  change prec with 53 in *. 
  set (d := Z.pos (digits2_pos m)) in *.
  assert (Hd : 0 < d) by (unfold d; lia).
  split; [lia|]. split.
  - assert (d <= 53) by lia.
    apply Z.lt_le_trans with (1 := Hhi). apply Z.pow_le_mono_r; lia.
  - intros He. assert (d = 53) as Hd53 by lia. rewrite Hd53 in Hlo. exact Hlo.
Qed.

(** ** Subtraction and addition of non-negative numbers *)

Lemma SFsub_nonneg x y :
  valid_binary x = true -> valid_binary y = true ->
  x <> S754_nan ->
  (exists my ey, y = S754_finite false my ey) ->
  SFltb x y = false ->
  nonneg_SF (SF64sub x y).
Proof.
  intros Vx Vy Hx (my & ey & ->) Hlt.
  destruct x as [s|s| |s mx ex]; try congruence.
  - discriminate Hlt.
  - destruct s; [discriminate Hlt | reflexivity].
  - destruct s; [discriminate Hlt|].
    unfold SF64sub, SFsub. apply binary_normalize_nonneg.
    simpl cond_Zopp.
    simpl in Vx, Vy.
    destruct (bounded_mantissa _ _ Vx) as (Hex & Hmx & Hnx).
    destruct (bounded_mantissa _ _ Vy) as (Hey & Hmy & Hny).
    rewrite !shl_align_value by lia.
    unfold SFltb, SFcompare in Hlt.
    destruct (ex ?= ey) eqn:E.
    + apply Z.compare_eq in E. subst ey.
      rewrite Z.min_id, Z.sub_diag. simpl (2 ^ 0).
      destruct (Pos.compare_cont Eq mx my) eqn:C; try discriminate Hlt.
      * apply Pos.compare_eq in C. subst. lia.
      * change (Pos.compare mx my = Gt) in C. 
        apply Pos.compare_gt_iff in C. lia.
    + discriminate Hlt.
    + apply Z.compare_gt_iff in E.
      rewrite Z.min_r by lia. rewrite Z.sub_diag. simpl (2 ^ 0).
      assert (H52 : 2 ^ 52 <= Z.pos mx) by (apply Hnx; lia).
      assert (2 ^ 1 <= 2 ^ (ex - ey)) by (apply Z.pow_le_mono_r; lia).
      assert (2 ^ 52 * 2 ^ 1 <= Z.pos mx * 2 ^ (ex - ey)).
      { apply Z.mul_le_mono_nonneg; lia. }
      change (2 ^ 52 * 2 ^ 1) with (2 ^ 53) in *. lia.
Qed.

Lemma SFadd_nonneg x y :
  nonneg_SF x -> nonneg_SF y -> nonneg_SF (SF64add x y).
Proof.
  intros Hx Hy.
  destruct x as [sx|sx| |sx mx ex], y as [sy|sy| |sy my ey];
    simpl in Hx, Hy; subst; try contradiction;
    try exact I; try reflexivity.
  - destruct sx, sy; exact I.
  - unfold SF64add, SFadd. apply binary_normalize_nonneg. simpl. lia.
Qed.

Lemma SFsub_self m e :
  SF64sub (S754_finite false m e) (S754_finite false m e) = S754_zero false.
Proof.
  unfold SF64sub, SFsub. rewrite Z.min_id. simpl cond_Zopp.
  rewrite Z.sub_diag. reflexivity.
Qed.


(** ** The primitive operations *)

Local Open Scope float_scope.

Lemma Prim2SF_zero : Prim2SF 0 = S754_zero false.
Proof. reflexivity. Qed.

Lemma SFcompare_refl x : x <> S754_nan -> SFcompare x x = Some Eq.
Proof.
  destruct x as [s|s| |s m e]; intros H; try congruence; simpl.
  - reflexivity.
  - destruct s; reflexivity.
  - rewrite Z.compare_refl, Pos.compare_cont_refl. destruct s; reflexivity.
Qed.

Lemma isNaN_false x : Double.isNaN x = false <-> Prim2SF x <> S754_nan.
Proof.
  unfold Double.isNaN. rewrite negb_false_iff, eqb_spec. unfold SFeqb.
  split.
  - intros H E. rewrite E in H. discriminate H.
  - intros H. rewrite (SFcompare_refl _ H). reflexivity.
Qed.

Lemma ltb_irrefl x : (x <? x) = false.
Proof.
  rewrite ltb_spec. unfold SFltb.
  destruct (Prim2SF x) as [s|s| |s m e] eqn:E; try reflexivity;
    rewrite SFcompare_refl by discriminate; reflexivity.
Qed.

Lemma leb_zero_nonneg x : (0 <=? x) = true <-> nonneg_SF (Prim2SF x).
Proof.
  rewrite leb_spec, Prim2SF_zero.
  destruct (Prim2SF x) as [s|s| |s m e]; cbv [SFleb SFcompare nonneg_SF];
    try destruct s; intuition congruence.
Qed.

Lemma ltb_zero_positive x :
  (0 <? x) = true <->
  Prim2SF x = S754_infinity false \/
  exists m e, Prim2SF x = S754_finite false m e.
Proof.
  rewrite ltb_spec, Prim2SF_zero.
  destruct (Prim2SF x) as [s|s| |s m e]; cbv [SFltb SFcompare];
    try destruct s; split;
    try discriminate; try (intros [H|(m' & e' & H)]; discriminate H);
    intros _; eauto.
Qed.

(** A positive number is truthy, and it passes the test [x <= 0]. *)
Lemma positive_number x :
  (0 <? x) = true ->
  Double.falsy x = false /\ (x <=? 0) = false /\ Double.isNaN x = false.
Proof.
  intros H. apply ltb_zero_positive in H.
  assert (Hn : Double.isNaN x = false).
  { apply isNaN_false. destruct H as [H|(m & e & H)]; rewrite H; discriminate. }
  unfold Double.falsy. rewrite Hn, eqb_spec, leb_spec, Prim2SF_zero.
  destruct H as [H|(m & e & H)]; rewrite H; auto.
Qed.

(** When neither side is NaN, [x < y] fails exactly when [y <= x]. *)
Lemma SFcompare_antisym x y :
  SFcompare y x = option_map CompOpp (SFcompare x y).
Proof.
  destruct x as [sx|sx| |sx mx ex], y as [sy|sy| |sy my ey]; simpl;
    try reflexivity; try (destruct sx; reflexivity);
    try (destruct sy; reflexivity); try (destruct sx, sy; reflexivity).
  assert (Hc : Pos.compare_cont Eq my mx
               = CompOpp (Pos.compare_cont Eq mx my)).
  { symmetry. apply (Pos.compare_cont_antisym mx my Eq). }
  rewrite (Z.compare_antisym ex ey), Hc.
  destruct sx, sy; try reflexivity;
    destruct (ex ?= ey)%Z; simpl; try reflexivity;
    destruct (Pos.compare_cont Eq mx my); reflexivity.
Qed.

Lemma SFcompare_numbers x y :
  x <> S754_nan -> y <> S754_nan -> SFcompare x y <> None.
Proof.
  destruct x as [sx|sx| |sx mx ex], y as [sy|sy| |sy my ey]; simpl;
    congruence.
Qed.

Lemma ltb_false_leb x y :
  Double.isNaN x = false -> Double.isNaN y = false ->
  (x <? y) = false -> (y <=? x) = true.
Proof.
  rewrite !isNaN_false, ltb_spec, leb_spec. unfold SFltb, SFleb.
  intros Hx Hy. rewrite (SFcompare_antisym (Prim2SF x) (Prim2SF y)).
  pose proof (SFcompare_numbers _ _ Hx Hy) as Hc.
  destruct (SFcompare (Prim2SF x) (Prim2SF y)) as [[| |]|]; simpl;
    congruence.
Qed.

(** A withdrawal that passes the guard leaves a balance that is not
    negative. *)
Lemma sub_nonneg x y :
  Double.isNaN x = false -> Double.isFinite y = true ->
  (0 <? y) = true -> (x <? y) = false -> (0 <=? x - y) = true.
Proof.
  intros Hx Hf Hy Hlt. apply leb_zero_nonneg. rewrite sub_spec.
  rewrite ltb_spec in Hlt. apply isNaN_false in Hx.
  apply SFsub_nonneg; auto using Prim2SF_valid.
  apply ltb_zero_positive in Hy. unfold Double.isFinite in Hf.
  destruct Hy as [Hy|(m & e & Hy)]; [rewrite Hy in Hf; discriminate | eauto].
Qed.

(** A deposit on a balance that is not negative leaves one. *)
Lemma add_nonneg x y :
  (0 <=? x) = true -> (0 <? y) = true -> (0 <=? x + y) = true.
Proof.
  intros Hx Hy. apply leb_zero_nonneg. rewrite add_spec.
  apply SFadd_nonneg; [apply leb_zero_nonneg, Hx|].
  apply ltb_zero_positive in Hy.
  destruct Hy as [Hy|(m & e & Hy)]; rewrite Hy; reflexivity.
Qed.

(** Taking a positive finite number from itself leaves 0. *)
Lemma sub_self x :
  Double.isFinite x = true -> (0 <? x) = true -> x - x = 0.
Proof.
  intros Hf Hx. apply Prim2SF_inj. rewrite sub_spec, Prim2SF_zero.
  apply ltb_zero_positive in Hx. unfold Double.isFinite in Hf.
  destruct Hx as [Hx|(m & e & Hx)]; rewrite Hx in *; [discriminate|].
  apply SFsub_self.
Qed.

Lemma finite_number x : Double.isFinite x = true -> Double.isNaN x = false.
Proof.
  unfold Double.isFinite. intros H. apply isNaN_false. intros E.
  rewrite E in H. discriminate H.
Qed.

Lemma nonneg_number x : (0 <=? x) = true -> Double.isNaN x = false.
Proof.
  intros H. apply leb_zero_nonneg in H. apply isNaN_false. intros E.
  rewrite E in H. exact H.
Qed.

(** A number that fails the test [x <= 0] is positive. *)
Lemma not_leb_zero_positive x :
  Double.isNaN x = false -> (x <=? 0) = false -> (0 <? x) = true.
Proof.
  rewrite isNaN_false, ltb_spec, leb_spec, Prim2SF_zero.
  unfold SFltb, SFleb. intros Hx.
  rewrite (SFcompare_antisym (Prim2SF x) (S754_zero false)).
  assert (H0 : S754_zero false <> S754_nan) by discriminate.
  pose proof (SFcompare_numbers _ _ Hx H0) as Hc.
  destruct (SFcompare (Prim2SF x) (S754_zero false)) as [[| |]|]; simpl;
    congruence.
Qed.

End DoubleFacts.

(* ================================================================== *)
(** * Properties of the account ledger *)
(* ================================================================== *)

Module LedgerSpec.
Import Ledger.
Import Lqa.

Local Open Scope string_scope.
Local Open Scope list_scope.
Local Open Scope Q_scope.

Lemma falsy_string_false (s : string) : s <> "" -> falsy_string s = false.
Proof. destruct s; [congruence | reflexivity]. Qed.

Lemma positive_not_zero (q : Q) : 0 < q -> Qeq_bool q 0 = false.
Proof.
  intros H. destruct (Qeq_bool q 0) eqn:E; [|reflexivity].
  apply Qeq_bool_iff in E. rewrite E in H. exfalso. apply (Qlt_irrefl _ H).
Qed.

Lemma positive_not_le (q : Q) : 0 < q -> Qle_bool q 0 = false.
Proof.
  intros H. destruct (Qle_bool q 0) eqn:E; [|reflexivity].
  apply Qle_bool_iff in E. exfalso. apply (Qlt_not_le _ _ H E).
Qed.

(** Past its three validation checks, the handler is the lookup followed
    by the balance computation. *)
Lemma post_transaction_valid now st req :
  req_account_id req <> "" ->
  includes valid_types (req_type req) = true ->
  0 < req_amount req ->
  post_transaction now st req =
    match find_account (accounts st) (req_account_id req) with
    | None => (st, BadRequest "Account not found")
    | Some account =>
        match calc_new_balance (req_type req) (balance account)
                               (req_amount req) with
        | None => (st, BadRequest "Insufficient funds")
        | Some newBalance =>
            let newTransaction :=
              mkTransaction (transactionIdCounter st) (req_account_id req)
                (req_type req) (req_amount req) (req_description req)
                (balance account) newBalance "completed" now in
            (mkState
               (mutate_account (accounts st) (req_account_id req)
                               newBalance now)
               (transactions st ++ [newTransaction])
               (S (transactionIdCounter st)),
             Created newTransaction newBalance)
        end
    end.
Proof.
  intros Hid Hty Hamt. unfold post_transaction.
  rewrite (falsy_string_false _ Hid).
  assert (Ht : falsy_string (req_type req) = false).
  { destruct (req_type req); [discriminate Hty | reflexivity]. }
  rewrite Ht, (positive_not_zero _ Hamt), Hty, (positive_not_le _ Hamt).
  reflexivity.
Qed.

(** Every 201 answer comes from the last branch of the handler. *)
Lemma post_transaction_created now st req st' t b :
  post_transaction now st req = (st', Created t b) ->
  exists account,
    find_account (accounts st) (req_account_id req) = Some account /\
    calc_new_balance (req_type req) (balance account) (req_amount req)
      = Some b /\
    0 < req_amount req /\
    t = mkTransaction (transactionIdCounter st) (req_account_id req)
          (req_type req) (req_amount req) (req_description req)
          (balance account) b "completed" now /\
    st' = mkState
            (mutate_account (accounts st) (req_account_id req) b now)
            (transactions st ++ [t]) (S (transactionIdCounter st)).
Proof.
  unfold post_transaction.
  destruct (falsy_string (req_account_id req) || falsy_string (req_type req)
            || Qeq_bool (req_amount req) 0); [discriminate|].
  destruct (negb (includes valid_types (req_type req))); [discriminate|].
  destruct (Qle_bool (req_amount req) 0) eqn:Hle; [discriminate|].
  destruct (find_account (accounts st) (req_account_id req)) as [a|];
    [|discriminate].
  destruct (calc_new_balance (req_type req) (balance a) (req_amount req))
    as [nb|] eqn:Hnb; [|discriminate].
  intros H. injection H as <- <- <-.
  exists a. split; [reflexivity|]. split; [exact Hnb|].
  split; [|split; reflexivity].
  apply Qnot_le_lt. intros Hc. apply Qle_bool_iff in Hc. congruence.
Qed.

Lemma find_mutate_same l id b now a :
  find_account l id = Some a ->
  find_account (mutate_account l id b now) id =
    Some (mkAccount (acc_id a) (customer_id a) (account_type a) b
                    (acc_status a) now).
Proof.
  unfold find_account. induction l as [|x l IH]; simpl; [discriminate|].
  destruct (String.eqb (acc_id x) id) eqn:E; simpl.
  - intros H. injection H as <-. simpl. rewrite E. reflexivity.
  - rewrite E. exact IH.
Qed.

Lemma find_mutate_other l id id' b now :
  id' <> id ->
  find_account (mutate_account l id b now) id' = find_account l id'.
Proof.
  intros Hne. unfold find_account. induction l as [|x l IH]; simpl; auto.
  destruct (String.eqb (acc_id x) id) eqn:E; simpl.
  - apply String.eqb_eq in E.
    assert (E' : String.eqb (acc_id x) id' = false).
    { apply String.eqb_neq. congruence. }
    rewrite E'. reflexivity.
  - destruct (String.eqb (acc_id x) id'); auto.
Qed.

(** Writing back the balance an account already has changes no balance. *)
Lemma balance_of_mutate_same_balance st id id' a now txs n :
  find_account (accounts st) id = Some a ->
  balance_of (mkState (mutate_account (accounts st) id (balance a) now) txs n)
             id'
  = balance_of st id'.
Proof.
  intros Hf. unfold balance_of. simpl.
  destruct (string_dec id' id) as [->|Hne].
  - rewrite (find_mutate_same _ _ _ _ _ Hf), Hf. reflexivity.
  - rewrite (find_mutate_other _ _ _ _ _ Hne). reflexivity.
Qed.

(** The balance read back after a 201 answer. *)
Lemma balance_after_created now st req st' t b id :
  post_transaction now st req = (st', Created t b) ->
  balance_of st' id =
    if String.eqb id (req_account_id req) then Some b else balance_of st id.
Proof.
  intros H. destruct (post_transaction_created _ _ _ _ _ _ H)
    as (a & Hf & _ & _ & _ & ->).
  unfold balance_of. simpl.
  destruct (String.eqb id (req_account_id req)) eqn:E.
  - apply String.eqb_eq in E. subst id.
    rewrite (find_mutate_same _ _ _ _ _ Hf). reflexivity.
  - apply String.eqb_neq in E. rewrite (find_mutate_other _ _ _ _ _ E).
    reflexivity.
Qed.

(** ** C1 *)

(** C1, as the code has it: a request of type transfer on an existing
    account with a positive amount is answered 201 in one step that appends
    one ledger entry whose balance_before and balance_after both equal the
    account's balance, and no account balance changes; the request names no
    destination account and nothing is debited or credited. *)
Theorem transfer_records_without_moving_funds now st req account :
  req_account_id req <> "" ->
  req_type req = "transfer" ->
  0 < req_amount req ->
  find_account (accounts st) (req_account_id req) = Some account ->
  exists st' t,
    post_transaction now st req = (st', Created t (balance account)) /\
    txn_type t = "transfer" /\ amount t = req_amount req /\
    balance_before t = balance account /\
    balance_after t = balance account /\
    transactions st' = transactions st ++ [t] /\
    forall id, balance_of st' id = balance_of st id.
Proof.
  intros Hid Hty Hamt Hf.
  rewrite (post_transaction_valid now st req Hid) by (rewrite ?Hty; auto).
  rewrite Hf, Hty. cbn [calc_new_balance String.eqb Ascii.eqb Bool.eqb].
  cbv zeta. eexists. eexists. split; [reflexivity|]. cbn.
  repeat (split; [reflexivity|]).
  intros id. apply balance_of_mutate_same_balance. exact Hf.
Qed.

Lemma transfer_records_without_moving_funds_witness :
  exists st' t,
    post_transaction 7 st0 (mkRequest "account_1" "transfer" 100 "rent")
      = (st', Created t 1000) /\
    txn_type t = "transfer" /\ amount t = 100 /\
    balance_before t = 1000 /\ balance_after t = 1000 /\
    transactions st' = transactions st0 ++ [t] /\
    forall id, balance_of st' id = balance_of st0 id.
Proof.
  apply (transfer_records_without_moving_funds 7 st0
           (mkRequest "account_1" "transfer" 100 "rent")
           (mkAccount "account_1" "customer_1" "savings" 1000 "active" 0)).
  - discriminate.
  - reflexivity.
  - reflexivity.
  - reflexivity.
Defined.

(** C1 as stated fails: a transfer of 100 from account_1 (balance 1000) is
    answered 201 and recorded as completed, account_1 still holds 1000 and
    no other account is credited. *)
Lemma transfer_does_not_debit_source :
  post_transaction 7 st0 (mkRequest "account_1" "transfer" 100 "rent")
  = (mkState [mkAccount "account_1" "customer_1" "savings" 1000 "active" 7;
              mkAccount "account_2" "customer_2" "savings" 50 "active" 0]
             [mkTransaction 1 "account_1" "transfer" 100 "rent" 1000 1000
                            "completed" 7] 2,
     Created (mkTransaction 1 "account_1" "transfer" 100 "rent" 1000 1000
                            "completed" 7) 1000)
  /\ ~ (1000 == 1000 - 100)
  /\ ~ transfer_debits_source.
Proof.
  split; [reflexivity|]. split; [discriminate|].
  intros H.
  destruct (H 7%nat st0 (mkRequest "account_1" "transfer" 100 "rent")
              _ _ _ 1000 eq_refl eq_refl eq_refl) as (b' & Hb & Heq).
  cbv in Hb. injection Hb as <-. discriminate Heq.
Qed.

End LedgerSpec.

(* ================================================================== *)
(** * Properties of the account ledger on doubles *)
(* ================================================================== *)

Module LedgerDoubleSpec.
Import PrimFloat LedgerDouble DoubleFacts.

Local Open Scope string_scope.
Local Open Scope list_scope.
Local Open Scope float_scope.

Lemma truthy_string (s : string) : s <> "" -> Ledger.falsy_string s = false.
Proof. destruct s; [congruence | reflexivity]. Qed.

(** Past its three validation checks, the handler is the lookup followed
    by the balance computation. *)
Lemma post_transaction_passes parse now st req :
  req_account_id req <> "" ->
  Ledger.includes Ledger.valid_types (req_type req) = true ->
  falsy_json (req_amount req) = false ->
  (parseFloat parse (req_amount req) <=? 0) = false ->
  post_transaction parse now st req =
    match find_account (accounts st) (req_account_id req) with
    | None => (st, BadRequest "Account not found")
    | Some account =>
        match calc_new_balance (req_type req) (balance account)
                               (parseFloat parse (req_amount req)) with
        | None => (st, BadRequest "Insufficient funds")
        | Some newBalance =>
            let newTransaction :=
              mkTransaction (transactionIdCounter st) (req_account_id req)
                (req_type req) (parseFloat parse (req_amount req))
                (req_description req) (balance account) newBalance
                "completed" now in
            (mkState
               (mutate_account (accounts st) (req_account_id req)
                               newBalance now)
               (transactions st ++ [newTransaction])
               (S (transactionIdCounter st)),
             Created newTransaction newBalance)
        end
    end.
Proof.
  intros Hid Hty Hamt Hle. unfold post_transaction.
  rewrite (truthy_string _ Hid).
  assert (Ht : Ledger.falsy_string (req_type req) = false).
  { destruct (req_type req); [discriminate Hty | reflexivity]. }
  rewrite Ht, Hamt, Hty, Hle. reflexivity.
Qed.

(** Every 201 answer comes from the last branch of the handler. *)
Lemma post_transaction_committed parse now st req st' t b :
  post_transaction parse now st req = (st', Created t b) ->
  exists account,
    find_account (accounts st) (req_account_id req) = Some account /\
    calc_new_balance (req_type req) (balance account)
      (parseFloat parse (req_amount req)) = Some b /\
    req_account_id req <> "" /\
    Ledger.includes Ledger.valid_types (req_type req) = true /\
    falsy_json (req_amount req) = false /\
    (parseFloat parse (req_amount req) <=? 0) = false /\
    t = mkTransaction (transactionIdCounter st) (req_account_id req)
          (req_type req) (parseFloat parse (req_amount req))
          (req_description req) (balance account) b "completed" now /\
    st' = mkState
            (mutate_account (accounts st) (req_account_id req) b now)
            (transactions st ++ [t]) (S (transactionIdCounter st)).
Proof.
  unfold post_transaction.
  destruct (Ledger.falsy_string (req_account_id req)) eqn:Hid;
    [discriminate|].
  destruct (Ledger.falsy_string (req_type req)); [discriminate|].
  destruct (falsy_json (req_amount req)) eqn:Hf; [discriminate|].
  simpl orb. cbv iota.
  destruct (Ledger.includes Ledger.valid_types (req_type req)) eqn:Hty;
    [|discriminate].
  simpl negb. cbv iota.
  destruct (parseFloat parse (req_amount req) <=? 0) eqn:Hle; [discriminate|].
  destruct (find_account (accounts st) (req_account_id req)) as [a|];
    [|discriminate].
  destruct (calc_new_balance (req_type req) (balance a)
              (parseFloat parse (req_amount req))) as [nb|] eqn:Hnb;
    [|discriminate].
  intros H. injection H as <- <- <-.
  exists a. split; [reflexivity|]. split; [exact Hnb|].
  split; [intros E; rewrite E in Hid; discriminate Hid|].
  split; [reflexivity|]. split; [reflexivity|]. split; [reflexivity|].
  split; reflexivity.
Qed.

Lemma find_mutate_same_double l id b now a :
  find_account l id = Some a ->
  find_account (mutate_account l id b now) id =
    Some (mkAccount (acc_id a) (customer_id a) (account_type a) b
                    (acc_status a) now).
Proof.
  unfold find_account. induction l as [|x l IH]; simpl; [discriminate|].
  destruct (String.eqb (acc_id x) id) eqn:E; simpl.
  - intros H. injection H as <-. simpl. rewrite E. reflexivity.
  - rewrite E. exact IH.
Qed.

Lemma find_mutate_other_double l id id' b now :
  id' <> id ->
  find_account (mutate_account l id b now) id' = find_account l id'.
Proof.
  intros Hne. unfold find_account. induction l as [|x l IH]; simpl; auto.
  destruct (String.eqb (acc_id x) id) eqn:E; simpl.
  - apply String.eqb_eq in E.
    assert (E' : String.eqb (acc_id x) id' = false).
    { apply String.eqb_neq. congruence. }
    rewrite E'. reflexivity.
  - destruct (String.eqb (acc_id x) id'); auto.
Qed.

Lemma calc_new_balance_double ty bal amt b :
  calc_new_balance ty bal amt = Some b ->
  (ty = "deposit" /\ b = bal + amt) \/
  (ty = "withdrawal" /\ (bal <? amt) = false /\ b = bal - amt) \/
  (ty <> "deposit" /\ ty <> "withdrawal" /\ b = bal).
Proof.
  unfold calc_new_balance.
  destruct (String.eqb ty "deposit") eqn:Ed.
  - apply String.eqb_eq in Ed. intros H. injection H as <-. auto.
  - apply String.eqb_neq in Ed.
    destruct (String.eqb ty "withdrawal") eqn:Ew.
    + apply String.eqb_eq in Ew.
      destruct (bal <? amt) eqn:El; [discriminate|].
      intros H. injection H as <-. auto.
    + apply String.eqb_neq in Ew. intros H. injection H as <-. auto.
Qed.

(** The balance read back after a 201 answer. *)
Lemma balance_after_committed parse now st req st' t b id :
  post_transaction parse now st req = (st', Created t b) ->
  balance_of st' id =
    if String.eqb id (req_account_id req) then Some b else balance_of st id.
Proof.
  intros H. destruct (post_transaction_committed _ _ _ _ _ _ _ H)
    as (a & Hf & _ & _ & _ & _ & _ & _ & ->).
  unfold balance_of. simpl.
  destruct (String.eqb id (req_account_id req)) eqn:E.
  - apply String.eqb_eq in E. subst id.
    rewrite (find_mutate_same_double _ _ _ _ _ Hf). reflexivity.
  - apply String.eqb_neq in E.
    rewrite (find_mutate_other_double _ _ _ _ _ E). reflexivity.
Qed.

Lemma committed_entry_consistent parse now st req st' t b :
  post_transaction parse now st req = (st', Created t b) ->
  entry_consistent t.
Proof.
  intros H. destruct (post_transaction_committed _ _ _ _ _ _ _ H)
    as (a & _ & Hc & _ & _ & _ & _ & -> & _).
  destruct (calc_new_balance_double _ _ _ _ Hc)
    as [[Hty ->] | [(Hty & _ & ->) | (Hd & Hw & ->)]];
    split; simpl; intros Ht; try reflexivity; congruence.
Qed.

(** One committed request moves the balance of [id] as [apply_request]
    says. *)
Lemma committed_balance_step parse now st req st' t b id bal :
  post_transaction parse now st req = (st', Created t b) ->
  balance_of st id = Some bal ->
  balance_of st' id = Some (apply_request parse id bal req).
Proof.
  intros H Hb. rewrite (balance_after_committed _ _ _ _ _ _ _ id H).
  destruct (post_transaction_committed _ _ _ _ _ _ _ H)
    as (a & Hf & Hc & _).
  unfold apply_request. rewrite (String.eqb_sym (req_account_id req) id).
  destruct (String.eqb id (req_account_id req)) eqn:E; [|exact Hb].
  apply String.eqb_eq in E. subst id.
  unfold balance_of in Hb. rewrite Hf in Hb. simpl in Hb.
  injection Hb as <-.
  destruct (calc_new_balance_double _ _ _ _ Hc)
    as [[Hty ->] | [(Hty & _ & ->) | (Hd & Hw & ->)]].
  - rewrite Hty. reflexivity.
  - rewrite Hty. reflexivity.
  - apply String.eqb_neq in Hd, Hw. rewrite Hd, Hw. reflexivity.
Qed.

(** ** C2 *)

(** C2 as stated fails.  On an account holding 10^16, two deposits of 1
    are both committed and the balance is still 10^16: each entry has
    balance_after = balance_before although its amount is 1, and the final
    balance is not the initial balance plus the sum of the credits, which
    is 10^16 + 2. *)
Lemma repeated_deposits_are_absorbed :
  run_all not_a_number 7 st_large
    [mkRequest "account_1" "deposit" (JNumber 1) "";
     mkRequest "account_1" "deposit" (JNumber 1) ""]
  = Some (mkState
            [mkAccount "account_1" "customer_1" "savings" 1e16 "active" 8]
            [mkTransaction 1 "account_1" "deposit" 1 "" 1e16 1e16
                           "completed" 7;
             mkTransaction 2 "account_1" "deposit" 1 "" 1e16 1e16
                           "completed" 8] 3)
  /\ (value 1e16 == 10000000000000000)%Q
  /\ (value 1 == 1)%Q
  /\ ~ (value 1e16 == value 1e16 + value 1)%Q
  /\ ~ conserves_exactly.
Proof.
  split; [vm_compute; reflexivity|].
  split; [vm_compute; reflexivity|].
  split; [vm_compute; reflexivity|].
  split; [vm_compute; discriminate|].
  intros H.
  specialize (H not_a_number 7%nat st_large _ "account_1"
                [mkRequest "account_1" "deposit" (JNumber 1) "";
                 mkRequest "account_1" "deposit" (JNumber 1) ""]
                1e16 1e16 eq_refl).
  assert (Hfin : Forall (fun r => Double.isFinite
                                    (parseFloat not_a_number (req_amount r))
                                  = true)
                   [mkRequest "account_1" "deposit" (JNumber 1) "";
                    mkRequest "account_1" "deposit" (JNumber 1) ""])
    by (repeat constructor).
  specialize (H Hfin eq_refl eq_refl eq_refl eq_refl).
  vm_compute in H. discriminate H.
Qed.

(** C2, as the code has it: for every finite run of requests that are all
    committed, the balance of an account at the end is what results from
    its balance at the start by applying, in the order of the requests,
    the double addition of each deposited amount and the double
    subtraction of each withdrawn amount; the run appends one ledger entry
    per request, each with balance_after = balance_before + amount for a
    deposit and balance_before - amount for a withdrawal, in double
    arithmetic. *)
Theorem balance_replays_requests reqs :
  forall parse now st st' id b0,
    balance_of st id = Some b0 ->
    run_all parse now st reqs = Some st' ->
    exists entries,
      balance_of st' id
        = Some (fold_left (apply_request parse id) reqs b0) /\
      transactions st' = transactions st ++ entries /\
      List.length entries = List.length reqs /\
      Forall entry_consistent entries.
Proof.
  induction reqs as [|r rest IH]; intros parse now st st' id b0 Hb Hrun.
  - simpl in Hrun. injection Hrun as <-. exists [].
    split; [exact Hb|].
    split; [symmetry; apply app_nil_r|]. split; [reflexivity|constructor].
  - simpl in Hrun.
    destruct (post_transaction parse now st r) as [st1 [t b|e]] eqn:Hstep;
      [|discriminate].
    pose proof (committed_balance_step _ _ _ _ _ _ _ id b0 Hstep Hb) as Hb1.
    destruct (IH _ _ _ _ _ _ Hb1 Hrun) as (entries & Hbf & Htx & Hlen & Hall).
    exists (t :: entries). split; [exact Hbf|].
    split.
    { rewrite Htx.
      destruct (post_transaction_committed _ _ _ _ _ _ _ Hstep)
        as (a & _ & _ & _ & _ & _ & _ & _ & ->). simpl.
      rewrite <- app_assoc. reflexivity. }
    split; [simpl; congruence|].
    constructor; [|exact Hall].
    exact (committed_entry_consistent _ _ _ _ _ _ _ Hstep).
Qed.

Lemma balance_replays_requests_witness :
  exists entries,
    balance_of
      (mkState [mkAccount "account_1" "customer_1" "savings"
                          0.6000000000000001 "active" 9;
                mkAccount "account_2" "customer_2" "savings" 60 "active" 8]
         [mkTransaction 1 "account_1" "deposit" 0.2 "" 0.1
                        0.30000000000000004 "completed" 7;
          mkTransaction 2 "account_2" "deposit" 10 "" 50 60 "completed" 8;
          mkTransaction 3 "account_1" "deposit" 0.3 "" 0.30000000000000004
                        0.6000000000000001 "completed" 9] 4) "account_1"
      = Some (fold_left (apply_request not_a_number "account_1")
                [mkRequest "account_1" "deposit" (JNumber 0.2) "";
                 mkRequest "account_2" "deposit" (JNumber 10) "";
                 mkRequest "account_1" "deposit" (JNumber 0.3) ""] 0.1) /\
    transactions
      (mkState [mkAccount "account_1" "customer_1" "savings"
                          0.6000000000000001 "active" 9;
                mkAccount "account_2" "customer_2" "savings" 60 "active" 8]
         [mkTransaction 1 "account_1" "deposit" 0.2 "" 0.1
                        0.30000000000000004 "completed" 7;
          mkTransaction 2 "account_2" "deposit" 10 "" 50 60 "completed" 8;
          mkTransaction 3 "account_1" "deposit" 0.3 "" 0.30000000000000004
                        0.6000000000000001 "completed" 9] 4)
      = transactions st_small ++ entries /\
    List.length entries = 3%nat /\
    Forall entry_consistent entries.
Proof.
  apply (balance_replays_requests
           [mkRequest "account_1" "deposit" (JNumber 0.2) "";
            mkRequest "account_2" "deposit" (JNumber 10) "";
            mkRequest "account_1" "deposit" (JNumber 0.3) ""]
           not_a_number 7%nat st_small).
  - reflexivity.
  - vm_compute. reflexivity.
Defined.

(** ** C3 *)

(** C3 as stated fails.  On an account holding 10^16 a withdrawal of 1 is
    committed and the new balance is 10^16, not 10^16 - 1: the double
    nearest to the difference is the old balance.  On an account holding
    0.3 two withdrawals of 0.1 leave 0.19999999999999998 and then
    0.09999999999999998, and a third withdrawal of 0.1 is refused with
    "Insufficient funds", although 0.3 - 0.1 - 0.1 is not below 0.1. *)
Lemma withdrawal_of_one_is_absorbed :
  post_transaction not_a_number 7 st_large
    (mkRequest "account_1" "withdrawal" (JNumber 1) "cash")
  = (mkState
       [mkAccount "account_1" "customer_1" "savings" 1e16 "active" 7]
       [mkTransaction 1 "account_1" "withdrawal" 1 "cash" 1e16 1e16
                      "completed" 7] 2,
     Created (mkTransaction 1 "account_1" "withdrawal" 1 "cash" 1e16 1e16
                            "completed" 7) 1e16)
  /\ (value 1e16 == 10000000000000000)%Q
  /\ (value 1 == 1)%Q
  /\ ~ (value 1e16 == value 1e16 - value 1)%Q
  /\ run_all not_a_number 7 st_tenths
       [mkRequest "account_1" "withdrawal" (JNumber 0.1) "";
        mkRequest "account_1" "withdrawal" (JNumber 0.1) ""]
     = Some (mkState
               [mkAccount "account_1" "customer_1" "savings"
                          0.09999999999999998 "active" 8]
               [mkTransaction 1 "account_1" "withdrawal" 0.1 "" 0.3
                              0.19999999999999998 "completed" 7;
                mkTransaction 2 "account_1" "withdrawal" 0.1 ""
                              0.19999999999999998 0.09999999999999998
                              "completed" 8] 3)
  /\ post_transaction not_a_number 9
       (mkState
          [mkAccount "account_1" "customer_1" "savings"
                     0.09999999999999998 "active" 8]
          [mkTransaction 1 "account_1" "withdrawal" 0.1 "" 0.3
                         0.19999999999999998 "completed" 7;
           mkTransaction 2 "account_1" "withdrawal" 0.1 ""
                         0.19999999999999998 0.09999999999999998
                         "completed" 8] 3)
       (mkRequest "account_1" "withdrawal" (JNumber 0.1) "")
     = (mkState
          [mkAccount "account_1" "customer_1" "savings"
                     0.09999999999999998 "active" 8]
          [mkTransaction 1 "account_1" "withdrawal" 0.1 "" 0.3
                         0.19999999999999998 "completed" 7;
           mkTransaction 2 "account_1" "withdrawal" 0.1 ""
                         0.19999999999999998 0.09999999999999998
                         "completed" 8] 3,
        BadRequest "Insufficient funds")
  /\ ~ ((3 # 10) - (1 # 10) - (1 # 10) < 1 # 10)%Q
  /\ ~ debit_is_exact.
Proof.
  split; [vm_compute; reflexivity|].
  split; [vm_compute; reflexivity|].
  split; [vm_compute; reflexivity|].
  split; [vm_compute; discriminate|].
  split; [vm_compute; reflexivity|].
  split; [vm_compute; reflexivity|].
  split; [vm_compute; discriminate|].
  intros H.
  specialize (H not_a_number 7%nat st_large
                (mkRequest "account_1" "withdrawal" (JNumber 1) "cash")
                _ _ _ eq_refl eq_refl eq_refl eq_refl).
  vm_compute in H. discriminate H.
Qed.

(** C3, as the code has it: for every existing account and every positive
    amount, a withdrawal is refused with "Insufficient funds" exactly when
    the balance is below the amount, compared as doubles; the refusal
    leaves the accounts, the ledger and the id counter as they were;
    otherwise the request is committed, the new balance is the double
    difference balance - amount and one entry is appended. *)
Theorem withdrawal_insufficient_funds parse now st req account :
  req_account_id req <> "" ->
  req_type req = "withdrawal" ->
  falsy_json (req_amount req) = false ->
  (0 <? parseFloat parse (req_amount req)) = true ->
  find_account (accounts st) (req_account_id req) = Some account ->
  ((exists e, snd (post_transaction parse now st req) = BadRequest e)
     <-> (balance account <? parseFloat parse (req_amount req)) = true) /\
  ((balance account <? parseFloat parse (req_amount req)) = true ->
     post_transaction parse now st req
       = (st, BadRequest "Insufficient funds")) /\
  ((balance account <? parseFloat parse (req_amount req)) = false ->
     exists st' t,
       post_transaction parse now st req
         = (st', Created t (balance account
                            - parseFloat parse (req_amount req))) /\
       balance_before t = balance account /\
       amount t = parseFloat parse (req_amount req) /\
       balance_after t
         = balance account - parseFloat parse (req_amount req) /\
       balance_of st' (req_account_id req)
         = Some (balance account - parseFloat parse (req_amount req)) /\
       transactions st' = transactions st ++ [t]).
Proof.
  intros Hid Hty Htruthy Hpos Hf.
  destruct (positive_number _ Hpos) as (_ & Hle & _).
  rewrite (post_transaction_passes parse now st req Hid)
    by (rewrite ?Hty; auto).
  rewrite Hf, Hty. unfold calc_new_balance.
  change (String.eqb "withdrawal" "deposit") with false.
  change (String.eqb "withdrawal" "withdrawal") with true. cbv iota.
  destruct (balance account <? parseFloat parse (req_amount req)) eqn:E.
  - split; [|split].
    + split; [reflexivity | intros _; eexists; reflexivity].
    + reflexivity.
    + discriminate.
  - split; [|split].
    + split; [intros [e He]; discriminate He | discriminate].
    + discriminate.
    + intros _. eexists. eexists. split; [reflexivity|].
      split; [reflexivity|]. split; [reflexivity|]. split; [reflexivity|].
      split; [|reflexivity].
      unfold balance_of. simpl accounts.
      rewrite (find_mutate_same_double _ _ _ _ _ Hf). reflexivity.
Qed.

Lemma withdrawal_insufficient_funds_witness :
  post_transaction not_a_number 7 st0
    (mkRequest "account_1" "withdrawal" (JNumber 1500) "")
    = (st0, BadRequest "Insufficient funds") /\
  exists st' t,
    post_transaction not_a_number 7 st0
      (mkRequest "account_1" "withdrawal" (JNumber 800.1) "")
      = (st', Created t (1000 - 800.1)) /\
    balance_before t = 1000 /\
    amount t = 800.1 /\
    balance_after t = 1000 - 800.1 /\
    balance_of st' "account_1" = Some (1000 - 800.1) /\
    transactions st' = transactions st0 ++ [t].
Proof.
  split.
  - refine (proj1 (proj2 (withdrawal_insufficient_funds not_a_number 7 st0
              (mkRequest "account_1" "withdrawal" (JNumber 1500) "")
              (mkAccount "account_1" "customer_1" "savings" 1000 "active" 0)
              _ _ _ _ _)) _); try reflexivity.
    discriminate.
  - refine (proj2 (proj2 (withdrawal_insufficient_funds not_a_number 7 st0
              (mkRequest "account_1" "withdrawal" (JNumber 800.1) "")
              (mkAccount "account_1" "customer_1" "savings" 1000 "active" 0)
              _ _ _ _ _)) _); try reflexivity; discriminate.
Defined.

(** ** C4 *)

(** C4 as stated fails: with a minimum balance of 500, account_1 (balance
    1000) withdraws 800; the request is committed and leaves 200. *)
Lemma withdrawal_goes_below_minimum :
  post_transaction not_a_number 7 st0
    (mkRequest "account_1" "withdrawal" (JNumber 800) "cash")
  = (mkState [mkAccount "account_1" "customer_1" "savings" 200 "active" 7;
              mkAccount "account_2" "customer_2" "savings" 50 "active" 0]
             [mkTransaction 1 "account_1" "withdrawal" 800 "cash" 1000 200
                            "completed" 7] 2,
     Created (mkTransaction 1 "account_1" "withdrawal" 800 "cash" 1000 200
                            "completed" 7) 200)
  /\ (500 <=? 1000) = true /\ (200 <? 500) = true
  /\ ~ respects_floor 500.
Proof.
  split; [vm_compute; reflexivity|]. split; [reflexivity|].
  split; [reflexivity|].
  intros H.
  destruct (H not_a_number 7%nat st0
              (mkRequest "account_1" "withdrawal" (JNumber 800) "cash")
              _ _ _ "account_1" 1000 eq_refl eq_refl eq_refl)
    as (b' & Hb & Hle).
  vm_compute in Hb. injection Hb as <-. discriminate Hle.
Qed.

(** C4, as the code has it: the handler reads no minimum balance; the
    floor it enforces is zero.  A withdrawal of a positive amount above
    the balance is refused with "Insufficient funds" and writes nothing
    (it is not clamped to the floor).  A committed withdrawal of a finite
    amount from a balance that is a number takes no more than the balance
    and leaves a balance of at least 0, and no committed transaction of a
    finite amount, of any type, takes an account from a balance of at
    least 0 to a negative one. *)
Theorem balance_never_negative parse now st req :
  (forall account,
     req_account_id req <> "" ->
     req_type req = "withdrawal" ->
     falsy_json (req_amount req) = false ->
     (0 <? parseFloat parse (req_amount req)) = true ->
     find_account (accounts st) (req_account_id req) = Some account ->
     (balance account <? parseFloat parse (req_amount req)) = true ->
     post_transaction parse now st req
       = (st, BadRequest "Insufficient funds")) /\
  (forall st' t b,
     req_type req = "withdrawal" ->
     post_transaction parse now st req = (st', Created t b) ->
     Double.isFinite (amount t) = true ->
     Double.isNaN (balance_before t) = false ->
     (amount t <=? balance_before t) = true /\
     b = balance_before t - amount t /\
     balance_after t = b /\
     (0 <=? b) = true /\
     balance_of st' (req_account_id req) = Some b) /\
  (forall st' t b id bal,
     post_transaction parse now st req = (st', Created t b) ->
     Double.isFinite (amount t) = true ->
     balance_of st id = Some bal -> (0 <=? bal) = true ->
     exists bal', balance_of st' id = Some bal' /\ (0 <=? bal') = true).
Proof.
  split; [|split].
  - intros account Hid Hty Htruthy Hpos Hf Hlt.
    destruct (positive_number _ Hpos) as (_ & Hle & _).
    rewrite (post_transaction_passes parse now st req Hid)
      by (rewrite ?Hty; auto).
    rewrite Hf, Hty. unfold calc_new_balance.
    change (String.eqb "withdrawal" "deposit") with false.
    change (String.eqb "withdrawal" "withdrawal") with true. cbv iota.
    rewrite Hlt. reflexivity.
  - intros st' t b Hty H Hfin Hnum.
    pose proof (balance_after_committed _ _ _ _ _ _ _ (req_account_id req) H)
      as Hb. rewrite String.eqb_refl in Hb.
    destruct (post_transaction_committed _ _ _ _ _ _ _ H)
      as (a & Hf & Hc & _ & _ & _ & Hle & -> & _).
    simpl in Hfin, Hnum |- *.
    pose proof (finite_number _ Hfin) as Hna.
    pose proof (not_leb_zero_positive _ Hna Hle) as Hpos.
    destruct (calc_new_balance_double _ _ _ _ Hc)
      as [[Hd _] | [(_ & Hge & ->) | (_ & Hw & _)]];
      [congruence | | congruence].
    split; [apply ltb_false_leb; assumption|].
    split; [reflexivity|]. split; [reflexivity|].
    split; [apply sub_nonneg; assumption | exact Hb].
  - intros st' t b id bal H Hfin Hb Hle0.
    rewrite (balance_after_committed _ _ _ _ _ _ _ id H).
    destruct (post_transaction_committed _ _ _ _ _ _ _ H)
      as (a & Hf & Hc & _ & _ & _ & Hle & -> & _).
    simpl in Hfin.
    pose proof (finite_number _ Hfin) as Hna.
    pose proof (not_leb_zero_positive _ Hna Hle) as Hpos.
    destruct (String.eqb id (req_account_id req)) eqn:E.
    + apply String.eqb_eq in E. subst id.
      unfold balance_of in Hb. rewrite Hf in Hb. simpl in Hb.
      injection Hb as <-. exists b. split; [reflexivity|].
      destruct (calc_new_balance_double _ _ _ _ Hc)
        as [[_ ->] | [(_ & Hge & ->) | (_ & _ & ->)]].
      * apply add_nonneg; assumption.
      * apply sub_nonneg; auto using nonneg_number.
      * exact Hle0.
    + exists bal. split; [exact Hb | exact Hle0].
Qed.

Lemma balance_never_negative_witness :
  post_transaction not_a_number 7 st0
    (mkRequest "account_2" "withdrawal" (JNumber 50.01) "cash")
    = (st0, BadRequest "Insufficient funds") /\
  ((800 <=? 1000) = true /\
   200 = 1000 - 800 /\
   balance_after (mkTransaction 1 "account_1" "withdrawal" 800 "cash" 1000
                                200 "completed" 7) = 200 /\
   (0 <=? 200) = true /\
   balance_of
     (mkState [mkAccount "account_1" "customer_1" "savings" 200 "active" 7;
               mkAccount "account_2" "customer_2" "savings" 50 "active" 0]
              [mkTransaction 1 "account_1" "withdrawal" 800 "cash" 1000
                             200 "completed" 7] 2) "account_1"
   = Some 200) /\
  (exists bal',
     balance_of
       (mkState [mkAccount "account_1" "customer_1" "savings" 200 "active" 7;
                 mkAccount "account_2" "customer_2" "savings" 50 "active" 0]
                [mkTransaction 1 "account_1" "withdrawal" 800 "cash" 1000
                               200 "completed" 7] 2) "account_2"
     = Some bal' /\ (0 <=? bal') = true).
Proof.
  split; [|split].
  - apply (proj1 (balance_never_negative not_a_number 7%nat st0
             (mkRequest "account_2" "withdrawal" (JNumber 50.01) "cash"))
             (mkAccount "account_2" "customer_2" "savings" 50 "active" 0));
      try reflexivity.
    discriminate.
  - apply (proj1 (proj2 (balance_never_negative not_a_number 7%nat st0
             (mkRequest "account_1" "withdrawal" (JNumber 800) "cash")))
             (mkState
                [mkAccount "account_1" "customer_1" "savings" 200 "active" 7;
                 mkAccount "account_2" "customer_2" "savings" 50 "active" 0]
                [mkTransaction 1 "account_1" "withdrawal" 800 "cash" 1000
                               200 "completed" 7] 2)
             (mkTransaction 1 "account_1" "withdrawal" 800 "cash" 1000
                            200 "completed" 7) 200);
      reflexivity.
  - apply (proj2 (proj2 (balance_never_negative not_a_number 7%nat st0
             (mkRequest "account_1" "withdrawal" (JNumber 800) "cash")))
             _ (mkTransaction 1 "account_1" "withdrawal" 800 "cash" 1000
                              200 "completed" 7) 200 "account_2" 50);
      reflexivity.
Defined.

End LedgerDoubleSpec.

(* ================================================================== *)
(** * Properties of fixed deposits *)
(* ================================================================== *)

Module FixedDepositSpec.
Import FixedDeposit.
Import Lra.

Local Open Scope string_scope.
Local Open Scope R_scope.








End FixedDepositSpec.

(* ================================================================== *)
(** * Properties of fixed deposits on doubles *)
(* ================================================================== *)

Module FixedDepositDoubleSpec.
Import PrimFloat FixedDepositDouble.

Local Open Scope string_scope.
Local Open Scope list_scope.
Local Open Scope float_scope.

(** For truthy inputs [calculateMaturityAmount] is its last line. *)
Lemma calculateMaturityAmount_truthy Math_pow p r t :
  Double.falsy p = false -> Double.falsy r = false ->
  Double.falsy t = false ->
  calculateMaturityAmount Math_pow p r t
  = Double.Math_round
      (p * Math_pow (1 + r / 100 / 4) (4 * (t / 12)) * 100) / 100.
Proof.
  intros Hp Hr Ht. unfold calculateMaturityAmount.
  rewrite Hp, Hr, Ht. reflexivity.
Qed.

Lemma prematureClose_active_double Math_pow store_ok months penalty this :
  status this = FixedDeposit.ACTIVE ->
  prematureClose Math_pow store_ok months penalty this =
    if store_ok
    then Ok (mkFD (principal_amount this) (interest_rate this)
               (tenure_months this)
               (Double.Math_round
                  (prematureAmount Math_pow this months
                     (match penalty with Some q => q | None => 1 end) * 100)
                / 100)
               FixedDeposit.PREMATURE_CLOSED)
    else Throw "Failed to close fixed deposit prematurely".
Proof.
  intros Hs. unfold prematureClose. rewrite Hs. simpl.
  destruct store_ok; reflexivity.
Qed.

(** The arguments of [Math.pow] for 8% over 12 months. *)
Lemma golden_arguments : 1 + 8 / 100 / 4 = 1.02 /\ 4 * (12 / 12) = 4.
Proof. split; reflexivity. Qed.

(** Two doubles that differ are not equal. *)
Lemma ltb_neq x y : (x <? y) = true -> x <> y.
Proof.
  intros H E. subst y. rewrite DoubleFacts.ltb_irrefl in H. discriminate H.
Qed.

(** ** C5 *)

(** C5 as stated fails.  For a principal of 3686791 at 8.67% for 6 months
    the formula gives 3848345.464999999375, which rounds to 3848345.46, and
    the code returns 3848345.47; for a principal of 1000 at 6% for 6 months
    the formula gives 1030.225, which rounds to 1030.23 (halves up, as
    Math.round does), and the code returns 1030.22.  In both cases the
    code returns that amount whether Math.pow returns the double nearest to
    the square or either of its neighbours: the difference comes from the
    doubles nearest to 1 + rate/400 and to the products. *)
Lemma maturity_amount_misses_a_cent :
  (3686791 * (1 + (867 # 100) / 400) ^ 2 * 100
   == 384834546 + (7999999 # 16000000))%Q /\
  formula_cents 3686791 (867 # 100) 2 = 384834546%Z /\
  of_cents 384834546 = 3848345.46 /\
  Forall (fun v =>
            calculateMaturityAmount
              (tabulated [(1 + 8.67 / 100 / 4, 4 * (6 / 12), v)])
              3686791 8.67 6 = 3848345.47)
         (within_ulps 1 ((1 + 8.67 / 100 / 4) * (1 + 8.67 / 100 / 4))) /\
  (3848345.46 <? 3848345.47) = true /\
  (1000 * (1 + 6 / 400) ^ 2 * 100 == 103022 + (1 # 2))%Q /\
  formula_cents 1000 6 2 = 103023%Z /\
  of_cents 103023 = 1030.23 /\
  Forall (fun v =>
            calculateMaturityAmount
              (tabulated [(1 + 6 / 100 / 4, 4 * (6 / 12), v)])
              1000 6 6 = 1030.22)
         (within_ulps 1 ((1 + 6 / 100 / 4) * (1 + 6 / 100 / 4))) /\
  (1030.22 <? 1030.23) = true /\
  ~ maturity_is_rounded_formula
      (tabulated [(1 + 8.67 / 100 / 4, 4 * (6 / 12),
                   (1 + 8.67 / 100 / 4) * (1 + 8.67 / 100 / 4))]).
Proof.
  split; [vm_compute; reflexivity|].
  split; [vm_compute; reflexivity|].
  split; [vm_compute; reflexivity|].
  split; [repeat constructor; vm_compute; reflexivity|].
  split; [vm_compute; reflexivity|].
  split; [vm_compute; reflexivity|].
  split; [vm_compute; reflexivity|].
  split; [vm_compute; reflexivity|].
  split; [repeat constructor; vm_compute; reflexivity|].
  split; [vm_compute; reflexivity|].
  intros H.
  specialize (H 3686791%Z 867%Z 2%nat eq_refl eq_refl (le_S _ _ (le_n 1))).
  vm_compute in H. revert H. apply not_eq_sym, ltb_neq. reflexivity.
Qed.

(** C5, as the code has it: for every principal, rate and tenure that are
    numbers other than 0, the amount computed for a deposit is
    Math.round(principal x Math.pow(1 + rate/100/4, 4 x (tenure/12)) x 100)
    / 100 with every operation in double arithmetic, that is the formula
    evaluated in doubles and the double product rounded to the nearest
    hundredth; it is what the constructor stores when no amount is
    supplied, whatever the status, so it depends on the principal, the rate,
    the tenure and the platform's Math.pow alone; and principal 100000 at
    8% for 12 months gives 108243.22 whenever Math.pow(1.02, 4) is within
    four units in the last place of 1.08243216. *)
Theorem maturity_amount_formula Math_pow p r t :
  Double.falsy p = false -> Double.falsy r = false ->
  Double.falsy t = false ->
  calculateMaturityAmount Math_pow p r t
    = Double.Math_round
        (p * Math_pow (1 + r / 100 / 4) (4 * (t / 12)) * 100) / 100 /\
  (forall st st',
     maturity_amount (new_FixedDeposit Math_pow p r t None st) =
       calculateMaturityAmount Math_pow p r t /\
     maturity_amount (new_FixedDeposit Math_pow p r t None st) =
       maturity_amount (new_FixedDeposit Math_pow p r t None st')) /\
  (In (Math_pow (1 + 8 / 100 / 4) (4 * (12 / 12)))
      (within_ulps 4 1.08243216) ->
   calculateMaturityAmount Math_pow 100000 8 12 = 108243.22).
Proof.
  intros Hp Hr Ht. split; [|split].
  - apply calculateMaturityAmount_truthy; assumption.
  - intros st st'. split; reflexivity.
  - intros Hin. rewrite calculateMaturityAmount_truthy by reflexivity.
    cbn [In within_ulps below above app] in Hin.
    repeat (destruct Hin as [<- | Hin]; [vm_compute; reflexivity|]).
    contradiction.
Qed.

Lemma maturity_amount_formula_witness :
  calculateMaturityAmount
    (tabulated [(1 + 8 / 100 / 4, 4 * (12 / 12), 1.08243216)]) 100000 8 12
    = Double.Math_round
        (100000
         * tabulated [(1 + 8 / 100 / 4, 4 * (12 / 12), 1.08243216)]
             (1 + 8 / 100 / 4) (4 * (12 / 12)) * 100) / 100 /\
  (forall st st',
     maturity_amount
       (new_FixedDeposit
          (tabulated [(1 + 8 / 100 / 4, 4 * (12 / 12), 1.08243216)])
          100000 8 12 None st) =
       calculateMaturityAmount
         (tabulated [(1 + 8 / 100 / 4, 4 * (12 / 12), 1.08243216)])
         100000 8 12 /\
     maturity_amount
       (new_FixedDeposit
          (tabulated [(1 + 8 / 100 / 4, 4 * (12 / 12), 1.08243216)])
          100000 8 12 None st) =
       maturity_amount
         (new_FixedDeposit
            (tabulated [(1 + 8 / 100 / 4, 4 * (12 / 12), 1.08243216)])
            100000 8 12 None st')) /\
  (In (tabulated [(1 + 8 / 100 / 4, 4 * (12 / 12), 1.08243216)]
         (1 + 8 / 100 / 4) (4 * (12 / 12)))
      (within_ulps 4 1.08243216) ->
   calculateMaturityAmount
     (tabulated [(1 + 8 / 100 / 4, 4 * (12 / 12), 1.08243216)])
     100000 8 12 = 108243.22).
Proof.
  apply (maturity_amount_formula
           (tabulated [(1 + 8 / 100 / 4, 4 * (12 / 12), 1.08243216)])
           100000 8 12); reflexivity.
Defined.

(** ** C6 *)




End FixedDepositDoubleSpec.

(* ================================================================== *)
(** * Properties of the share registry *)
(* ================================================================== *)

Module ShareSpec.
Import Store Share.

Local Open Scope string_scope.
Local Open Scope list_scope.
Local Open Scope Z_scope.

(** [Share.transfer] is its checks followed by the two inserts. *)
Lemma transfer_unfold h o td db :
  transfer h o td db =
  match transfer_checks h o td db with
  | Some e => (db, Throw e)
  | None =>
      if debit_insert_error o
      then (db, Throw "Failed to create share transaction")
      else if credit_insert_error o
      then (with_share_transactions db
              (share_transactions db ++ [debit_row h td]),
            Throw "Failed to create share transaction")
      else (with_share_transactions db
              ((share_transactions db ++ [debit_row h td])
                 ++ [credit_row h td]),
            Ok true)
  end.
Proof.
  unfold transfer, transfer_checks.
  destruct (negb (shareTransferSchema h td)); [reflexivity|].
  destruct (if from_member_error o then None
            else select_member db (from_member_id td)) as [fm|];
    [|reflexivity].
  destruct (if to_member_error o then None
            else select_member db (to_member_id td)) as [tm|];
    [|reflexivity].
  destruct (negb (String.eqb (member_status fm) "active")
            || negb (String.eqb (member_status tm) "active"));
    [reflexivity|].
  destruct (shares_error o); [reflexivity|].
  destruct (totalShares (active_shares_of db (from_member_id td))
            <? td_number_of_shares td); [reflexivity|].
  unfold bind, createTransaction, ret.
  destruct (debit_insert_error o); [reflexivity|].
  cbn [share_transactions members banks shares dividends
       dividend_distributions].
  destruct (credit_insert_error o); reflexivity.
Qed.

(** Whatever happens, [Share.transfer] leaves every table but
    [share_transactions] as it found it. *)
Lemma transfer_frame h o td db :
  let db' := fst (transfer h o td db) in
  shares db' = shares db /\ members db' = members db /\
  banks db' = banks db /\ dividends db' = dividends db /\
  dividend_distributions db' = dividend_distributions db.
Proof.
  rewrite transfer_unfold.
  destruct (transfer_checks h o td db); [cbn; auto|].
  destruct (debit_insert_error o); [cbn; auto|].
  destruct (credit_insert_error o); cbn; auto.
Qed.

Lemma transfer_Ok h o td db db' b :
  transfer h o td db = (db', Ok b) ->
  transfer_checks h o td db = None /\
  db' = with_share_transactions db
          (share_transactions db ++ [debit_row h td; credit_row h td]).
Proof.
  rewrite transfer_unfold.
  destruct (transfer_checks h o td db); [discriminate|].
  destruct (debit_insert_error o); [discriminate|].
  destruct (credit_insert_error o); [discriminate|].
  intros H. injection H as <- _. split; [reflexivity|].
  rewrite <- app_assoc. reflexivity.
Qed.

Lemma recorded_total_app l l' :
  recorded_total (l ++ l') = recorded_total l + recorded_total l'.
Proof.
  unfold recorded_total. induction l as [|r l IH]; simpl; [reflexivity|].
  rewrite IH. lia.
Qed.

Lemma recorded_for_app id l l' :
  recorded_for id (l ++ l') = recorded_for id l + recorded_for id l'.
Proof.
  unfold recorded_for. induction l as [|r l IH]; simpl; [reflexivity|].
  rewrite IH. destruct (String.eqb (st_member_id r) id); lia.
Qed.

(** A missing or inactive member, or too few active shares, stops
    [Share.transfer] at one of its checks. *)
Lemma transfer_checks_reject h o td db :
  select_member db (from_member_id td) = None \/
  select_member db (to_member_id td) = None \/
  (exists m, select_member db (from_member_id td) = Some m /\
             member_status m <> "active") \/
  (exists m, select_member db (to_member_id td) = Some m /\
             member_status m <> "active") \/
  totalShares (active_shares_of db (from_member_id td))
    < td_number_of_shares td ->
  exists e, transfer_checks h o td db = Some e.
Proof.
  intros H. unfold transfer_checks.
  destruct (negb (shareTransferSchema h td)); [eauto|].
  destruct (select_member db (from_member_id td)) as [fm|] eqn:Hfm;
    [|destruct (from_member_error o); eauto].
  destruct (select_member db (to_member_id td)) as [tm|] eqn:Htm;
    [|destruct (from_member_error o), (to_member_error o); eauto].
  destruct (from_member_error o); [eauto|].
  destruct (to_member_error o); [eauto|].
  destruct (String.eqb (member_status fm) "active") eqn:Efm; [|simpl; eauto].
  destruct (String.eqb (member_status tm) "active") eqn:Etm; [|simpl; eauto].
  simpl. destruct (shares_error o); [eauto|].
  destruct (totalShares (active_shares_of db (from_member_id td))
            <? td_number_of_shares td) eqn:Elt; [eauto|].
  exfalso. apply String.eqb_eq in Efm, Etm. apply Z.ltb_ge in Elt.
  destruct H as [H | [H | [(m & H & Hm) | [(m & H & Hm) | H]]]];
    try discriminate; try lia.
  - injection H as <-. contradiction.
  - injection H as <-. contradiction.
Qed.

(** ** C9 *)

(** C9 as stated fails for [Share.transfer]: called with member A on both
    sides it passes every check and records the two rows.  The rule on
    identical members is in the schema of the route only. *)
Lemma transfer_accepts_identical_members :
  from_member_id (mkTransferData member_A member_A 50 500%Q
                                 "gift to a relative")
  = to_member_id (mkTransferData member_A member_A 50 500%Q
                                 "gift to a relative") /\
  transfer host0 healthy
    (mkTransferData member_A member_A 50 500%Q "gift to a relative") db0
  = (with_share_transactions db0
       (share_transactions db0 ++
        [mkShareTransaction (uuidv4 host0 0) member_A TRANSFER (-50)
           (- (500)) ("Share transfer to member " ++ member_A ++ ": "
                        ++ "gift to a relative") (now host0);
         mkShareTransaction (uuidv4 host0 1) member_A TRANSFER 50 500
           ("Share transfer from member " ++ member_A ++ ": "
              ++ "gift to a relative") (now host0)]),
     Ok true) /\
  ~ identical_members_are_refused.
Proof.
  split; [reflexivity|]. split; [reflexivity|].
  intros H.
  destruct (H host0 healthy
              (mkTransferData member_A member_A 50 500%Q
                              "gift to a relative") db0 eq_refl)
    as (e & He).
  discriminate He.
Qed.

(** C9, as the code has it.  [Share.transfer] fails, with nothing written,
    if either member is not found or not active, or if the active holdings
    of the source add up to less than number_of_shares, in which case (the
    other checks passed) the error is "Insufficient shares for transfer".
    It does not compare the two members: a request with from_member_id
    equal to to_member_id is refused by the schema of the route, which
    answers 400 before [Share.transfer] is called, and every request the
    route answers with 200 has two different members and went through
    [Share.transfer].  A transfer that succeeds records exactly two rows,
    -number_of_shares and -price for the source and +number_of_shares and
    +price for the destination, so the total number of shares, recorded
    and held, is unchanged, and for two different members the recorded
    movements of the source go down by number_of_shares and those of the
    destination go up by as much. *)
Theorem share_transfer_operation h o td db :
  ((select_member db (from_member_id td) = None \/
    select_member db (to_member_id td) = None \/
    (exists m, select_member db (from_member_id td) = Some m /\
               member_status m <> "active") \/
    (exists m, select_member db (to_member_id td) = Some m /\
               member_status m <> "active") \/
    totalShares (active_shares_of db (from_member_id td))
      < td_number_of_shares td) ->
   exists e, transfer h o td db = (db, Throw e)) /\
  (shareTransferSchema h td = true ->
   (exists m, select_member db (from_member_id td) = Some m /\
              member_status m = "active") ->
   (exists m, select_member db (to_member_id td) = Some m /\
              member_status m = "active") ->
   from_member_error o = false -> to_member_error o = false ->
   shares_error o = false ->
   totalShares (active_shares_of db (from_member_id td))
     < td_number_of_shares td ->
   transfer h o td db = (db, Throw "Insufficient shares for transfer")) /\
  (from_member_id td = to_member_id td ->
   exists e, transferShares h o td db = (db, Status400 e)) /\
  (forall db' message,
     transferShares h o td db = (db', Status200 message) ->
     from_member_id td <> to_member_id td /\
     transfer h o td db = (db', Ok true)) /\
  (forall db' b,
     transfer h o td db = (db', Ok b) ->
     share_transactions db' =
       share_transactions db ++
       [mkShareTransaction (uuidv4 h 0) (from_member_id td) TRANSFER
          (- td_number_of_shares td) (- transfer_price td)
          ("Share transfer to member " ++ to_member_id td ++ ": "
             ++ transfer_reason td) (now h);
        mkShareTransaction (uuidv4 h 1) (to_member_id td) TRANSFER
          (td_number_of_shares td) (transfer_price td)
          ("Share transfer from member " ++ from_member_id td ++ ": "
             ++ transfer_reason td) (now h)] /\
     shares db' = shares db /\
     total_holdings db' = total_holdings db /\
     recorded_total (share_transactions db')
       = recorded_total (share_transactions db) /\
     (from_member_id td <> to_member_id td ->
      recorded_for (from_member_id td) (share_transactions db')
        = recorded_for (from_member_id td) (share_transactions db)
          - td_number_of_shares td /\
      recorded_for (to_member_id td) (share_transactions db')
        = recorded_for (to_member_id td) (share_transactions db)
          + td_number_of_shares td)).
Proof.
  split; [|split; [|split; [|split]]].
  - intros H. rewrite transfer_unfold.
    destruct (transfer_checks_reject h o td db H) as (e & ->). eauto.
  - intros Hs (fm & Hfm & Hfa) (tm & Htm & Hta) Ho1 Ho2 Ho3 Hlt.
    rewrite transfer_unfold. unfold transfer_checks.
    rewrite Hs, Ho1, Ho2, Hfm, Htm, Hfa, Hta, Ho3.
    apply Z.ltb_lt in Hlt. rewrite Hlt. reflexivity.
  - intros Heq. unfold transferShares.
    assert (Hs : route_shareTransferSchema h td = false).
    { unfold route_shareTransferSchema. rewrite Heq, String.eqb_refl.
      apply andb_false_r. }
    rewrite Hs. simpl. eauto.
  - intros db' message. unfold transferShares.
    destruct (route_shareTransferSchema h td) eqn:Hs; [|discriminate].
    simpl. destruct (transfer h o td db) as [db1 [b|e]] eqn:Ht;
      [|discriminate].
    intros H. injection H as <- _. split.
    + unfold route_shareTransferSchema in Hs. rewrite !andb_true_iff in Hs.
      destruct Hs as (_ & Hs). apply negb_true_iff, String.eqb_neq in Hs.
      exact Hs.
    + rewrite transfer_unfold in Ht.
      destruct (transfer_checks h o td db); [discriminate|].
      destruct (debit_insert_error o); [discriminate|].
      destruct (credit_insert_error o); [discriminate|].
      injection Ht as _ <-. reflexivity.
  - intros db' b Ht.
    destruct (transfer_Ok _ _ _ _ _ _ Ht) as (_ & ->).
    unfold with_share_transactions, total_holdings, debit_row, credit_row.
    cbn [share_transactions shares].
    split; [reflexivity|]. split; [reflexivity|]. split; [reflexivity|].
    rewrite recorded_total_app, !recorded_for_app. unfold TRANSFER. cbn.
    rewrite !String.eqb_refl. split; [lia|].
    intros Hne. apply String.eqb_neq in Hne.
    rewrite Hne, (String.eqb_sym (to_member_id td)), Hne. split; lia.
Qed.

Lemma share_transfer_operation_witness :
  transfer host0 healthy
    (mkTransferData member_A member_B 150 500%Q "gift to a relative") db0
    = (db0, Throw "Insufficient shares for transfer") /\
  (exists e, transferShares host0 healthy
      (mkTransferData member_A member_A 50 500%Q "gift to a relative") db0
    = (db0, Status400 e)) /\
  (recorded_for member_A
     (share_transactions
        (fst (transfer host0 healthy
                (mkTransferData member_A member_B 100 500%Q
                                "gift to a relative") db0)))
   = recorded_for member_A (share_transactions db0) - 100 /\
   recorded_for member_B
     (share_transactions
        (fst (transfer host0 healthy
                (mkTransferData member_A member_B 100 500%Q
                                "gift to a relative") db0)))
   = recorded_for member_B (share_transactions db0) + 100).
Proof.
  split; [|split].
  - apply (proj1 (proj2 (share_transfer_operation host0 healthy
             (mkTransferData member_A member_B 150 500%Q
                             "gift to a relative") db0))).
    + reflexivity.
    + exists (mkMember member_A "active"). split; reflexivity.
    + exists (mkMember member_B "active"). split; reflexivity.
    + reflexivity.
    + reflexivity.
    + reflexivity.
    + reflexivity.
  - apply (proj1 (proj2 (proj2 (share_transfer_operation host0 healthy
             (mkTransferData member_A member_A 50 500%Q
                             "gift to a relative") db0)))).
    reflexivity.
  - apply (proj2 (proj2 (proj2 (proj2 (share_transfer_operation host0 healthy
             (mkTransferData member_A member_B 100 500%Q
                             "gift to a relative") db0))))
             _ true).
    + reflexivity.
    + discriminate.
Defined.

(** ** C10 *)

Lemma transfer_checks_ignore_transactions h o td db rows :
  transfer_checks h o td (with_share_transactions db rows)
  = transfer_checks h o td db.
Proof. reflexivity. Qed.

Lemma transfer_healthy_Ok h td db :
  transfer_checks h healthy td db = None ->
  transfer h healthy td db =
    (with_share_transactions db
       (share_transactions db ++ [debit_row h td; credit_row h td]),
     Ok true).
Proof.
  intros Hc. rewrite transfer_unfold, Hc. simpl.
  rewrite <- app_assoc. reflexivity.
Qed.

Lemma transfer_times_accepted k :
  forall h td db,
    transfer_checks h healthy td db = None ->
    exists db',
      transfer_times k h td db = Some db' /\
      shares db' = shares db /\ members db' = members db /\
      List.length (share_transactions db')
        = (List.length (share_transactions db) + 2 * k)%nat.
Proof.
  induction k as [|k IH]; intros h td db Hc.
  - exists db. simpl. repeat split; lia.
  - simpl. rewrite (transfer_healthy_Ok h td db Hc).
    destruct (IH h td
                (with_share_transactions db
                   (share_transactions db
                      ++ [debit_row h td; credit_row h td])))
      as (db' & Hrun & Hsh & Hm & Hlen).
    { rewrite transfer_checks_ignore_transactions. exact Hc. }
    exists db'. split; [exact Hrun|]. split; [exact Hsh|].
    split; [exact Hm|]. rewrite Hlen. cbn [share_transactions
      with_share_transactions]. rewrite length_app. simpl. lia.
Qed.

(** C10: Share.transfer never changes a row of the shares table, whatever
    it returns or throws: it only appends to share_transactions, exactly
    two rows when it succeeds.  So the sum of active holdings that its
    sufficiency check reads is the same after a transfer as before, for
    every member, and once one transfer of a request is accepted, any
    number of repetitions of it are all accepted. *)
Theorem transfer_leaves_holdings h o td db :
  shares (fst (transfer h o td db)) = shares db /\
  (forall id,
     totalShares (active_shares_of (fst (transfer h o td db)) id)
     = totalShares (active_shares_of db id)) /\
  (exists rows,
     share_transactions (fst (transfer h o td db))
       = share_transactions db ++ rows /\
     (forall b, snd (transfer h o td db) = Ok b -> List.length rows = 2%nat))
  /\
  (snd (transfer h healthy td db) = Ok true ->
   forall k, exists db',
     transfer_times k h td db = Some db' /\
     shares db' = shares db /\
     totalShares (active_shares_of db' (from_member_id td))
       = totalShares (active_shares_of db (from_member_id td)) /\
     List.length (share_transactions db')
       = (List.length (share_transactions db) + 2 * k)%nat).
Proof.
  split; [|split; [|split]].
  - apply transfer_frame.
  - intros id. unfold active_shares_of.
    rewrite (proj1 (transfer_frame h o td db)). reflexivity.
  - rewrite transfer_unfold.
    destruct (transfer_checks h o td db).
    { exists []. split; [symmetry; apply app_nil_r | discriminate]. }
    destruct (debit_insert_error o).
    { exists []. split; [symmetry; apply app_nil_r | discriminate]. }
    destruct (credit_insert_error o).
    { exists [debit_row h td]. split; [reflexivity | discriminate]. }
    exists [debit_row h td; credit_row h td]. split; [|reflexivity].
    cbn. rewrite <- app_assoc. reflexivity.
  - intros Hok k.
    assert (Hc : transfer_checks h healthy td db = None).
    { rewrite transfer_unfold in Hok.
      destruct (transfer_checks h healthy td db); [discriminate|reflexivity]. }
    destruct (transfer_times_accepted k h td db Hc)
      as (db' & Hrun & Hsh & _ & Hlen).
    exists db'. split; [exact Hrun|]. split; [exact Hsh|].
    split; [|exact Hlen]. unfold active_shares_of. rewrite Hsh. reflexivity.
Qed.

Lemma transfer_leaves_holdings_witness :
  exists db',
    transfer_times 3 host0
      (mkTransferData member_A member_B 100 500%Q "gift to a relative") db0
      = Some db' /\
    shares db' = shares db0 /\
    totalShares (active_shares_of db' member_A)
      = totalShares (active_shares_of db0 member_A) /\
    List.length (share_transactions db')
      = (List.length (share_transactions db0) + 2 * 3)%nat.
Proof.
  apply (proj2 (proj2 (proj2 (transfer_leaves_holdings host0 healthy
           (mkTransferData member_A member_B 100 500%Q "gift to a relative")
           db0)))).
  reflexivity.
Defined.

End ShareSpec.

(* ================================================================== *)
(** * Properties of dividends *)
(* ================================================================== *)

Module DividendSpec.
Import Store Dividend.

Local Open Scope string_scope.
Local Open Scope list_scope.
Local Open Scope Q_scope.

(** ** C7 *)

Lemma distribute_not_approved h o this db :
  dividend_status this <> APPROVED ->
  distribute h o this db =
    (db, Throw "Only approved dividends can be distributed").
Proof.
  intros H. unfold distribute.
  apply String.eqb_neq in H. rewrite H. reflexivity.
Qed.

(** A successful [update] hands back a row with the fields it wrote. *)
Lemma update_Ok e h this u db db' this' :
  update e h this u db = (db', Ok this') ->
  exists row,
    this' = apply_update u (now h) row /\
    db' = with_dividends db
            (update_rows (dividend_id this) (apply_update u (now h))
                         (dividends db)).
Proof.
  unfold update. destruct (negb (dividendUpdateSchema u)); [discriminate|].
  destruct e; [discriminate|].
  destruct (single _) as [row|]; [|discriminate].
  intros H. injection H as <- <-. exists row. split; reflexivity.
Qed.

Lemma distribute_Ok h o this db db' this' s :
  distribute h o this db = (db', Ok (this', s)) ->
  dividend_status this = APPROVED /\
  dividend_status this' = PAID /\
  total_dividend_amount this' = total_amount s /\
  total_members s = List.length (distributions s) /\
  dividend_distributions db'
    = dividend_distributions db ++ distributions s /\
  (forall r, In r (dividends db') -> dividend_id r = dividend_id this ->
             dividend_status r = PAID).
Proof.
  unfold distribute.
  destruct (String.eqb (dividend_status this) APPROVED) eqn:Hs;
    [|discriminate].
  apply String.eqb_eq in Hs. simpl.
  destruct (members_error o); [discriminate|].
  destruct (distribute_loop h this (eligibleMembers this db) [] 0)
    as [[dists total]|e]; [|discriminate].
  destruct (distribution_error o); [discriminate|].
  unfold bind, ret.
  destruct (update _ _ _ _ _) as [db2 [t2|e2]] eqn:Hu; [|discriminate].
  intros H. injection H as <- <- <-.
  destruct (update_Ok _ _ _ _ _ _ _ Hu) as (row & -> & ->).
  split; [exact Hs|]. do 4 (split; [reflexivity|]).
  intros r Hin Hid. cbn [dividends with_dividends with_distributions] in Hin.
  unfold update_rows in Hin. apply in_map_iff in Hin.
  destruct Hin as (r0 & <- & _).
  destruct (Nat.eqb (dividend_id r0) (dividend_id this)) eqn:E.
  - reflexivity.
  - apply Nat.eqb_neq in E. contradiction.
Qed.

(** C7: distribute() throws, before any write, unless the dividend is
    approved; when it succeeds the dividend is paid, on the instance and
    on its stored row, and the rows it returns are the rows it appended;
    so a second distribute() on the dividend it left throws and inserts
    no row. *)
Theorem distribute_only_once h o this db :
  (dividend_status this <> APPROVED ->
   distribute h o this db =
     (db, Throw "Only approved dividends can be distributed")) /\
  (forall db' this' s,
     distribute h o this db = (db', Ok (this', s)) ->
     dividend_status this = APPROVED /\
     dividend_status this' = PAID /\
     dividend_distributions db'
       = dividend_distributions db ++ distributions s /\
     (forall r, In r (dividends db') -> dividend_id r = dividend_id this ->
                dividend_status r = PAID) /\
     (forall h2 o2,
        distribute h2 o2 this' db' =
          (db', Throw "Only approved dividends can be distributed")) /\
     (forall h2 o2 r,
        In r (dividends db') -> dividend_id r = dividend_id this ->
        distribute h2 o2 r db' =
          (db', Throw "Only approved dividends can be distributed"))).
Proof.
  split.
  - apply distribute_not_approved.
  - intros db' this' s H.
    destruct (distribute_Ok _ _ _ _ _ _ _ H)
      as (Ha & Hp & _ & _ & Hd & Hrow).
    split; [exact Ha|]. split; [exact Hp|]. split; [exact Hd|].
    split; [exact Hrow|]. split.
    + intros h2 o2. apply distribute_not_approved. rewrite Hp. discriminate.
    + intros h2 o2 r Hin Hid. apply distribute_not_approved.
      rewrite (Hrow r Hin Hid). discriminate.
Qed.

Lemma distribute_only_once_witness :
  exists db' this' s,
    distribute host0 distribute_healthy approved_2023 db0
      = (db', Ok (this', s)) /\
    dividend_status approved_2023 = APPROVED /\
    dividend_status this' = PAID /\
    dividend_distributions db'
      = dividend_distributions db0 ++ distributions s /\
    List.length (distributions s) = 2%nat /\
    distribute host0 distribute_healthy this' db' =
      (db', Throw "Only approved dividends can be distributed").
Proof.
  destruct (distribute host0 distribute_healthy approved_2023 db0)
    as [db' [[this' s]|e]] eqn:H; [|vm_compute in H; discriminate H].
  exists db', this', s.
  destruct (proj2 (distribute_only_once host0 distribute_healthy
                     approved_2023 db0) db' this' s H)
    as (Ha & Hp & Hd & _ & Hagain & _).
  split; [reflexivity|]. split; [exact Ha|]. split; [exact Hp|].
  split; [exact Hd|]. split; [|apply Hagain].
  vm_compute in H. injection H as _ _ <-. reflexivity.
Defined.

(** ** C8 *)

Lemma create_valid h data db row bank :
  validate h data = Some row ->
  select_bank db (dividend_bank_id row) = Some bank ->
  bank_status bank = "active" ->
  create h create_healthy data db =
    match maybeSingle (filter (same_key row) (dividends db)) with
    | Some _ => (db, Throw (already_declared row))
    | None => (with_dividends db (dividends db ++ [row]), Ok row)
    end.
Proof.
  intros Hv Hb Ha. unfold create. rewrite Hv. simpl. rewrite Hb, Ha.
  reflexivity.
Qed.

Lemma maybeSingle_Some {A} (l : list A) :
  (exists r, maybeSingle l = Some r) <-> (exists r, l = [r]).
Proof.
  split; intros [r H].
  - destruct l as [|x [|y l]]; try discriminate. exists x. reflexivity.
  - exists r. rewrite H. reflexivity.
Qed.

(** Rewriting rows without touching year, type or bank commutes with the
    lookup of [create]. *)
Lemma filter_update_rows row id f rows :
  (forall r, same_key row (f r) = same_key row r) ->
  filter (same_key row) (update_rows id f rows)
  = update_rows id f (filter (same_key row) rows).
Proof.
  intros Hf. unfold update_rows. induction rows as [|r rows IH]; simpl.
  - reflexivity.
  - destruct (Nat.eqb (dividend_id r) id) eqn:E.
    + rewrite Hf. destruct (same_key row r); simpl; rewrite ?E, IH;
        reflexivity.
    + destruct (same_key row r); simpl; rewrite ?E, IH; reflexivity.
Qed.

(** Data without [total_dividend_amount], which is what the controller
    of [POST /api/v1/dividends] builds, never gets past the schema. *)
Lemma create_without_total h o data db :
  data_total_dividend_amount data = None ->
  create h o data db = (db, Throw "Validation error").
Proof.
  intros H. unfold create, validate. rewrite H. reflexivity.
Qed.

(** C8 as stated fails: the only dividend stored for (2024, annual) at
    bank_1 is cancelled, and declaring (2024, annual) again is refused as
    already declared. *)
Lemma cancelled_dividend_blocks_declaration :
  create host0 create_healthy declare_2024 db0
    = (db0, Throw "annual dividend already declared for year 2024") /\
  filter (same_key cancelled_2024) (dividends db0) = [cancelled_2024] /\
  dividend_status cancelled_2024 = CANCELLED /\
  ~ duplicate_iff_not_cancelled.
Proof.
  split; [reflexivity|]. split; [reflexivity|]. split; [reflexivity|].
  intros H.
  destruct (H host0 declare_2024 db0 _ (mkBank bank_1 "active")
              eq_refl eq_refl eq_refl) as [Hdup _].
  destruct (Hdup eq_refl) as (d & Hin & Hkey & Hst).
  simpl in Hin. destruct Hin as [<- | [<- | []]].
  - discriminate Hkey.
  - apply Hst. reflexivity.
Qed.

(** C8, as the code has it: a declaration with valid data for an active
    bank, on a store that answers, is refused as already declared exactly
    when the lookup by (year, type, bank) finds one stored dividend,
    whatever its status; with none stored it inserts the dividend; and
    after the stored dividend for that (year, type) has been cancelled the
    declaration is still refused. *)
Theorem declare_duplicate h data db row bank :
  validate h data = Some row ->
  select_bank db (dividend_bank_id row) = Some bank ->
  bank_status bank = "active" ->
  (snd (create h create_healthy data db) = Throw (already_declared row)
   <-> exists d, filter (same_key row) (dividends db) = [d]) /\
  (forall d, filter (same_key row) (dividends db) = [d] ->
     create h create_healthy data db = (db, Throw (already_declared row))) /\
  (filter (same_key row) (dividends db) = [] ->
     create h create_healthy data db
       = (with_dividends db (dividends db ++ [row]), Ok row)) /\
  (forall this reason h1 db1 this',
     filter (same_key row) (dividends db) = [this] ->
     cancel false h1 this reason db = (db1, Ok this') ->
     dividend_status this' = CANCELLED /\
     create h create_healthy data db1
       = (db1, Throw (already_declared row))).
Proof.
  intros Hv Hb Ha. rewrite (create_valid h data db row bank Hv Hb Ha).
  split; [|split; [|split]].
  - split.
    + intros H. apply maybeSingle_Some.
      destruct (maybeSingle (filter (same_key row) (dividends db)))
        as [d|]; [eauto | discriminate H].
    + intros [d ->]. reflexivity.
  - intros d ->. reflexivity.
  - intros ->. reflexivity.
  - intros this reason h1 db1 this' Hone Hc. unfold cancel in Hc.
    destruct (String.eqb (dividend_status this) PAID); [discriminate|].
    simpl in Hc. injection Hc as <- <-. split; [reflexivity|].
    match goal with
    | |- create _ _ _ ?d = _ =>
        rewrite (create_valid h data d row bank Hv Hb Ha)
    end.
    cbn [dividends with_dividends].
    rewrite filter_update_rows by reflexivity. rewrite Hone. simpl.
    destruct (Nat.eqb (dividend_id this) (dividend_id this)); reflexivity.
Qed.

Lemma declare_duplicate_witness :
  create host0 create_healthy declare_2024 db0
    = (db0, Throw "annual dividend already declared for year 2024") /\
  create host0 create_healthy
    (mkDividendData None 2025 "annual" 6 (Some 0) bank_1 None (Some 20%nat)
                    (Some 30%nat) None) db0
    = (with_dividends db0
         (dividends db0 ++
          [mkDividend 100 2025 "annual" (precision2 6) 0 bank_1 PENDING
                      20 30 "" 7]),
       Ok (mkDividend 100 2025 "annual" (precision2 6) 0 bank_1 PENDING
                      20 30 "" 7)).
Proof.
  split.
  - apply (proj1 (proj2 (declare_duplicate host0 declare_2024 db0
             (mkDividend 100 2024 "annual" (precision2 6) 0 bank_1 PENDING
                         20 30 "" 7)
             (mkBank bank_1 "active") eq_refl eq_refl eq_refl))
             cancelled_2024).
    reflexivity.
  - apply (proj1 (proj2 (proj2 (declare_duplicate host0
             (mkDividendData None 2025 "annual" 6 (Some 0) bank_1 None
                             (Some 20%nat) (Some 30%nat) None) db0
             (mkDividend 100 2025 "annual" (precision2 6) 0 bank_1 PENDING
                         20 30 "" 7)
             (mkBank bank_1 "active") eq_refl eq_refl eq_refl)))).
    reflexivity.
Defined.

End DividendSpec.

(* ================================================================== *)
(** * Further properties of fixed deposits *)
(* ================================================================== *)

Module FixedDepositFacts.
Import FixedDeposit.
Import Lra.

Local Open Scope string_scope.
Local Open Scope R_scope.






(** What [prematureClose] pays when the store takes the update. *)
Lemma premature_payout store_ok months penalty this this' :
  prematureClose store_ok months penalty this = Ok this' ->
  status this = ACTIVE /\ status this' = PREMATURE_CLOSED /\
  maturity_amount this' =
    Math_round
      (prematureAmount this months
         (match penalty with Some q => q | None => 1 end) * 100) / 100.
Proof.
  unfold prematureClose.
  destruct (String.eqb (status this) ACTIVE) eqn:E; [|discriminate].
  apply String.eqb_eq in E. simpl.
  destruct store_ok; [|discriminate]. simpl.
  intros H. injection H as <-. repeat split; auto.
Qed.





Lemma mature_Ok store_ok this this' :
  mature store_ok this = Ok this' ->
  status this = ACTIVE /\ status this' = MATURED /\
  maturity_amount this' = maturity_amount this /\
  principal_amount this' = principal_amount this.
Proof.
  unfold mature.
  destruct (String.eqb (status this) ACTIVE) eqn:E; [|discriminate].
  apply String.eqb_eq in E. simpl.
  destruct store_ok; [|discriminate]. simpl.
  intros H. injection H as <-. repeat split; auto.
Qed.

Lemma not_active_throws this :
  status this <> ACTIVE ->
  (forall ok, mature ok this = Throw "Only active FDs can be matured") /\
  (forall ok months penalty,
     prematureClose ok months penalty this =
       Throw "Only active FDs can be closed prematurely").
Proof.
  intros H. apply String.eqb_neq in H.
  split; intros; [unfold mature | unfold prematureClose]; rewrite H;
    reflexivity.
Qed.

(** X10.  Maturity and premature closure are one-way and exclude each other:
    either succeeds only on an active deposit, [mature] keeps the maturity
    amount, and on the deposit either of them leaves, both throw. *)
Theorem closed_deposit_is_final ok months penalty this this' :
  mature ok this = Ok this' \/
  prematureClose ok months penalty this = Ok this' ->
  status this = ACTIVE /\
  (mature ok this = Ok this' ->
   status this' = MATURED /\ maturity_amount this' = maturity_amount this) /\
  (forall ok2, mature ok2 this' = Throw "Only active FDs can be matured") /\
  (forall ok2 months2 penalty2,
     prematureClose ok2 months2 penalty2 this' =
       Throw "Only active FDs can be closed prematurely").
Proof.
  intros H.
  assert (Hs : status this = ACTIVE /\ status this' <> ACTIVE).
  { destruct H as [H | H].
    - destruct (mature_Ok _ _ _ H) as (Ha & Hm & _). split; [exact Ha|].
      rewrite Hm. discriminate.
    - destruct (premature_payout _ _ _ _ _ H) as (Ha & Hm & _).
      split; [exact Ha|]. rewrite Hm. discriminate. }
  destruct Hs as [Ha Hn]. split; [exact Ha|]. split.
  - intros Hm. destruct (mature_Ok _ _ _ Hm) as (_ & Hst & Hamt & _). auto.
  - apply not_active_throws. exact Hn.
Qed.

Lemma closed_deposit_is_final_witness :
  mature false (mkFD 100000 8 12 (calculateMaturityAmount 100000 8 12)
                     MATURED)
    = Throw "Only active FDs can be matured" /\
  prematureClose true 3 None
    (mkFD 100000 8 12 (calculateMaturityAmount 100000 8 12) MATURED)
    = Throw "Only active FDs can be closed prematurely".
Proof.
  destruct (closed_deposit_is_final true 0 None
              (new_FixedDeposit 100000 8 12 None (Some ACTIVE))
              (mkFD 100000 8 12 (calculateMaturityAmount 100000 8 12)
                    MATURED))
    as (_ & _ & Hm & Hp).
  - left. reflexivity.
  - split; [apply Hm | apply Hp].
Defined.

End FixedDepositFacts.

(* ================================================================== *)
(** * Further properties of fixed deposits on doubles *)
(* ================================================================== *)

Module FixedDepositDoubleFacts.
Import PrimFloat SpecFloat FloatOps FloatAxioms.
Import FixedDepositDouble DoubleFacts.

Local Open Scope string_scope.
Local Open Scope list_scope.
Local Open Scope float_scope.

(** Taking 0 from a positive number leaves it. *)
Lemma sub_zero_r x : (0 <? x) = true -> x - 0 = x.
Proof.
  intros H. apply Prim2SF_inj. rewrite sub_spec, Prim2SF_zero.
  apply ltb_zero_positive in H.
  destruct H as [H|(m & e & H)]; rewrite H; reflexivity.
Qed.

Lemma Math_max_zero_positive x :
  (0 <? x) = true -> Double.Math_max 0 x = x.
Proof.
  intros H. unfold Double.Math_max.
  destruct (positive_number _ H) as (_ & _ & Hn).
  rewrite Hn, H. reflexivity.
Qed.

(** X24.  Closing an active deposit exactly tenure_months whole months
    after its start date with a penalty of 0 pays exactly the amount
    computed at booking: the two computations are the same double
    operations on the same numbers, whatever Math.pow returns. *)
Theorem full_term_closure_pays_booked_amount Math_pow p r t months :
  (0 <? p) = true -> (0 <? r) = true -> (0 <? t) = true ->
  Double.of_Z months = t ->
  prematureClose Math_pow true months (Some 0)
    (new_FixedDeposit Math_pow p r t None (Some FixedDeposit.ACTIVE))
  = Ok (mkFD p r t (calculateMaturityAmount Math_pow p r t)
             FixedDeposit.PREMATURE_CLOSED).
Proof.
  intros Hp Hr Ht Hm.
  destruct (positive_number _ Hp) as (Hfp & _ & _).
  destruct (positive_number _ Hr) as (Hfr & _ & _).
  destruct (positive_number _ Ht) as (Hft & _ & _).
  rewrite FixedDepositDoubleSpec.prematureClose_active_double by reflexivity.
  rewrite FixedDepositDoubleSpec.calculateMaturityAmount_truthy by assumption.
  unfold prematureAmount, new_FixedDeposit.
  cbn [principal_amount interest_rate tenure_months].
  rewrite (sub_zero_r _ Hr), (Math_max_zero_positive _ Hr), Hm.
  reflexivity.
Qed.

Lemma full_term_closure_pays_booked_amount_witness :
  prematureClose pow_of_example true 12 (Some 0)
    (new_FixedDeposit pow_of_example 100000 8 12 None
                      (Some FixedDeposit.ACTIVE))
  = Ok (mkFD 100000 8 12 (calculateMaturityAmount pow_of_example 100000 8 12)
             FixedDeposit.PREMATURE_CLOSED).
Proof.
  apply (full_term_closure_pays_booked_amount pow_of_example 100000 8 12 12);
    reflexivity.
Defined.

End FixedDepositDoubleFacts.

(* ================================================================== *)
(** * Further properties of the account ledger *)
(* ================================================================== *)

Module LedgerFacts.
Import Ledger LedgerHistory.
Import Lqa.

Local Open Scope string_scope.
Local Open Scope list_scope.
Local Open Scope Q_scope.

Lemma includes_In l s : includes l s = true <-> In s l.
Proof.
  unfold includes. rewrite existsb_exists. split.
  - intros (x & Hin & Heq). apply String.eqb_eq in Heq. subst. exact Hin.
  - intros H. exists s. split; [exact H | apply String.eqb_refl].
Qed.

(** A request that is refused changes nothing. *)
Lemma rejected_unchanged now st req e :
  snd (post_transaction now st req) = BadRequest e ->
  fst (post_transaction now st req) = st.
Proof.
  unfold post_transaction.
  destruct (falsy_string (req_account_id req) || falsy_string (req_type req)
            || Qeq_bool (req_amount req) 0); [reflexivity|].
  destruct (negb (includes valid_types (req_type req))); [reflexivity|].
  destruct (Qle_bool (req_amount req) 0); [reflexivity|].
  destruct (find_account (accounts st) (req_account_id req)) as [a|];
    [|reflexivity].
  destruct (calc_new_balance (req_type req) (balance a) (req_amount req));
    [discriminate | reflexivity].
Qed.

Lemma mutate_account_ids l id b now :
  map acc_id (mutate_account l id b now) = map acc_id l.
Proof.
  induction l as [|a l IH]; simpl; [reflexivity|].
  destruct (String.eqb (acc_id a) id); simpl; [reflexivity|].
  rewrite IH. reflexivity.
Qed.

(** X1.  Every answer of [POST /api/v1/transactions] is all or nothing: a
    400 leaves accounts, ledger and counter as they were; a 201 appends
    exactly one entry, numbered with the counter, moves the counter up by
    one and keeps the accounts in place with their ids. *)
Theorem answer_is_all_or_nothing now st req :
  (forall e, snd (post_transaction now st req) = BadRequest e ->
             fst (post_transaction now st req) = st) /\
  (forall st' t b,
     post_transaction now st req = (st', Created t b) ->
     transactions st' = transactions st ++ [t] /\
     txn_id t = transactionIdCounter st /\
     transactionIdCounter st' = S (transactionIdCounter st) /\
     txn_account_id t = req_account_id req /\
     txn_status t = "completed" /\
     map acc_id (accounts st') = map acc_id (accounts st)).
Proof.
  split.
  - intros e. apply rejected_unchanged.
  - intros st' t b H.
    destruct (LedgerSpec.post_transaction_created _ _ _ _ _ _ H)
      as (a & _ & _ & _ & Ht & ->).
    cbn [transactions transactionIdCounter accounts].
    rewrite mutate_account_ids. split; [reflexivity|].
    rewrite Ht. cbn. repeat split; reflexivity.
Qed.

Lemma answer_is_all_or_nothing_witness :
  fst (post_transaction 7 st0 (mkRequest "account_1" "credit" 100 ""))
    = st0 /\
  transactionIdCounter
    (fst (post_transaction 7 st0 (mkRequest "account_1" "deposit" 100 "")))
    = 2%nat.
Proof.
  split.
  - apply (proj1 (answer_is_all_or_nothing 7 st0
                    (mkRequest "account_1" "credit" 100 ""))
             "Transaction type must be deposit, withdrawal, or transfer").
    reflexivity.
  - destruct (post_transaction 7 st0
                (mkRequest "account_1" "deposit" 100 ""))
      as [st' [t b|e]] eqn:H; [|vm_compute in H; discriminate H].
    destruct (proj2 (answer_is_all_or_nothing 7 st0
                       (mkRequest "account_1" "deposit" 100 ""))
                st' t b H) as (_ & _ & Hc & _).
    exact Hc.
Defined.

Lemma step_cases now st req :
  fst (post_transaction now st req) = st \/
  exists t b, post_transaction now st req
                = (fst (post_transaction now st req), Created t b).
Proof.
  destruct (post_transaction now st req) as [st' [t b|e]] eqn:H.
  - right. exists t, b. reflexivity.
  - left. pose proof (rejected_unchanged now st req e) as Hr.
    rewrite H in Hr. apply Hr. reflexivity.
Qed.

Lemma ids_fresh_step now st req :
  ids_fresh st -> ids_fresh (fst (post_transaction now st req)).
Proof.
  intros [Hnd Hlt].
  destruct (step_cases now st req) as [-> | (t & b & H)]; [split; assumption|].
  destruct (proj2 (answer_is_all_or_nothing now st req) _ t b H)
    as (Htx & Hid & Hc & _).
  unfold ids_fresh. rewrite Htx, Hc. split.
  - rewrite map_app. simpl.
    apply NoDup_app; [exact Hnd | repeat constructor; intros [] |].
    intros x Hx [<- | []]. apply in_map_iff in Hx.
    destruct Hx as (t' & Ht' & Hin). rewrite Forall_forall in Hlt.
    specialize (Hlt t' Hin). lia.
  - apply Forall_app. split.
    + apply Forall_impl with (2 := Hlt). intros; lia.
    + constructor; [lia | constructor].
Qed.

(** X3.  Ledger ids never repeat: if the ids in the ledger are pairwise
    distinct and below the counter, they still are after the server has
    answered any list of requests, whatever it answered. *)
Theorem ledger_ids_stay_distinct reqs :
  forall now st, ids_fresh st -> ids_fresh (serve now st reqs).
Proof.
  induction reqs as [|r rest IH]; intros now st H; simpl; [exact H|].
  apply IH. apply ids_fresh_step. exact H.
Qed.

Lemma ledger_ids_stay_distinct_witness :
  ids_fresh
    (serve 7 st0 [mkRequest "account_1" "deposit" 500 "";
                  mkRequest "account_1" "withdrawal" 5000 "";
                  mkRequest "account_2" "transfer" 10 ""]).
Proof.
  apply (ledger_ids_stay_distinct
           [mkRequest "account_1" "deposit" 500 "";
            mkRequest "account_1" "withdrawal" 5000 "";
            mkRequest "account_2" "transfer" 10 ""] 7 st0).
  split; [constructor | constructor].
Defined.

Lemma chained_app p l t :
  chained p (l ++ [t]) <->
  chained p l /\
  match closing p l with None => True | Some b => balance_before t = b end.
Proof.
  revert p. induction l as [|x l IH]; intros p; simpl.
  - tauto.
  - rewrite IH. tauto.
Qed.

Lemma closing_app p l t : closing p (l ++ [t]) = Some (balance_after t).
Proof.
  revert p. induction l as [|x l IH]; intros p; simpl; [reflexivity|].
  apply IH.
Qed.

Lemma get_transactions_created now st req st' t b id :
  post_transaction now st req = (st', Created t b) ->
  get_transactions st' id =
    if String.eqb (req_account_id req) id
    then get_transactions st id ++ [t]
    else get_transactions st id.
Proof.
  intros H.
  destruct (proj2 (answer_is_all_or_nothing now st req) _ t b H)
    as (Htx & _ & _ & Hacc & _).
  unfold get_transactions. rewrite Htx, filter_app. simpl. rewrite Hacc.
  destruct (String.eqb (req_account_id req) id);
    [reflexivity | apply app_nil_r].
Qed.

Lemma history_consistent_step now st req :
  history_consistent st ->
  history_consistent (fst (post_transaction now st req)).
Proof.
  intros Hinv.
  destruct (step_cases now st req) as [-> | (t & b & H)]; [exact Hinv|].
  set (st' := fst (post_transaction now st req)) in *.
  intros id. destruct (Hinv id) as [Hch Hcl].
  rewrite (get_transactions_created _ _ _ _ _ _ id H).
  rewrite (LedgerSpec.balance_after_created _ _ _ _ _ _ id H).
  destruct (LedgerSpec.post_transaction_created _ _ _ _ _ _ H)
    as (a & Hf & _ & _ & Ht & _).
  rewrite (String.eqb_sym id).
  destruct (String.eqb (req_account_id req) id) eqn:E.
  - apply String.eqb_eq in E. subst id. split.
    + apply chained_app. split; [exact Hch|].
      destruct (closing None (get_transactions st (req_account_id req)))
        as [b0|] eqn:Hb0; [|exact I].
      specialize (Hcl b0 eq_refl). unfold balance_of in Hcl.
      rewrite Hf in Hcl. simpl in Hcl. injection Hcl as <-.
      rewrite Ht. reflexivity.
    + intros b1. rewrite closing_app. intros Hb1. injection Hb1 as <-.
      rewrite Ht. reflexivity.
  - split; assumption.
Qed.

(** X4.  The history that [GET /api/v1/accounts/:id/transactions] returns
    is a chain: if, for every account, each entry starts from the balance
    the entry before it left and the last entry left the balance the
    account holds, this is still so after the server has answered any
    list of requests. *)
Theorem history_stays_consistent reqs :
  forall now st,
    history_consistent st -> history_consistent (serve now st reqs).
Proof.
  induction reqs as [|r rest IH]; intros now st H; simpl; [exact H|].
  apply IH. apply history_consistent_step. exact H.
Qed.

Lemma history_stays_consistent_witness :
  history_consistent
    (serve 7 st0 [mkRequest "account_1" "deposit" 500 "";
                  mkRequest "account_1" "withdrawal" 200 "";
                  mkRequest "account_2" "transfer" 10 ""]).
Proof.
  apply (history_stays_consistent
           [mkRequest "account_1" "deposit" 500 "";
            mkRequest "account_1" "withdrawal" 200 "";
            mkRequest "account_2" "transfer" 10 ""] 7 st0).
  intros id. split; [exact I | discriminate].
Defined.

End LedgerFacts.

(* ================================================================== *)
(** * Further properties of the account ledger on doubles *)
(* ================================================================== *)

Module LedgerDoubleFacts.
Import PrimFloat SpecFloat FloatOps FloatAxioms.
Import LedgerDouble DoubleFacts.

Local Open Scope string_scope.
Local Open Scope list_scope.
Local Open Scope float_scope.

Lemma isNaN_true x : Double.isNaN x = true <-> Prim2SF x = S754_nan.
Proof.
  split.
  - intros H. destruct (Prim2SF x) as [s|s| |s m e] eqn:E; try reflexivity;
      assert (Hn : Double.isNaN x = false)
        by (apply isNaN_false; rewrite E; discriminate);
      congruence.
  - intros H. destruct (Double.isNaN x) eqn:E; [reflexivity|].
    apply isNaN_false in E. contradiction.
Qed.

(** NaN passes the test [x <= 0], is below no number, and stays NaN
    under [+] and [-]. *)
Lemma NaN_propagates x y :
  Double.isNaN y = true ->
  (y <=? 0) = false /\ (y <? x) = false /\ (x <? y) = false /\
  Double.isNaN (x + y) = true /\ Double.isNaN (x - y) = true /\
  Double.isNaN (y - x) = true.
Proof.
  intros H. apply isNaN_true in H.
  rewrite !isNaN_true, leb_spec, !ltb_spec, add_spec, !sub_spec, H.
  unfold SFleb, SFltb, SF64add, SF64sub.
  destruct (Prim2SF x) as [s|s| |s m e]; simpl; repeat split.
Qed.

(** X2.  A request is committed exactly when the account id is given, the
    type is one of deposit, withdrawal and transfer, the amount is truthy
    and its parsed value does not pass the test [<= 0] (it is a positive
    number or NaN), the account exists and, for a withdrawal, the balance
    is not below the amount, compared as doubles. *)
Theorem committed_iff parse now st req :
  (exists st' t b,
     post_transaction parse now st req = (st', Created t b)) <->
  req_account_id req <> "" /\ In (req_type req) Ledger.valid_types /\
  falsy_json (req_amount req) = false /\
  (parseFloat parse (req_amount req) <=? 0) = false /\
  exists account,
    find_account (accounts st) (req_account_id req) = Some account /\
    (req_type req = "withdrawal" ->
     (balance account <? parseFloat parse (req_amount req)) = false).
Proof.
  split.
  - intros (st' & t & b & H).
    destruct (LedgerDoubleSpec.post_transaction_committed _ _ _ _ _ _ _ H)
      as (a & Hf & Hc & Hid & Hin & Htruthy & Hle & _).
    split; [exact Hid|]. split; [apply LedgerFacts.includes_In; exact Hin|].
    split; [exact Htruthy|]. split; [exact Hle|].
    exists a. split; [exact Hf|]. intros Hw.
    destruct (LedgerDoubleSpec.calc_new_balance_double _ _ _ _ Hc)
      as [[Hd _] | [(_ & Hge & _) | (_ & Hn & _)]];
      [congruence | exact Hge | congruence].
  - intros (Hid & Hin & Htruthy & Hle & a & Hf & Hw).
    rewrite (LedgerDoubleSpec.post_transaction_passes parse now st req Hid)
      by (try apply LedgerFacts.includes_In; assumption).
    rewrite Hf.
    assert (Hc : exists nb,
               calc_new_balance (req_type req) (balance a)
                 (parseFloat parse (req_amount req)) = Some nb).
    { unfold calc_new_balance.
      destruct (String.eqb (req_type req) "deposit"); [eauto|].
      destruct (String.eqb (req_type req) "withdrawal") eqn:Ew; [|eauto].
      apply String.eqb_eq in Ew. rewrite (Hw Ew). eauto. }
    destruct Hc as (nb & ->). eauto.
Qed.

Lemma committed_iff_witness :
  exists st' t b,
    post_transaction not_a_number 7 st0
      (mkRequest "account_2" "withdrawal" (JString "abc") "")
    = (st', Created t b).
Proof.
  apply (proj2 (committed_iff not_a_number 7 st0
                  (mkRequest "account_2" "withdrawal" (JString "abc") ""))).
  split; [discriminate|]. split; [simpl; auto|]. split; [reflexivity|].
  split; [reflexivity|].
  exists (mkAccount "account_2" "customer_2" "savings" 50 "active" 0).
  split; [reflexivity|]. intros _. reflexivity.
Defined.

(** X6.  An account can be emptied but not overdrawn: withdrawing exactly
    the whole of a positive finite balance is committed and leaves the
    balance 0, after which every withdrawal of a positive amount is refused
    with "Insufficient funds" and changes nothing. *)
Theorem emptied_account_refuses parse now st id d account :
  id <> "" -> (0 <? balance account) = true ->
  Double.isFinite (balance account) = true ->
  find_account (accounts st) id = Some account ->
  exists st' t,
    post_transaction parse now st
      (mkRequest id "withdrawal" (JNumber (balance account)) d)
      = (st', Created t 0) /\
    balance_before t = balance account /\
    balance_of st' id = Some 0 /\
    forall now' a d',
      falsy_json a = false -> (0 <? parseFloat parse a) = true ->
      post_transaction parse now' st' (mkRequest id "withdrawal" a d')
        = (st', BadRequest "Insufficient funds").
Proof.
  intros Hid Hpos Hfin Hf.
  destruct (positive_number _ Hpos) as (Hfalsy & Hle & _).
  assert (Hz : (balance account =? 0) = false).
  { unfold Double.falsy in Hfalsy. apply orb_false_iff in Hfalsy.
    exact (proj1 Hfalsy). }
  assert (Hparse : parseFloat parse (JNumber (balance account))
                   = balance account).
  { unfold parseFloat. rewrite Hz. reflexivity. }
  set (req := mkRequest id "withdrawal" (JNumber (balance account)) d).
  assert (Hstep : post_transaction parse now st req =
    (mkState (mutate_account (accounts st) id 0 now)
       (transactions st ++
        [mkTransaction (transactionIdCounter st) id "withdrawal"
           (balance account) d (balance account) 0 "completed" now])
       (S (transactionIdCounter st)),
     Created (mkTransaction (transactionIdCounter st) id "withdrawal"
                (balance account) d (balance account) 0 "completed" now)
             0)).
  { rewrite (LedgerDoubleSpec.post_transaction_passes parse now st req Hid);
      [| reflexivity | exact Hfalsy | simpl req_amount; rewrite Hparse;
                                       exact Hle].
    simpl req_account_id. simpl req_amount. simpl req_type.
    simpl req_description. rewrite Hf, Hparse.
    unfold calc_new_balance.
    change (String.eqb "withdrawal" "deposit") with false.
    change (String.eqb "withdrawal" "withdrawal") with true. cbv iota.
    rewrite ltb_irrefl, (sub_self _ Hfin Hpos). reflexivity. }
  eexists. eexists. split; [exact Hstep|]. split; [reflexivity|].
  assert (Hf' : find_account (mutate_account (accounts st) id 0 now) id
                = Some (mkAccount (acc_id account) (customer_id account)
                          (account_type account) 0 (acc_status account)
                          now)).
  { apply LedgerDoubleSpec.find_mutate_same_double. exact Hf. }
  split.
  { unfold balance_of. simpl accounts. rewrite Hf'. reflexivity. }
  intros now' a d' Htruthy Ha.
  destruct (positive_number _ Ha) as (_ & Hle' & _).
  rewrite LedgerDoubleSpec.post_transaction_passes;
    [| exact Hid | reflexivity | exact Htruthy | exact Hle'].
  simpl req_account_id. simpl req_amount. simpl req_type. simpl accounts.
  rewrite Hf'. unfold calc_new_balance.
  change (String.eqb "withdrawal" "deposit") with false.
  change (String.eqb "withdrawal" "withdrawal") with true. cbv iota.
  simpl balance. rewrite Ha. reflexivity.
Qed.

Lemma emptied_account_refuses_witness :
  exists st' t,
    post_transaction not_a_number 7 st0
      (mkRequest "account_2" "withdrawal" (JNumber 50) "all")
      = (st', Created t 0) /\
    balance_before t = 50 /\
    balance_of st' "account_2" = Some 0 /\
    forall now' a d',
      falsy_json a = false -> (0 <? parseFloat not_a_number a) = true ->
      post_transaction not_a_number now' st'
        (mkRequest "account_2" "withdrawal" a d')
        = (st', BadRequest "Insufficient funds").
Proof.
  apply (emptied_account_refuses not_a_number 7 st0 "account_2" "all"
           (mkAccount "account_2" "customer_2" "savings" 50 "active" 0)).
  - discriminate.
  - reflexivity.
  - reflexivity.
  - reflexivity.
Defined.

(** X23.  The handler has no check that the amount is a number.  A deposit
    or withdrawal whose amount is a non-empty string that does not parse
    (parseFloat gives NaN) passes every check, is committed and leaves the
    balance NaN; from then on every withdrawal on that account whose amount
    passes the validation is committed too, whatever the amount, and the
    balance stays NaN. *)
Theorem non_numeric_amount_is_committed parse now st id ty s d account :
  id <> "" -> ty = "deposit" \/ ty = "withdrawal" ->
  s <> "" -> Double.isNaN (parse s) = true ->
  find_account (accounts st) id = Some account ->
  exists st' t b,
    post_transaction parse now st (mkRequest id ty (JString s) d)
      = (st', Created t b) /\
    Double.isNaN b = true /\
    balance_of st' id = Some b /\
    forall now' a d',
      falsy_json a = false -> (parseFloat parse a <=? 0) = false ->
      exists st'' t' b',
        post_transaction parse now' st' (mkRequest id "withdrawal" a d')
          = (st'', Created t' b') /\
        Double.isNaN b' = true /\
        balance_of st'' id = Some b'.
Proof.
  intros Hid Hty Hs Hnan Hf.
  destruct (NaN_propagates (balance account) _ Hnan)
    as (Hle & _ & Hlt & Hadd & Hsub & _).
  set (b := if String.eqb ty "deposit" then balance account + parse s
            else balance account - parse s).
  assert (Hb : Double.isNaN b = true).
  { unfold b. destruct (String.eqb ty "deposit"); assumption. }
  assert (Hstep : post_transaction parse now st
                    (mkRequest id ty (JString s) d) =
    (mkState (mutate_account (accounts st) id b now)
       (transactions st ++
        [mkTransaction (transactionIdCounter st) id ty (parse s) d
           (balance account) b "completed" now])
       (S (transactionIdCounter st)),
     Created (mkTransaction (transactionIdCounter st) id ty (parse s) d
                (balance account) b "completed" now) b)).
  { rewrite LedgerDoubleSpec.post_transaction_passes;
      [| exact Hid
       | destruct Hty as [-> | ->]; reflexivity
       | simpl; apply LedgerDoubleSpec.truthy_string; exact Hs
       | exact Hle].
    simpl req_account_id. simpl req_amount. simpl req_type.
    simpl req_description. rewrite Hf. unfold parseFloat, calc_new_balance, b.
    destruct Hty as [-> | ->].
    - reflexivity.
    - change (String.eqb "withdrawal" "deposit") with false.
      change (String.eqb "withdrawal" "withdrawal") with true. cbv iota.
      rewrite Hlt. reflexivity. }
  assert (Hf' : find_account (mutate_account (accounts st) id b now) id
                = Some (mkAccount (acc_id account) (customer_id account)
                          (account_type account) b (acc_status account)
                          now)).
  { apply LedgerDoubleSpec.find_mutate_same_double. exact Hf. }
  eexists. eexists. eexists. split; [exact Hstep|]. split; [exact Hb|].
  split.
  { unfold balance_of. simpl accounts. rewrite Hf'. reflexivity. }
  intros now' a d' Htruthy Hle'.
  destruct (NaN_propagates (parseFloat parse a) _ Hb)
    as (_ & Hlt' & _ & _ & _ & Hsub').
  rewrite LedgerDoubleSpec.post_transaction_passes;
    [| exact Hid | reflexivity | exact Htruthy | exact Hle'].
  simpl req_account_id. simpl req_amount. simpl req_type. simpl accounts.
  rewrite Hf'. unfold calc_new_balance.
  change (String.eqb "withdrawal" "deposit") with false.
  change (String.eqb "withdrawal" "withdrawal") with true. cbv iota.
  simpl balance. rewrite Hlt'.
  eexists. eexists. eexists. split; [reflexivity|].
  split; [exact Hsub'|].
  unfold balance_of. simpl accounts.
  rewrite (LedgerDoubleSpec.find_mutate_same_double _ _ _ _ _ Hf').
  reflexivity.
Qed.

Lemma non_numeric_amount_is_committed_witness :
  exists st' t b,
    post_transaction not_a_number 7 st0
      (mkRequest "account_1" "deposit" (JString "abc") "")
      = (st', Created t b) /\
    Double.isNaN b = true /\
    balance_of st' "account_1" = Some b /\
    forall now' a d',
      falsy_json a = false ->
      (parseFloat not_a_number a <=? 0) = false ->
      exists st'' t' b',
        post_transaction not_a_number now' st'
          (mkRequest "account_1" "withdrawal" a d')
          = (st'', Created t' b') /\
        Double.isNaN b' = true /\
        balance_of st'' "account_1" = Some b'.
Proof.
  apply (non_numeric_amount_is_committed not_a_number 7 st0 "account_1"
           "deposit" "abc" ""
           (mkAccount "account_1" "customer_1" "savings" 1000 "active" 0)).
  - discriminate.
  - left. reflexivity.
  - discriminate.
  - reflexivity.
  - reflexivity.
Defined.

End LedgerDoubleFacts.

(* ================================================================== *)
(** * Further properties of the share registry *)
(* ================================================================== *)

Module ShareFacts.
Import Store Share ShareCreate.

Local Open Scope string_scope.
Local Open Scope list_scope.
Local Open Scope Z_scope.

(** X11.  A transfer is not all or nothing: when every check passes and
    the first insert goes through but the second comes back with an
    error, [Share.transfer] throws and the row that takes the shares off
    the source stays recorded, with no row for the destination, so the
    recorded total of shares drops by number_of_shares. *)
Theorem transfer_can_stop_half_way h o td db :
  transfer_checks h o td db = None ->
  debit_insert_error o = false -> credit_insert_error o = true ->
  transfer h o td db =
    (with_share_transactions db (share_transactions db ++ [debit_row h td]),
     Throw "Failed to create share transaction") /\
  recorded_total (share_transactions (fst (transfer h o td db)))
    = recorded_total (share_transactions db) - td_number_of_shares td /\
  recorded_for (to_member_id td)
    (share_transactions (fst (transfer h o td db)))
    = recorded_for (to_member_id td) (share_transactions db)
      + (if String.eqb (from_member_id td) (to_member_id td)
         then - td_number_of_shares td else 0).
Proof.
  intros Hc Hd Hcr. rewrite ShareSpec.transfer_unfold, Hc, Hd, Hcr.
  split; [reflexivity|].
  cbn [fst share_transactions with_share_transactions].
  rewrite ShareSpec.recorded_total_app, ShareSpec.recorded_for_app.
  unfold debit_row. cbn.
  destruct (String.eqb (from_member_id td) (to_member_id td)); split; lia.
Qed.

Lemma transfer_can_stop_half_way_witness :
  transfer host0 (mkOutage false false false false true)
    (mkTransferData member_A member_B 100 500%Q "gift to a relative") db0
  = (with_share_transactions db0
       (share_transactions db0 ++
        [debit_row host0
           (mkTransferData member_A member_B 100 500%Q
                           "gift to a relative")]),
     Throw "Failed to create share transaction").
Proof.
  apply (proj1 (transfer_can_stop_half_way host0
                  (mkOutage false false false false true)
                  (mkTransferData member_A member_B 100 500%Q
                                  "gift to a relative") db0
                  eq_refl eq_refl eq_refl)).
Defined.

Lemma transfer_times_recorded k :
  forall h td db,
    transfer_checks h healthy td db = None ->
    from_member_id td <> to_member_id td ->
    exists db',
      transfer_times k h td db = Some db' /\
      shares db' = shares db /\
      recorded_for (from_member_id td) (share_transactions db')
        = recorded_for (from_member_id td) (share_transactions db)
          - Z.of_nat k * td_number_of_shares td /\
      recorded_for (to_member_id td) (share_transactions db')
        = recorded_for (to_member_id td) (share_transactions db)
          + Z.of_nat k * td_number_of_shares td /\
      recorded_total (share_transactions db')
        = recorded_total (share_transactions db).
Proof.
  induction k as [|k IH]; intros h td db Hc Hne.
  - exists db. simpl. repeat split; lia.
  - cbn [transfer_times].
    rewrite (ShareSpec.transfer_healthy_Ok h td db Hc).
    destruct (IH h td
                (with_share_transactions db
                   (share_transactions db
                      ++ [debit_row h td; credit_row h td])))
      as (db' & Hrun & Hsh & Hf & Ht & Htot); [exact Hc | exact Hne |].
    exists db'. split; [exact Hrun|]. split; [exact Hsh|].
    rewrite Hf, Ht, Htot, Nat2Z.inj_succ.
    generalize (Z.of_nat k). intros K.
    cbn [share_transactions with_share_transactions].
    rewrite !ShareSpec.recorded_for_app, ShareSpec.recorded_total_app.
    unfold debit_row, credit_row, recorded_for, recorded_total.
    cbn [fold_right st_member_id st_number_of_shares].
    apply String.eqb_neq in Hne.
    rewrite !String.eqb_refl, Hne, (String.eqb_sym (to_member_id td)), Hne.
    repeat split; lia.
Qed.

(** X12.  The registry's two books drift apart: after k accepted
    repetitions of a transfer between two different members the holdings
    table is what it was, while the recorded movements of the source are
    down by k x number_of_shares and those of the destination up by as
    much, for every k; the recorded balance of the source has no floor. *)
Theorem repeated_transfers_drift h td db :
  snd (transfer h healthy td db) = Ok true ->
  from_member_id td <> to_member_id td ->
  forall k, exists db',
    transfer_times k h td db = Some db' /\
    shares db' = shares db /\
    recorded_for (from_member_id td) (share_transactions db')
      = recorded_for (from_member_id td) (share_transactions db)
        - Z.of_nat k * td_number_of_shares td /\
    recorded_for (to_member_id td) (share_transactions db')
      = recorded_for (to_member_id td) (share_transactions db)
        + Z.of_nat k * td_number_of_shares td /\
    recorded_total (share_transactions db')
      = recorded_total (share_transactions db).
Proof.
  intros Hok Hne k. apply transfer_times_recorded; [|exact Hne].
  rewrite ShareSpec.transfer_unfold in Hok.
  destruct (transfer_checks h healthy td db); [discriminate|reflexivity].
Qed.

Lemma repeated_transfers_drift_witness :
  exists db',
    transfer_times 5 host0
      (mkTransferData member_A member_B 100 500%Q "gift to a relative") db0
      = Some db' /\
    shares db' = shares db0 /\
    recorded_for member_A (share_transactions db')
      = recorded_for member_A (share_transactions db0) - Z.of_nat 5 * 100 /\
    recorded_for member_B (share_transactions db')
      = recorded_for member_B (share_transactions db0) + Z.of_nat 5 * 100 /\
    recorded_total (share_transactions db')
      = recorded_total (share_transactions db0).
Proof.
  apply (repeated_transfers_drift host0
           (mkTransferData member_A member_B 100 500%Q "gift to a relative")
           db0).
  - reflexivity.
  - discriminate.
Defined.

(** [Share.create] once its schema has let the data through and the
    member has been found active. *)
Lemma create_checked h o d db member :
  shareValidationSchema h d = true ->
  member_error o = false ->
  select_member db (sd_member_id d) = Some member ->
  member_status member = "active" ->
  create h o d db =
    if share_insert_error o
    then (db, Throw "Failed to create share allocation")
    else if transaction_insert_error o
    then (with_shares db (shares db ++ [new_share_row h d]),
          Throw "Failed to create share transaction")
    else (with_share_transactions
            (with_shares db (shares db ++ [new_share_row h d]))
            (share_transactions db ++
             [mkShareTransaction (uuidv4 h 1) (sd_member_id d)
                PURCHASE (sd_number_of_shares d) (total_amount_of d)
                "Initial share purchase" (now h)]),
          Ok (new_share_row h d)).
Proof.
  intros Hv Ho Hm Ha. unfold create. rewrite Hv, Ho. cbn [negb].
  cbv iota. rewrite Hm, Ha. cbn [negb String.eqb Ascii.eqb Bool.eqb].
  cbv iota.
  destruct (share_insert_error o); [reflexivity|].
  unfold bind, createTransaction, ret.
  destruct (transaction_insert_error o); reflexivity.
Qed.

Lemma allocation_Ok h o d db db' row :
  create h o d db = (db', Ok row) ->
  row = new_share_row h d /\
  db' = with_share_transactions
          (with_shares db (shares db ++ [new_share_row h d]))
          (share_transactions db ++
           [mkShareTransaction (uuidv4 h 1) (sd_member_id d) PURCHASE
              (sd_number_of_shares d) (total_amount_of d)
              "Initial share purchase" (now h)]).
Proof.
  unfold create.
  destruct (negb (shareValidationSchema h d)); [discriminate|].
  destruct (if member_error o then None
            else select_member db (sd_member_id d)) as [m|]; [|discriminate].
  destruct (negb (String.eqb (member_status m) "active")); [discriminate|].
  destruct (share_insert_error o); [discriminate|].
  unfold bind, createTransaction, ret.
  destruct (transaction_insert_error o); [discriminate|].
  intros H. injection H as <- <-. split; reflexivity.
Qed.

(** X13.  An allocation made without a status is pending, and pending
    shares do not count: when [Share.create] succeeds on such data it
    appends the holding with status pending and records a purchase of
    +number_of_shares, yet the sum of active holdings that a transfer
    checks is the same as before for every member, and so is the outcome
    of every check of [Share.transfer]. *)
Theorem allocation_is_pending h o d db db' row :
  sd_status d = None ->
  create h o d db = (db', Ok row) ->
  share_status row = PENDING /\
  shares db' = shares db ++ [row] /\
  share_transactions db' =
    share_transactions db ++
    [mkShareTransaction (uuidv4 h 1) (sd_member_id d) PURCHASE
       (sd_number_of_shares d) (total_amount_of d)
       "Initial share purchase" (now h)] /\
  recorded_for (sd_member_id d) (share_transactions db')
    = recorded_for (sd_member_id d) (share_transactions db)
      + sd_number_of_shares d /\
  (forall id, totalShares (active_shares_of db' id)
              = totalShares (active_shares_of db id)) /\
  (forall h' o' td,
     transfer_checks h' o' td db' = transfer_checks h' o' td db).
Proof.
  intros Hst H. destruct (allocation_Ok _ _ _ _ _ _ H) as (-> & ->).
  assert (Hp : share_status (new_share_row h d) = PENDING).
  { unfold new_share_row, status_of. rewrite Hst. reflexivity. }
  assert (Hact : forall id,
    active_shares_of
      (with_share_transactions
         (with_shares db (shares db ++ [new_share_row h d]))
         (share_transactions db ++
          [mkShareTransaction (uuidv4 h 1) (sd_member_id d) PURCHASE
             (sd_number_of_shares d) (total_amount_of d)
             "Initial share purchase" (now h)])) id
    = active_shares_of db id).
  { intros id. unfold active_shares_of. cbn [shares with_shares
      with_share_transactions]. rewrite filter_app. cbn [filter].
    rewrite Hp.
    change (String.eqb PENDING ACTIVE) with false.
    rewrite andb_false_r. apply app_nil_r. }
  split; [exact Hp|]. split; [reflexivity|]. split; [reflexivity|].
  split; [|split].
  - cbn [share_transactions with_share_transactions].
    rewrite ShareSpec.recorded_for_app. unfold recorded_for at 2.
    cbn [fold_right st_member_id st_number_of_shares].
    rewrite String.eqb_refl. lia.
  - intros id. rewrite Hact. reflexivity.
  - intros h' o' td. unfold transfer_checks. rewrite Hact. reflexivity.
Qed.

Lemma allocation_is_pending_witness :
  exists db' row,
    create host0 create_healthy
      (createShare_data member_B "ordinary" 25 10%Q member_A member_A
                        None None) db0 = (db', Ok row) /\
    share_status row = PENDING /\
    totalShares (active_shares_of db' member_B)
      = totalShares (active_shares_of db0 member_B) /\
    recorded_for member_B (share_transactions db')
      = recorded_for member_B (share_transactions db0) + 25.
Proof.
  destruct (create host0 create_healthy
              (createShare_data member_B "ordinary" 25 10%Q member_A
                                member_A None None) db0)
    as [db' [row|e]] eqn:H; [|vm_compute in H; discriminate H].
  exists db', row. split; [reflexivity|].
  destruct (allocation_is_pending host0 create_healthy
              (createShare_data member_B "ordinary" 25 10%Q member_A
                                member_A None None) db0 db' row
              eq_refl H) as (Hp & _ & _ & Hrec & Hact & _).
  split; [exact Hp|]. split; [apply Hact | exact Hrec].
Defined.

(** X14.  [Share.create] refuses before any write when its schema fails
    or the member is not found or not active; but when the holding has
    been inserted and the purchase record is refused by the store, it
    throws and the holding stays, without a recorded purchase. *)
Theorem allocation_failures h o d db :
  (shareValidationSchema h d = false \/
   select_member db (sd_member_id d) = None \/
   (exists m, select_member db (sd_member_id d) = Some m /\
              member_status m <> "active") ->
   exists e, create h o d db = (db, Throw e)) /\
  (forall member,
     shareValidationSchema h d = true ->
     member_error o = false ->
     select_member db (sd_member_id d) = Some member ->
     member_status member = "active" ->
     share_insert_error o = false ->
     transaction_insert_error o = true ->
     create h o d db =
       (with_shares db (shares db ++ [new_share_row h d]),
        Throw "Failed to create share transaction")).
Proof.
  split.
  - intros H. unfold create.
    destruct (shareValidationSchema h d) eqn:Hv;
      [|simpl; unfold throw; eauto].
    simpl.
    destruct (select_member db (sd_member_id d)) as [m|] eqn:Hm;
      [|destruct (member_error o); eauto].
    destruct (member_error o); [eauto|].
    destruct (String.eqb (member_status m) "active") eqn:Ea;
      [|simpl; eauto].
    exfalso. apply String.eqb_eq in Ea.
    destruct H as [H | [H | (m' & H & Hn)]]; try congruence.
  - intros member Hv Ho Hm Ha Hi Ht.
    rewrite (create_checked h o d db member Hv Ho Hm Ha), Hi, Ht.
    reflexivity.
Qed.

Lemma allocation_failures_witness :
  (exists e,
     create host0 create_healthy
       (createShare_data "not-a-uuid" "ordinary" 25 10%Q member_A member_A
                         None None) db0 = (db0, Throw e)) /\
  create host0 (ShareCreate.mkCreateOutage false false true)
    (createShare_data member_B "ordinary" 25 10%Q member_A member_A
                      None None) db0
  = (with_shares db0
       (shares db0 ++
        [new_share_row host0
           (createShare_data member_B "ordinary" 25 10%Q member_A member_A
                             None None)]),
     Throw "Failed to create share transaction").
Proof.
  split.
  - apply (proj1 (allocation_failures host0 create_healthy
             (createShare_data "not-a-uuid" "ordinary" 25 10%Q member_A
                               member_A None None) db0)).
    left. reflexivity.
  - apply (proj2 (allocation_failures host0
             (ShareCreate.mkCreateOutage false false true)
             (createShare_data member_B "ordinary" 25 10%Q member_A
                               member_A None None) db0)
             (mkMember member_B "active"));
      reflexivity.
Defined.

End ShareFacts.

(* ================================================================== *)
(** * Further properties of dividends *)
(* ================================================================== *)

Module DividendFacts.
Import Store Dividend DividendRoute.
Import Lqa.

Local Open Scope string_scope.
Local Open Scope list_scope.
Local Open Scope Q_scope.




(** ** The state machine of [approve] and [cancel] *)

Lemma update_rows_status id f rows st :
  (forall r, dividend_status (f r) = st) ->
  (forall r, dividend_id (f r) = dividend_id r) ->
  forall r, In r (update_rows id f rows) -> dividend_id r = id ->
            dividend_status r = st.
Proof.
  intros Hst Hid r Hin Hr. unfold update_rows in Hin.
  apply in_map_iff in Hin. destruct Hin as (r0 & <- & _).
  destruct (Nat.eqb (dividend_id r0) id) eqn:E; [apply Hst|].
  apply Nat.eqb_neq in E. contradiction.
Qed.

(** X16.  [approve] and [cancel] follow the state machine: [approve]
    throws, writing nothing, unless the dividend is declared, and leaves
    it approved on the instance and on its stored row; [cancel] throws,
    writing nothing, on a paid dividend, and otherwise leaves it
    cancelled, after which [approve] and [distribute] both throw. *)
Theorem approve_and_cancel_rules e h this reason db :
  (dividend_status this <> DECLARED ->
   approve e h this db =
     (db, Throw "Only declared dividends can be approved")) /\
  (dividend_status this = PAID ->
   cancel e h this reason db = (db, Throw "Cannot cancel paid dividends")) /\
  (forall db' this',
     approve e h this db = (db', Ok this') ->
     dividend_status this = DECLARED /\
     dividend_status this' = APPROVED /\
     dividend_distributions db' = dividend_distributions db /\
     forall r, In r (dividends db') -> dividend_id r = dividend_id this ->
               dividend_status r = APPROVED) /\
  (forall db' this',
     cancel e h this reason db = (db', Ok this') ->
     dividend_status this <> PAID /\
     dividend_status this' = CANCELLED /\
     (forall r, In r (dividends db') -> dividend_id r = dividend_id this ->
                dividend_status r = CANCELLED) /\
     (forall e2 h2,
        approve e2 h2 this' db' =
          (db', Throw "Only declared dividends can be approved")) /\
     (forall h2 o2,
        distribute h2 o2 this' db' =
          (db', Throw "Only approved dividends can be distributed"))).
Proof.
  split; [|split; [|split]].
  - intros H. unfold approve. apply String.eqb_neq in H. rewrite H.
    reflexivity.
  - intros H. unfold cancel. rewrite H. reflexivity.
  - intros db' this'. unfold approve.
    destruct (String.eqb (dividend_status this) DECLARED) eqn:E;
      [|discriminate].
    apply String.eqb_eq in E. simpl. destruct e; [discriminate|].
    intros H. injection H as <- <-. split; [exact E|].
    split; [reflexivity|]. split; [reflexivity|].
    cbn [dividends with_dividends].
    apply update_rows_status; reflexivity.
  - intros db' this'. unfold cancel.
    destruct (String.eqb (dividend_status this) PAID) eqn:E;
      [discriminate|].
    apply String.eqb_neq in E. destruct e; [discriminate|].
    intros H. injection H as <- <-. split; [exact E|].
    split; [reflexivity|]. split.
    + cbn [dividends with_dividends].
      apply update_rows_status; reflexivity.
    + split; reflexivity.
Qed.

Lemma approve_and_cancel_rules_witness :
  cancel false host0 (set_status PAID approved_2023) "late" db0
    = (db0, Throw "Cannot cancel paid dividends") /\
  approve false host0 cancelled_2024 db0
    = (db0, Throw "Only declared dividends can be approved").
Proof.
  split.
  - apply (proj1 (proj2 (approve_and_cancel_rules false host0
             (set_status PAID approved_2023) "late" db0))).
    reflexivity.
  - apply (proj1 (approve_and_cancel_rules false host0 cancelled_2024
                    "late" db0)).
    discriminate.
Defined.

Lemma declaration_Ok h o data db db' d :
  create h o data db = (db', Ok d) ->
  validate h data = Some d /\
  (lookup_error o = false ->
   maybeSingle (filter (same_key d) (dividends db)) = None) /\
  db' = with_dividends db (dividends db ++ [d]).
Proof.
  unfold create. destruct (validate h data) as [v|]; [|discriminate].
  destruct (if bank_error o then None
            else select_bank db (dividend_bank_id v)) as [b|];
    [|discriminate].
  destruct (negb (String.eqb (bank_status b) "active")); [discriminate|].
  destruct (lookup_error o).
  - simpl. destruct (insert_error o); [discriminate|].
    intros H. injection H as <- <-. repeat split. discriminate.
  - simpl.
    destruct (maybeSingle (filter (same_key v) (dividends db))) eqn:Hm;
      [discriminate|].
    destruct (insert_error o); [discriminate|].
    intros H. injection H as <- <-. repeat split. intros _. exact Hm.
Qed.

(** X17.  A dividend declared without a status is pending, not
    declared: what [Dividend.create] returns and stores has status
    pending, and both [approve] and [distribute] throw on it. *)
Theorem fresh_declaration_is_pending h o data db db' d :
  data_status data = None ->
  create h o data db = (db', Ok d) ->
  dividend_status d = PENDING /\
  dividends db' = dividends db ++ [d] /\
  (forall e2 h2,
     approve e2 h2 d db' =
       (db', Throw "Only declared dividends can be approved")) /\
  (forall h2 o2,
     distribute h2 o2 d db' =
       (db', Throw "Only approved dividends can be distributed")).
Proof.
  intros Hst H. destruct (declaration_Ok _ _ _ _ _ _ H) as (Hv & _ & ->).
  assert (Hp : dividend_status d = PENDING).
  { unfold validate in Hv.
    destruct (data_total_dividend_amount data); [|discriminate].
    destruct (data_record_date data); [|discriminate].
    destruct (data_payment_date data); [|discriminate].
    destruct (_ && _); [|discriminate].
    injection Hv as <-. rewrite Hst. reflexivity. }
  split; [exact Hp|]. split; [reflexivity|]. split.
  - intros e2 h2. unfold approve. rewrite Hp. reflexivity.
  - intros h2 o2. unfold distribute. rewrite Hp. reflexivity.
Qed.

Lemma fresh_declaration_is_pending_witness :
  exists db' d,
    create host0 create_healthy
      (mkDividendData None 2025 "annual" 6 (Some 0) bank_1 None
                      (Some 20%nat) (Some 30%nat) None) db0
      = (db', Ok d) /\
    dividend_status d = PENDING /\
    approve false host0 d db' =
      (db', Throw "Only declared dividends can be approved").
Proof.
  destruct (create host0 create_healthy
              (mkDividendData None 2025 "annual" 6 (Some 0) bank_1 None
                              (Some 20%nat) (Some 30%nat) None) db0)
    as [db' [d|e]] eqn:H; [|vm_compute in H; discriminate H].
  exists db', d. split; [reflexivity|].
  destruct (fresh_declaration_is_pending host0 create_healthy
              (mkDividendData None 2025 "annual" 6 (Some 0) bank_1 None
                              (Some 20%nat) (Some 30%nat) None) db0 db' d
              eq_refl H) as (Hp & _ & Ha & _).
  split; [exact Hp | apply Ha].
Defined.

(** ** [update] and the state machine *)

Lemma filter_id_update_rows id f rows :
  (forall r, dividend_id (f r) = dividend_id r) ->
  filter (fun r => Nat.eqb (dividend_id r) id) (update_rows id f rows)
  = map f (filter (fun r => Nat.eqb (dividend_id r) id) rows).
Proof.
  intros Hf. unfold update_rows. induction rows as [|r rows IH]; simpl.
  - reflexivity.
  - destruct (Nat.eqb (dividend_id r) id) eqn:E; simpl.
    + rewrite Hf, E. simpl. rewrite IH. reflexivity.
    + rewrite E. exact IH.
Qed.

Lemma update_single h this u db row :
  dividendUpdateSchema u = true ->
  filter (fun r => Nat.eqb (dividend_id r) (dividend_id this)) (dividends db)
    = [row] ->
  update false h this u db =
    (with_dividends db
       (update_rows (dividend_id this) (apply_update u (now h))
                    (dividends db)),
     Ok (apply_update u (now h) row)).
Proof.
  intros Hu Hone. unfold update. rewrite Hu. cbn [negb]. cbv beta iota.
  rewrite Hone. reflexivity.
Qed.

Lemma distribute_loop_ext h this this2 eligible :
  dividend_rate this2 = dividend_rate this ->
  dividend_id this2 = dividend_id this ->
  forall acc total,
    distribute_loop h this2 eligible acc total
    = distribute_loop h this eligible acc total.
Proof.
  intros Hr Hi. induction eligible as [|[share [m|]] rest IH];
    intros acc total; simpl; [reflexivity | | reflexivity].
  rewrite Hr, Hi.
  destruct (String.eqb (member_status m) "active"); apply IH.
Qed.

(** [distribute] on a store that answers every call. *)
Lemma distribute_healthy_run h this db row rows total :
  dividend_status this = APPROVED ->
  distribute_loop h this (eligibleMembers this db) [] 0 = Ok (rows, total) ->
  Qle_bool 0 total = true ->
  filter (fun r => Nat.eqb (dividend_id r) (dividend_id this)) (dividends db)
    = [row] ->
  distribute h distribute_healthy this db =
    (with_dividends
       (with_distributions db (dividend_distributions db ++ rows))
       (update_rows (dividend_id this)
          (apply_update (mkUpdateData None (Some total) (Some PAID)) (now h))
          (dividends db)),
     Ok (apply_update (mkUpdateData None (Some total) (Some PAID)) (now h)
                      row,
         mkSummary (List.length rows) total rows)).
Proof.
  intros Hs Hloop Hq Hone. unfold distribute. rewrite Hs.
  change (negb (String.eqb APPROVED APPROVED)) with false.
  cbv beta iota.
  cbn [members_error distribution_error update_error distribute_healthy].
  rewrite Hloop. unfold bind, ret.
  rewrite (update_single h this _ _ row); [reflexivity | | exact Hone].
  unfold dividendUpdateSchema. simpl. rewrite Hq. reflexivity.
Qed.

Lemma distribute_healthy_inv h this db db1 this1 s1 :
  distribute h distribute_healthy this db = (db1, Ok (this1, s1)) ->
  dividend_status this = APPROVED /\
  distribute_loop h this (eligibleMembers this db) [] 0
    = Ok (distributions s1, total_amount s1) /\
  Qle_bool 0 (total_amount s1) = true.
Proof.
  unfold distribute.
  destruct (String.eqb (dividend_status this) APPROVED) eqn:E;
    [|discriminate].
  apply String.eqb_eq in E. simpl.
  destruct (distribute_loop h this (eligibleMembers this db) [] 0)
    as [[rows total]|e]; [|discriminate].
  unfold bind, ret, update.
  destruct (dividendUpdateSchema _) eqn:Hu; [|discriminate]. simpl.
  destruct (single _); [|discriminate].
  intros H. injection H as <- <- <-. split; [exact E|].
  split; [reflexivity|]. simpl.
  unfold dividendUpdateSchema in Hu. simpl in Hu.
  rewrite andb_true_r in Hu. exact Hu.
Qed.

(** X18.  [update] does not follow the state machine, and [distribute]
    relies on the status alone: once a dividend (the one stored row with
    its id) has been distributed, an update of its status to approved is
    accepted, and a second [distribute] then succeeds and appends the
    same rows a second time. *)
Theorem update_reopens_paid_dividend h this db db1 this1 s1 :
  filter (fun r => Nat.eqb (dividend_id r) (dividend_id this)) (dividends db)
    = [this] ->
  distribute h distribute_healthy this db = (db1, Ok (this1, s1)) ->
  exists db2 this2 db3 this3 s2,
    dividend_status this1 = PAID /\
    update false h this1 (mkUpdateData None None (Some APPROVED)) db1
      = (db2, Ok this2) /\
    dividend_status this2 = APPROVED /\
    distribute h distribute_healthy this2 db2 = (db3, Ok (this3, s2)) /\
    distributions s2 = distributions s1 /\
    dividend_distributions db3
      = dividend_distributions db ++ distributions s1 ++ distributions s1.
Proof.
  intros Hone Hd.
  destruct (distribute_healthy_inv _ _ _ _ _ _ Hd) as (Hs & Hloop & Hq).
  rewrite (distribute_healthy_run h this db this _ _ Hs Hloop Hq Hone) in Hd.
  injection Hd as <- <- _.
  set (u1 := mkUpdateData None (Some (total_amount s1)) (Some PAID)) in *.
  set (u2 := mkUpdateData None None (Some APPROVED)).
  set (db1 := with_dividends
                (with_distributions db
                   (dividend_distributions db ++ distributions s1))
                (update_rows (dividend_id this) (apply_update u1 (now h))
                             (dividends db))).
  assert (H1 : filter (fun r => Nat.eqb (dividend_id r)
                                  (dividend_id (apply_update u1 (now h) this)))
                 (dividends db1)
               = [apply_update u1 (now h) this]).
  { cbn [dividends db1 with_dividends apply_update dividend_id].
    rewrite filter_id_update_rows by reflexivity. rewrite Hone.
    reflexivity. }
  pose proof (update_single h (apply_update u1 (now h) this) u2 db1 _
                eq_refl H1) as Hu.
  set (this2 := apply_update u2 (now h) (apply_update u1 (now h) this)) in *.
  set (db2 := with_dividends db1
                (update_rows (dividend_id (apply_update u1 (now h) this))
                             (apply_update u2 (now h)) (dividends db1))) in *.
  assert (H2 : filter (fun r => Nat.eqb (dividend_id r) (dividend_id this2))
                 (dividends db2) = [this2]).
  { cbn [dividends db2 with_dividends this2 apply_update dividend_id].
    rewrite filter_id_update_rows by reflexivity.
    cbn [apply_update dividend_id] in H1. rewrite H1. reflexivity. }
  assert (Hloop2 : distribute_loop h this2 (eligibleMembers this2 db2) [] 0
                   = Ok (distributions s1, total_amount s1)).
  { rewrite (distribute_loop_ext h this this2) by reflexivity. exact Hloop. }
  pose proof (distribute_healthy_run h this2 db2 this2 _ _ eq_refl Hloop2
                Hq H2) as Hd2.
  eexists db2, this2, _, _, _.
  split; [reflexivity|]. split; [exact Hu|]. split; [reflexivity|].
  split; [exact Hd2|]. split; [reflexivity|].
  cbn [dividend_distributions with_dividends with_distributions db2 db1].
  rewrite <- app_assoc. reflexivity.
Qed.

Lemma update_reopens_paid_dividend_witness :
  exists db1 this1 s1 db2 this2 db3 this3 s2,
    distribute host0 distribute_healthy approved_2023 db0
      = (db1, Ok (this1, s1)) /\
    dividend_status this1 = PAID /\
    update false host0 this1 (mkUpdateData None None (Some APPROVED)) db1
      = (db2, Ok this2) /\
    dividend_status this2 = APPROVED /\
    distribute host0 distribute_healthy this2 db2 = (db3, Ok (this3, s2)) /\
    distributions s2 = distributions s1 /\
    dividend_distributions db3
      = dividend_distributions db0 ++ distributions s1 ++ distributions s1.
Proof.
  destruct (distribute host0 distribute_healthy approved_2023 db0)
    as [db1 [[this1 s1]|e]] eqn:H; [|vm_compute in H; discriminate H].
  destruct (update_reopens_paid_dividend host0 approved_2023 db0 db1 this1
              s1 eq_refl H) as (db2 & this2 & db3 & this3 & s2 & Hrest).
  exists db1, this1, s1, db2, this2, db3, this3, s2.
  split; [reflexivity | exact Hrest].
Defined.

(** ** Uniqueness of declarations *)

Lemma same_key_trans d v r :
  same_key d v = true -> same_key d r = same_key v r.
Proof.
  unfold same_key. rewrite !andb_true_iff.
  intros ((Hy & Ht) & Hb).
  apply Z.eqb_eq in Hy. apply String.eqb_eq in Ht, Hb.
  rewrite Hy, Ht, Hb. reflexivity.
Qed.

Lemma filter_same_key_trans d v rows :
  same_key d v = true ->
  filter (same_key d) rows = filter (same_key v) rows.
Proof.
  intros H. apply filter_ext. intros r. apply same_key_trans. exact H.
Qed.

Lemma maybeSingle_None_unique {A} (l : list A) :
  (List.length l <= 1)%nat -> maybeSingle l = None -> l = [].
Proof.
  destruct l as [|x [|y l]]; simpl; intros Hl H;
    [reflexivity | discriminate | lia].
Qed.

(** X19.  On a store that answers, [Dividend.create] keeps declarations
    unique: if the stored dividends hold at most one row for every (year,
    type, bank), they still do after a successful declaration. *)
Theorem create_keeps_declarations_unique h data db db' d :
  unique_keys (dividends db) ->
  create h create_healthy data db = (db', Ok d) ->
  unique_keys (dividends db').
Proof.
  intros Hu H. destruct (declaration_Ok _ _ _ _ _ _ H) as (_ & Hm & ->).
  specialize (Hm eq_refl).
  pose proof (maybeSingle_None_unique _ (Hu d) Hm) as Hnone.
  intros d0. cbn [dividends with_dividends].
  rewrite filter_app, length_app. simpl.
  destruct (same_key d0 d) eqn:E.
  - rewrite (filter_same_key_trans d0 d _ E), Hnone. simpl. lia.
  - simpl. specialize (Hu d0). lia.
Qed.

Lemma create_keeps_declarations_unique_witness :
  unique_keys
    (dividends
       (fst (create host0 create_healthy
               (mkDividendData None 2025 "annual" 6 (Some 0) bank_1 None
                               (Some 20%nat) (Some 30%nat) None)
               (with_dividends db0 [])))).
Proof.
  destruct (create host0 create_healthy
              (mkDividendData None 2025 "annual" 6 (Some 0) bank_1 None
                              (Some 20%nat) (Some 30%nat) None)
              (with_dividends db0 []))
    as [db' [d|e]] eqn:H; [|vm_compute in H; discriminate H].
  apply (create_keeps_declarations_unique host0
           (mkDividendData None 2025 "annual" 6 (Some 0) bank_1 None
                           (Some 20%nat) (Some 30%nat) None)
           (with_dividends db0 []) db' d).
  - intros d0. simpl. lia.
  - exact H.
Defined.

(** X20.  The error of the duplicate lookup is ignored: when that query
    comes back with an error, [Dividend.create] goes on as if nothing
    were stored and inserts the dividend, so with a dividend of the same
    (year, type, bank) already stored the table ends with two. *)
Theorem lookup_error_lets_duplicate_in h o data db row bank :
  validate h data = Some row ->
  bank_error o = false -> lookup_error o = true -> insert_error o = false ->
  select_bank db (dividend_bank_id row) = Some bank ->
  bank_status bank = "active" ->
  create h o data db = (with_dividends db (dividends db ++ [row]), Ok row) /\
  (forall d, In d (dividends db) -> same_key row d = true ->
     (2 <= List.length
             (filter (same_key row)
                     (dividends (fst (create h o data db)))))%nat /\
     ~ unique_keys (dividends (fst (create h o data db)))).
Proof.
  intros Hv Hb Hl Hi Hs Ha.
  assert (Hc : create h o data db
               = (with_dividends db (dividends db ++ [row]), Ok row)).
  { unfold create. rewrite Hv, Hb, Hs, Ha, Hl, Hi. reflexivity. }
  split; [exact Hc|]. intros d Hin Hk. rewrite Hc.
  cbn [fst dividends with_dividends].
  assert (Hlen : (2 <= List.length
                         (filter (same_key row) (dividends db ++ [row])))%nat).
  { rewrite filter_app, length_app. simpl.
    assert (Hrr : same_key row row = true).
    { unfold same_key. rewrite Z.eqb_refl, !String.eqb_refl. reflexivity. }
    rewrite Hrr. simpl.
    assert (Hd : In d (filter (same_key row) (dividends db))).
    { apply filter_In. split; assumption. }
    destruct (filter (same_key row) (dividends db)); [destruct Hd|].
    simpl. lia. }
  split; [exact Hlen|]. intros Hu. specialize (Hu row). lia.
Qed.

Lemma lookup_error_lets_duplicate_in_witness :
  create host0 (Dividend.mkCreateOutage false true false)
    (mkDividendData None 2023 "annual" 6 (Some 0) bank_1 None (Some 20%nat)
                    (Some 30%nat) None) db0
  = (with_dividends db0
       (dividends db0 ++
        [mkDividend 100 2023 "annual" (precision2 6) 0 bank_1 PENDING
                    20 30 "" 7]),
     Ok (mkDividend 100 2023 "annual" (precision2 6) 0 bank_1 PENDING
                    20 30 "" 7)).
Proof.
  apply (proj1 (lookup_error_lets_duplicate_in host0
                  (Dividend.mkCreateOutage false true false)
                  (mkDividendData None 2023 "annual" 6 (Some 0) bank_1 None
                                  (Some 20%nat) (Some 30%nat) None) db0
                  (mkDividend 100 2023 "annual" (precision2 6) 0 bank_1
                              PENDING 20 30 "" 7)
                  (mkBank bank_1 "active")
                  eq_refl eq_refl eq_refl eq_refl eq_refl eq_refl)).
Defined.

(** X21.  The declaration route never declares: the controller hands
    [Dividend.create] data without [total_dividend_amount], which the
    model's schema requires, so [POST /api/v1/dividends] answers 400 or
    403 to every request and leaves the store as it was. *)
Theorem declaration_route_never_creates h o role user_bank body db :
  exists code text,
    declareDividend h o role user_bank body db = (db, Http code text) /\
    (code = 400%nat \/ code = 403%nat).
Proof.
  unfold declareDividend.
  destruct (negb (dividendCreateSchema h body)); [eauto|].
  destruct (negb (includes ["admin"; "board_member"] role)); [eauto|].
  rewrite DividendSpec.create_without_total by reflexivity. eauto.
Qed.

End DividendFacts.

(* ================================================================== *)
(** * Properties of recurring deposits *)
(* ================================================================== *)

Module RecurringDepositFacts.
Import PrimFloat RecurringDeposit.

Local Open Scope string_scope.
Local Open Scope list_scope.
Local Open Scope float_scope.

Lemma penalty_fold table id :
  forall acc,
    fold_left
      (fun penalty payment =>
         if String.eqb (payment_status payment) "missed"
         then penalty + payment_amount payment * PENALTY_RATE
         else penalty)
      (filter (fun p => String.eqb (rd_id p) id) table) acc
    = fold_left
        (fun penalty payment =>
           penalty + payment_amount payment * PENALTY_RATE)
        (missed table id) acc.
Proof.
  unfold missed.
  induction table as [|p rest IH]; intros acc; simpl; [reflexivity|].
  destruct (String.eqb (rd_id p) id); simpl.
  - destruct (String.eqb (payment_status p) "missed"); simpl; apply IH.
  - apply IH.
Qed.

Lemma missed_app table table' id :
  missed (table ++ table') id = missed table id ++ missed table' id.
Proof. apply filter_app. Qed.

(** X22.  The penalty of a recurring deposit is the sum, taken in table
    order and in double arithmetic, of amount x 0.01 over its missed
    payments: payments of other deposits and payments that were not missed
    add nothing, wherever they stand in the table, and the penalty is 0
    when the payments cannot be read.  It is a sum of doubles, not 1% of
    the total: one missed payment of 35 costs 0.35000000000000003, and
    missed payments of 10 and 20 cost 0.30000000000000004 where one of 30
    costs 0.3. *)
Theorem penalty_sums_missed_payments table table' id :
  calculatePenalty false table id
    = fold_left
        (fun penalty payment =>
           penalty + payment_amount payment * PENALTY_RATE)
        (missed table id) 0 /\
  (missed table' id = [] ->
   calculatePenalty false (table' ++ table) id
     = calculatePenalty false table id /\
   calculatePenalty false (table ++ table') id
     = calculatePenalty false table id) /\
  calculatePenalty true table id = 0 /\
  calculatePenalty false [mkPayment id "missed" 35] id
    = 0.35000000000000003 /\
  calculatePenalty false
    [mkPayment id "missed" 10; mkPayment id "missed" 20] id
    = 0.30000000000000004 /\
  calculatePenalty false [mkPayment id "missed" 30] id = 0.3.
Proof.
  assert (H : forall t, calculatePenalty false t id
                        = fold_left
                            (fun penalty payment =>
                               penalty + payment_amount payment * PENALTY_RATE)
                            (missed t id) 0).
  { intros t. unfold calculatePenalty, listByRD. apply penalty_fold. }
  split; [apply H|]. split.
  { intros Hnone. rewrite !H, !missed_app, Hnone, app_nil_r. simpl.
    split; reflexivity. }
  split; [reflexivity|].
  rewrite !H. unfold missed. simpl. rewrite String.eqb_refl. simpl.
  repeat split; vm_compute; reflexivity.
Qed.

Lemma penalty_sums_missed_payments_witness :
  calculatePenalty false
    [mkPayment "rd_2" "missed" 500; mkPayment "rd_1" "paid" 100;
     mkPayment "rd_1" "missed" 35] "rd_1"
  = calculatePenalty false [mkPayment "rd_1" "missed" 35] "rd_1".
Proof.
  apply (proj1 (proj1 (proj2 (penalty_sums_missed_payments
           [mkPayment "rd_1" "missed" 35]
           [mkPayment "rd_2" "missed" 500; mkPayment "rd_1" "paid" 100]
           "rd_1")) eq_refl)).
Defined.

End RecurringDepositFacts.
